(** * CSV bulk import of the hotel dashboard: a shallow embedding

    The development follows the TypeScript sources of the dashboard:

    - [ClientContext]        the provider with [generateOrderId],
                             [generateDepositId], [generateWithdrawalId];
    - [BulkOrderModal]       [handleImport] of the order import dialog;
    - [BulkDepositModal]     [handleImport] of the deposit import dialog;
    - [BulkWithdrawalModal]  [handleImport] of the withdrawal import dialog
                             that calls [addWithdrawal] per row;
    - [BulkWithdrawalBatch]  [handleImport] of the withdrawal import dialog
                             that collects the rows and writes them with
                             Firestore batches of [BATCH_SIZE];
    - [AgentImportModal]     [handleImport] of the agent import dialog;
    - [OrdersTable], [WithdrawalsTable]
                             the filters and the pages of the two tables;
    - [FormatHelpers]        [formatCurrency] and [formatDate];
    - [ClientProvider]       [addOrder], [addDeposit], [addWithdrawal] and
                             [isShopIdUnique] of the provider;
    - [WithdrawalModal]      the dialog of a single withdrawal;
    - [NavBar]               the search box of the navigation bar;
    - [AgentTable]           the export of the table of agents and the
                             editing of its cells.

    JavaScript values are modelled as follows.  A string is a sequence of
    code units below 256 ([string]): text of the first 256 code points
    (Latin-1), on which the built-ins are those of the engine.  The white
    space that [trim] and the number parsers skip is the units 9-13, 32
    and 160 (the no-break space); the units 65-90 ("A".."Z") and 192-222
    except 215 have lower-case forms, 32 units higher.  Text with a code
    unit from 256 on is outside the model.  A character beyond ASCII is
    written by its code unit, as in [String (ascii_of_nat 160) EmptyString]
    for the no-break space: in a string literal it would stand for the
    bytes of its UTF-8 encoding, which is other text.
    A number is [NaN], an infinity, or a finite binary64 value kept as the
    exact rational it denotes (the two zeros are identified: nothing in the
    modelled code tells them apart).  [undefined] and [null] are [None].

    A dialog works with the lists [clients], [orders], [deposits] and
    [withdrawals] that the provider held when the dialog was rendered; the
    identifier generators it calls read these lists, so they are arguments
    of [handleImport] and stay the same for the whole run.  The store is
    seen through the calls made to it.  [addOrder], [addDeposit] and
    [addWithdrawal] are not awaited and catch their own errors; [addAgent],
    of the team context, is taken not to throw; [batch.commit()] may be
    rejected.  [setDoc] and [batch.set] throw on data with a field that
    is [undefined], and a timestamp holds the times of the years 1 to
    9999 only.  In the provider both are written out.  In the batched
    import the undefined field is written out, and the argument [commit]
    answers, pass by pass, for the rest of what the library of the store
    decides: that [Timestamp.fromDate] takes the dates of the batch and
    that [batch.commit()] resolves.  [doc] is taken to accept the
    identifiers that the generators issue.  The progress bar, the pauses
    and the toasts are left out. *)

From Stdlib Require Import String Ascii List ZArith QArith Bool Lia.
From Stdlib Require Import DecimalString DecimalZ DecimalPos.
Import ListNotations.

Local Open Scope string_scope.
Local Open Scope list_scope.

(** ** Built-ins of the language that the sources call *)

Module JS.

(** A table cell or variable that may hold [undefined]. *)
Definition cell := option string.

(** White space and line ends: tab, line feed, vertical tab, form feed,
    carriage return, space and no-break space. *)
Definition isSpace (c : ascii) : bool :=
  let n := nat_of_ascii c in
  ((9 <=? n) && (n <=? 13) || (n =? 32) || (n =? 160))%nat.

Fixpoint trimStart (s : string) : string :=
  match s with
  | String c s' => if isSpace c then trimStart s' else s
  | EmptyString => EmptyString
  end.

Fixpoint trimEnd (s : string) : string :=
  match s with
  | String c s' =>
      let t := trimEnd s' in
      if isSpace c && (t =? "") then "" else String c t
  | EmptyString => EmptyString
  end.

(** [String.prototype.trim] *)
Definition trim (s : string) : string := trimEnd (trimStart s).

(** [toLowerCase] on one code unit: the capitals "A".."Z" and the
    accented capitals 192-222 move 32 units up; 215, the multiplication
    sign, is no letter and stays. *)
Definition lowerChar (c : ascii) : ascii :=
  let n := nat_of_ascii c in
  if ((65 <=? n) && (n <=? 90)
      || (192 <=? n) && (n <=? 222) && negb (n =? 215))%nat
  then ascii_of_nat (n + 32) else c.

(** [String.prototype.toLowerCase] *)
Fixpoint toLowerCase (s : string) : string :=
  match s with
  | String c s' => String (lowerChar c) (toLowerCase s')
  | EmptyString => EmptyString
  end.

(** [String.prototype.split] with a separator of one code unit: the
    result is never empty, [split sep ""] is [[""]]. *)
Fixpoint split (sep : ascii) (s : string) : list string :=
  match s with
  | EmptyString => [""]
  | String c s' =>
      if Ascii.eqb c sep then "" :: split sep s'
      else match split sep s' with
           | w :: ws => String c w :: ws
           | [] => [String c ""]
           end
  end.

(** [Array.prototype.join] *)
Fixpoint join (sep : string) (l : list string) : string :=
  match l with
  | [] => ""
  | [x] => x
  | x :: rest => x ++ sep ++ join sep rest
  end.

(** [Array.prototype.includes] on an array of strings; the sought value
    may be [undefined], which no string equals. *)
Definition includes (l : list string) (x : cell) : bool :=
  match x with
  | Some s => existsb (String.eqb s) l
  | None => false
  end.

(** [Array.prototype.indexOf]: the first position, [-1] when absent. *)
Fixpoint indexOf (l : list string) (x : string) : Z :=
  match l with
  | [] => -1
  | y :: rest =>
      if String.eqb y x then 0
      else let k := indexOf rest x in
           if (k <? 0)%Z then -1 else (k + 1)%Z
  end.

(** [values[k]]: [undefined] outside the array. *)
Definition at_ (values : list string) (k : Z) : cell :=
  if (k <? 0)%Z then None else nth_error values (Z.to_nat k).

(** [String.prototype.replace] with a string pattern: only the first
    occurrence is replaced. *)
Fixpoint dropPrefix (p s : string) : option string :=
  match p, s with
  | EmptyString, _ => Some s
  | String a p', String b s' =>
      if Ascii.eqb a b then dropPrefix p' s' else None
  | String _ _, EmptyString => None
  end.

Fixpoint replace (pat rep s : string) : string :=
  match dropPrefix pat s with
  | Some rest => rep ++ rest
  | None =>
      match s with
      | String c s' => String c (replace pat rep s')
      | EmptyString => EmptyString
      end
  end.

(** [String.prototype.padStart] with a filler of one code unit. *)
Fixpoint repeatChar (c : ascii) (n : nat) : string :=
  match n with
  | O => ""
  | S k => String c (repeatChar c k)
  end.

Definition padStart (width : nat) (fill : ascii) (s : string) : string :=
  repeatChar fill (width - String.length s) ++ s.

(** *** Numbers *)

Inductive number :=
| NaN
| Infinity (negative : bool)
| Finite (q : Q).

Definition isNaN (x : number) : bool :=
  match x with NaN => true | _ => false end.

(** [x <= 0] and [x < 0]; a comparison with [NaN] is false. *)
Definition leZero (x : number) : bool :=
  match x with
  | NaN => false
  | Infinity neg => neg
  | Finite q => Qle_bool q 0
  end.

Definition ltZero (x : number) : bool :=
  match x with
  | NaN => false
  | Infinity neg => neg
  | Finite q => negb (Qle_bool 0 q)
  end.

(** Round-to-nearest, ties-to-even, of a positive rational [a/d] to
    binary64: [None] when the result overflows, else the significand [m]
    and exponent [p] of the result [m * 2^p]. *)
Definition geTwoPow (a d e : Z) : bool :=
  (if 0 <=? e then d * 2 ^ e <=? a else d <=? a * 2 ^ (- e))%Z.

Definition roundPos (a d : Z) : option (Z * Z) :=
  (let e0 := Z.log2 a - Z.log2 d in
   let e := if geTwoPow a d e0 then e0 else e0 - 1 in
   let p := Z.max (e - 52) (-1074) in
   let num := if 0 <=? p then a else a * 2 ^ (- p) in
   let den := if 0 <=? p then d * 2 ^ p else d in
   let m0 := num / den in
   let r := num mod den in
   let m := if 2 * r <? den then m0
            else if den <? 2 * r then m0 + 1
            else if Z.even m0 then m0 else m0 + 1 in
   if (971 <? p) || ((p =? 971) && (2 ^ 53 <=? m)) then None
   else Some (m, p))%Z.

Definition roundToDouble (q : Q) : number :=
  let n := Qnum q in
  let d := Zpos (Qden q) in
  if (n =? 0)%Z then Finite 0
  else
    match roundPos (Z.abs n) d with
    | None => Infinity (n <? 0)%Z
    | Some (m, p) =>
        let sm := (if n <? 0 then - m else m)%Z in
        if (0 <=? p)%Z then Finite (Qmake (sm * 2 ^ p) 1)
        else Finite (Qred (Qmake sm (Z.to_pos (2 ^ (- p)))))
    end.

(** The value [m * 10^k] as an exact rational. *)
Definition scale10 (m k : Z) : Q :=
  if (0 <=? k)%Z then Qmake (m * 10 ^ k) 1
  else Qmake m (Z.to_pos (10 ^ (- k))).

Definition digitOf (radix : Z) (c : ascii) : option Z :=
  let n := Z.of_nat (nat_of_ascii c) in
  let v := (if (48 <=? n) && (n <=? 57) then n - 48
            else if (97 <=? n) && (n <=? 122) then n - 87
            else if (65 <=? n) && (n <=? 90) then n - 55
            else radix)%Z in
  if (v <? radix)%Z then Some v else None.

(** The longest prefix of digits: its value on top of [acc], its length,
    and the rest of the string. *)
Fixpoint digits (radix : Z) (s : string) (acc : Z) (count : nat)
  : Z * nat * string :=
  match s with
  | String c s' =>
      match digitOf radix c with
      | Some v => digits radix s' (radix * acc + v)%Z (S count)
      | None => (acc, count, s)
      end
  | EmptyString => (acc, count, s)
  end.

Definition signOf (s : string) : bool * string :=
  match s with
  | String "-" r => (true, r)
  | String "+" r => (false, r)
  | _ => (false, s)
  end.

(** [Number.parseFloat] on a string: leading white space is skipped and
    the longest prefix that is a decimal literal is read. *)
Definition parseFloatString (s : string) : number :=
  let '(neg, s1) := signOf (trimStart s) in
  match dropPrefix "Infinity" s1 with
  | Some _ => Infinity neg
  | None =>
      let '(ip, ni, s2) := digits 10 s1 0 0 in
      let '(mant, nf, s3) :=
        match s2 with
        | String "." r => digits 10 r ip 0
        | _ => (ip, O, s2)
        end in
      if (ni + nf =? 0)%nat then NaN
      else
        let ex :=
          match s3 with
          | String c r =>
              if Ascii.eqb c "e" || Ascii.eqb c "E" then
                let '(eneg, r1) := signOf r in
                let '(ev, ne, _) := digits 10 r1 0 0 in
                if (ne =? 0)%nat then 0%Z
                else if eneg then (- ev)%Z else ev
              else 0%Z
          | EmptyString => 0%Z
          end in
        let signed := (if neg then - mant else mant)%Z in
        roundToDouble (scale10 signed (ex - Z.of_nat nf))
  end.

(** The argument is first converted to a string; [undefined] becomes
    the text "undefined", which is no number. *)
Definition toStringCell (x : cell) : string :=
  match x with Some s => s | None => "undefined" end.

Definition parseFloat (x : cell) : number := parseFloatString (toStringCell x).

(** [Number.parseInt(s, radix)].  [radix] is [None] when the call passes
    none; then a prefix [0x] or [0X] selects base sixteen.  (For more than
    twenty significant decimal digits an engine may round earlier than
    this model does.) *)
Definition parseIntString (s : string) (radix : option Z) : number :=
  let '(neg, s1) := signOf (trimStart s) in
  let '(r, s2) :=
    match radix, s1 with
    | None, String "0" (String x rest) =>
        if Ascii.eqb x "x" || Ascii.eqb x "X" then (16%Z, rest)
        else (10%Z, s1)
    | None, _ => (10%Z, s1)
    | Some k, _ => (k, s1)
    end in
  let '(v, n, _) := digits r s2 0 0 in
  if (n =? 0)%nat then NaN
  else roundToDouble (Qmake (if neg then - v else v) 1).

Definition parseInt (x : cell) (radix : option Z) : number :=
  parseIntString (toStringCell x) radix.

(** [x + 1] *)
Definition succ (x : number) : number :=
  match x with
  | Finite q => roundToDouble (Qred (q + 1))
  | _ => x
  end.

(** [Number.prototype.toString].  Integers of magnitude up to [2^53]
    print as their decimal digits; the notation of the other finite
    values (the shortest digits that give the number back) is left to the
    engine ([exotic]). *)
Definition toString (exotic : Q -> string) (x : number) : string :=
  match x with
  | NaN => "NaN"
  | Infinity neg => if neg then "-Infinity" else "Infinity"
  | Finite q =>
      let q' := Qred q in
      if (Zpos (Qden q') =? 1)%Z && (Z.abs (Qnum q') <=? 2 ^ 53)%Z
      then NilZero.string_of_int (Z.to_int (Qnum q'))
      else exotic q
  end.

End JS.

(** ** Domain records ([@/types/client]) and the surroundings of a run *)

Inductive PaymentMode := Crypto | OnlineBanking | Ewallet.

Definition paymentModeLabel (m : PaymentMode) : string :=
  match m with
  | Crypto => "Crypto"
  | OnlineBanking => "Online Banking"
  | Ewallet => "Ewallet"
  end.

Inductive OrderStatus := Pending | Processing | Completed.

Definition orderStatusLabel (s : OrderStatus) : string :=
  match s with
  | Pending => "Pending"
  | Processing => "Processing"
  | Completed => "Completed"
  end.

(** A date field holds text or a [Date] object (its time value). *)
Inductive DateField :=
| DateText (text : string)
| DateObject (time : Z).

Record Client := mkClient {
  client_shopId : string;
  client_clientName : string;
  client_agent : string
}.

Record Order := mkOrder {
  orderId : string;
  order_shopId : JS.cell;
  order_clientName : string;
  order_agent : string;
  order_date : option DateField;
  location : JS.cell;
  price : JS.number;
  status : OrderStatus
}.

Record Deposit := mkDeposit {
  depositId : string;
  deposit_shopId : JS.cell;
  deposit_clientName : string;
  deposit_agent : string;
  deposit_date : DateField;
  deposit_amount : JS.number;
  deposit_paymentMode : PaymentMode
}.

Record Withdrawal := mkWithdrawal {
  withdrawalId : string;
  withdrawal_shopId : JS.cell;
  withdrawal_clientName : string;
  withdrawal_agent : string;
  withdrawal_date : DateField;
  withdrawal_amount : JS.number;
  withdrawal_paymentMode : PaymentMode
}.

Record Agent := mkAgent {
  name : string;
  addedToday : JS.number;
  monthlyAdded : JS.number;
  openAccounts : JS.number;
  totalDeposits : JS.number
}.

(** What a run takes from outside the repository: the clock, the date
    parsers and printer of the engine and of date-fns, and the engine's
    notation of numbers that [JS.toString] leaves open. *)
Record Env := mkEnv {
  clock : nat -> Z;
    (* [new Date()] while the data line [i] is handled *)
  Date_parse : string -> option Z;
    (* [new Date(text)]; [None] is an invalid date *)
  dateFns_parse : string -> Z -> option Z;
    (* [parse(text, "MM/dd/yyyy", reference)]; [None] is an invalid date *)
  dateFns_format : Z -> string;
    (* [format(date, "yyyy-MM-dd")] *)
  exotic : Q -> string
    (* the engine's numeral for a number that is no integer up to 2^53 *)
}.

(** ** The provider: identifier generation *)

Module ClientContext.

(** The three generators differ in the prefix and in the list they read:
    the number after the prefix of the last identifier, plus one, printed
    with at least five digits. *)
Definition nextId (env : Env) (prefix : string) (lastId : option string)
  : string :=
  let lastNumber :=
    match lastId with
    | Some id => JS.parseInt (Some (JS.replace prefix "" id)) None
    | None => JS.Finite 0
    end in
  let newId := JS.succ lastNumber in
  prefix ++ JS.padStart 5 "0" (JS.toString (exotic env) newId).

(** [orders[orders.length - 1]] when the array is not empty *)
Definition lastOf {A} (l : list A) : option A := nth_error l (length l - 1).

Definition generateOrderId (env : Env) (orders : list Order) : string :=
  nextId env "OR" (option_map orderId (lastOf orders)).

Definition generateDepositId (env : Env) (deposits : list Deposit) : string :=
  nextId env "DP" (option_map depositId (lastOf deposits)).

Definition generateWithdrawalId (env : Env) (withdrawals : list Withdrawal)
  : string :=
  nextId env "WD" (option_map withdrawalId (lastOf withdrawals)).

End ClientContext.

(** ** What the five [handleImport] bodies have in common *)

Module Import CsvImport.

(** What reaches the [catch] block: the [TypeError] of a method called
    on [undefined], or an error that the library of the store throws in
    a pass of the commit loop. *)
Inductive exn := TypeError | FirestoreError.

(** The end of a run.  [Aborted] is an early [return] after [setError];
    [Crashed] is the [catch] block; [Imported] is the normal end, where
    the counters are published.  [calls] are the values handed to the
    store, in order. *)
Inductive Outcome (C : Type) :=
| Aborted (message : string)
| Crashed (e : exn) (calls : list C)
| Imported (successCount errorCount : nat) (calls : list C).

Arguments Aborted {C} message.
Arguments Crashed {C} e calls.
Arguments Imported {C} successCount errorCount calls.

Definition callsOf {C} (o : Outcome C) : list C :=
  match o with
  | Aborted _ => []
  | Crashed _ calls => calls
  | Imported _ _ calls => calls
  end.

Definition newline : ascii := ascii_of_nat 10.

Definition headerOf (line : string) : list string :=
  map (fun h => JS.toLowerCase (JS.trim h)) (JS.split "," line).

Definition missingFields (requiredFields header : list string)
  : list string :=
  filter (fun field => negb (JS.includes header (Some field))) requiredFields.

(** The lines of the file and the header check (up to "Process data
    rows"): an error text, or the header and the data lines. *)
Definition readCsv (requiredFields : list string) (csvData : string)
  : string + (list string * list string) :=
  if JS.trim csvData =? "" then inl "Please enter or upload CSV data"
  else
    let lines := JS.split newline (JS.trim csvData) in
    if (length lines <? 2)%nat
    then inl "CSV must contain at least a header row and one data row"
    else
      let header := headerOf (hd "" lines) in
      let missing := missingFields requiredFields header in
      if (0 <? length missing)%nat
      then inl ("CSV is missing required fields: " ++ JS.join ", " missing)%string
      else inr (header, tl lines).

(** One pass of the loop body over a non-blank line ends in one of the
    three ways: the record is created and counted, [errorCount++;
    continue], or an exception leaves the loop. *)
Inductive RowResult (R : Type) :=
| Accept (r : R)
| Reject
| Throw.

Arguments Accept {R} r.
Arguments Reject {R}.
Arguments Throw {R}.

Record Tally (R : Type) := mkTally {
  successCount : nat;
  errorCount : nat;
  added : list R
}.

Arguments mkTally {R}.
Arguments successCount {R}.
Arguments errorCount {R}.
Arguments added {R}.

Inductive LoopEnd (R : Type) :=
| Finished (t : Tally R)
| Thrown (t : Tally R).

Arguments Finished {R} t.
Arguments Thrown {R} t.

Definition cellsOf (line : string) : list string :=
  map JS.trim (JS.split "," line).

Definition isBlank (line : string) : bool := JS.trim line =? "".

(** [for (let i = ...; i < lines.length; i++)] over the data lines that
    remain, [i] being the index of the first of them. *)
Fixpoint forRows {R} (row : nat -> list string -> RowResult R)
         (lines : list string) (i : nat) (t : Tally R) : LoopEnd R :=
  match lines with
  | [] => Finished t
  | line :: rest =>
      if isBlank line then forRows row rest (S i) t
      else
        match row i (cellsOf line) with
        | Accept r =>
            forRows row rest (S i)
              (mkTally (S (successCount t)) (errorCount t) (added t ++ [r]))
        | Reject =>
            forRows row rest (S i)
              (mkTally (successCount t) (S (errorCount t)) (added t))
        | Throw => Thrown t
        end
  end.

Definition start {R} : Tally R := mkTally 0 0 [].

(** [clients.find((c) => c.shopId === shopId)] *)
Definition findClient (clients : list Client) (shopId : JS.cell)
  : option Client :=
  match shopId with
  | Some s => find (fun c => client_shopId c =? s) clients
  | None => None
  end.

(** [["Crypto", "Online Banking", "Ewallet"].includes(paymentMode)],
    giving the label that matched. *)
Definition exactPaymentMode (x : JS.cell) : option PaymentMode :=
  if JS.includes ["Crypto"] x then Some Crypto
  else if JS.includes ["Online Banking"] x then Some OnlineBanking
  else if JS.includes ["Ewallet"] x then Some Ewallet
  else None.

(** [text || fallback] *)
Definition orElse (text : option string) (fallback : string) : string :=
  match text with
  | Some "" | None => fallback
  | Some s => s
  end.

End CsvImport.

(** ** Orders *)

Module BulkOrderModal.

Definition requiredFields : list string :=
  ["shop id"; "date"; "location"; "price"; "status"].

(** [["Pending", "Processing", "Completed"].includes(status)] *)
Definition exactStatus (x : JS.cell) : option OrderStatus :=
  if JS.includes ["Pending"] x then Some Pending
  else if JS.includes ["Processing"] x then Some Processing
  else if JS.includes ["Completed"] x then Some Completed
  else None.

(** The loop body.  The source also evaluates [new Date(orderDate)] and
    drops the result; the date of the record is the cell as it stands. *)
Definition row (env : Env) (clients : list Client) (orders : list Order)
           (shopIdIndex dateIndex locationIndex priceIndex statusIndex : Z)
           (i : nat) (values : list string) : RowResult Order :=
  let shopId := JS.at_ values shopIdIndex in
  match findClient clients shopId with
  | None => Reject
  | Some client =>
      let orderDate := JS.at_ values dateIndex in
      let processedDate :=
        match orderDate with
        | Some "" | None => None
        | Some text => Some (DateText text)
        end in
      let price := JS.parseFloat (JS.at_ values priceIndex) in
      if JS.isNaN price || JS.leZero price then Reject
      else
        match exactStatus (JS.at_ values statusIndex) with
        | None => Reject
        | Some status =>
            Accept (mkOrder (ClientContext.generateOrderId env orders)
                      shopId (client_clientName client) (client_agent client)
                      processedDate (JS.at_ values locationIndex)
                      price status)
        end
  end.

(** [calls] are the arguments of [addOrder]. *)
Definition handleImport (env : Env) (clients : list Client)
           (orders : list Order) (csvData : string) : Outcome Order :=
  match readCsv requiredFields csvData with
  | inl message => Aborted message
  | inr (header, lines) =>
      let shopIdIndex := JS.indexOf header "shop id" in
      let dateIndex := JS.indexOf header "date" in
      let locationIndex := JS.indexOf header "location" in
      let priceIndex := JS.indexOf header "price" in
      let statusIndex := JS.indexOf header "status" in
      match forRows (row env clients orders shopIdIndex dateIndex
                       locationIndex priceIndex statusIndex)
              lines 1 start with
      | Thrown t => Crashed TypeError (added t)
      | Finished t => Imported (successCount t) (errorCount t) (added t)
      end
  end.

End BulkOrderModal.

(** ** Deposits *)

Module BulkDepositModal.

Definition requiredFields : list string :=
  ["shop id"; "date"; "amount"; "payment mode"].

(** The [try] block around the date: an invalid date and an exception
    both end in today's date. *)
Definition depositDateOf (env : Env) (i : nat) (dateValue : JS.cell)
  : string :=
  let today := clock env i in
  match dateValue with
  | Some text =>
      match dateFns_parse env text today with
      | Some parsedDate => dateFns_format env parsedDate
      | None => dateFns_format env today
      end
  | None => dateFns_format env today
  end.

Definition row (env : Env) (clients : list Client) (deposits : list Deposit)
           (shopIdIndex dateIndex amountIndex paymentModeIndex : Z)
           (i : nat) (values : list string) : RowResult Deposit :=
  let shopId := JS.at_ values shopIdIndex in
  match findClient clients shopId with
  | None => Reject
  | Some client =>
      let depositDate := depositDateOf env i (JS.at_ values dateIndex) in
      let amount := JS.parseFloat (JS.at_ values amountIndex) in
      if JS.isNaN amount || JS.leZero amount then Reject
      else
        match exactPaymentMode (JS.at_ values paymentModeIndex) with
        | None => Reject
        | Some paymentMode =>
            Accept (mkDeposit (ClientContext.generateDepositId env deposits)
                      shopId (client_clientName client) (client_agent client)
                      (DateText depositDate) amount paymentMode)
        end
  end.

(** [calls] are the arguments of [addDeposit]. *)
Definition handleImport (env : Env) (clients : list Client)
           (deposits : list Deposit) (csvData : string) : Outcome Deposit :=
  match readCsv requiredFields csvData with
  | inl message => Aborted message
  | inr (header, lines) =>
      let shopIdIndex := JS.indexOf header "shop id" in
      let dateIndex := JS.indexOf header "date" in
      let amountIndex := JS.indexOf header "amount" in
      let paymentModeIndex := JS.indexOf header "payment mode" in
      match forRows (row env clients deposits shopIdIndex dateIndex
                       amountIndex paymentModeIndex)
              lines 1 start with
      | Thrown t => Crashed TypeError (added t)
      | Finished t => Imported (successCount t) (errorCount t) (added t)
      end
  end.

End BulkDepositModal.

(** ** Withdrawals, one [addWithdrawal] per row *)

Module BulkWithdrawalModal.

Definition requiredFields : list string :=
  ["shop id"; "date"; "amount"; "payment mode"].

(** "Validate payment mode": the exact labels, then the synonyms of the
    trimmed, lower-cased cell.  The second step calls [trim] on the cell
    and throws when the cell is [undefined]. *)
Definition paymentModeOf (x : JS.cell) : RowResult PaymentMode :=
  match exactPaymentMode x with
  | Some paymentMode => Accept paymentMode
  | None =>
      match x with
      | None => Throw
      | Some text =>
          let normalizedMode := Some (JS.toLowerCase (JS.trim text)) in
          if JS.includes ["crypto"; "cryptocurrency"; "bitcoin"; "eth"; "btc"]
               normalizedMode
          then Accept Crypto
          else if JS.includes ["online"; "online banking"; "internet banking"]
                    normalizedMode
          then Accept OnlineBanking
          else if JS.includes ["ewallet"; "e-wallet"; "digital wallet"; "wallet"]
                    normalizedMode
          then Accept Ewallet
          else Reject
      end
  end.

(** The [try] block around the date, before formatting. *)
Definition dateOf (env : Env) (i : nat) (withdrawalDate : JS.cell) : Z :=
  match withdrawalDate with
  | Some text =>
      match Date_parse env text with
      | Some parsedDate => parsedDate
      | None => clock env i
      end
  | None => clock env i
  end.

Definition row (env : Env) (clients : list Client)
           (withdrawals : list Withdrawal)
           (shopIdIndex dateIndex amountIndex paymentModeIndex : Z)
           (i : nat) (values : list string) : RowResult Withdrawal :=
  let shopId := JS.at_ values shopIdIndex in
  let client := findClient clients shopId in
  let clientName :=
    orElse (option_map client_clientName client) "Unknown Client" in
  let agent := orElse (option_map client_agent client) "Unknown Agent" in
  let withdrawalDate :=
    dateFns_format env (dateOf env i (JS.at_ values dateIndex)) in
  let amount := JS.parseFloat (JS.at_ values amountIndex) in
  if JS.isNaN amount || JS.leZero amount then Reject
  else
    match paymentModeOf (JS.at_ values paymentModeIndex) with
    | Throw => Throw
    | Reject => Reject
    | Accept paymentMode =>
        Accept (mkWithdrawal
                  (ClientContext.generateWithdrawalId env withdrawals)
                  shopId clientName agent (DateText withdrawalDate)
                  amount paymentMode)
    end.

(** [calls] are the arguments of [addWithdrawal]. *)
Definition handleImport (env : Env) (clients : list Client)
           (withdrawals : list Withdrawal) (csvData : string)
  : Outcome Withdrawal :=
  match readCsv requiredFields csvData with
  | inl message => Aborted message
  | inr (header, lines) =>
      let shopIdIndex := JS.indexOf header "shop id" in
      let dateIndex := JS.indexOf header "date" in
      let amountIndex := JS.indexOf header "amount" in
      let paymentModeIndex := JS.indexOf header "payment mode" in
      match forRows (row env clients withdrawals shopIdIndex dateIndex
                       amountIndex paymentModeIndex)
              lines 1 start with
      | Thrown t => Crashed TypeError (added t)
      | Finished t => Imported (successCount t) (errorCount t) (added t)
      end
  end.

End BulkWithdrawalModal.

(** ** Withdrawals, written with Firestore batches *)

Module BulkWithdrawalBatch.

Definition requiredFields : list string :=
  ["shop id"; "date"; "amount"; "payment mode"].

Definition BATCH_SIZE : nat := 450.

Definition row (env : Env) (clients : list Client)
           (withdrawals : list Withdrawal)
           (shopIdIndex dateIndex amountIndex paymentModeIndex : Z)
           (i : nat) (values : list string) : RowResult Withdrawal :=
  if (length values <? 4)%nat then Reject
  else
    let shopId := JS.at_ values shopIdIndex in
    let client := findClient clients shopId in
    let clientName :=
      orElse (option_map client_clientName client) "Unknown Client" in
    let agent := orElse (option_map client_agent client) "Unknown Agent" in
    let parsedDate :=
      BulkWithdrawalModal.dateOf env i (JS.at_ values dateIndex) in
    let amount := JS.parseFloat (JS.at_ values amountIndex) in
    if JS.isNaN amount || JS.leZero amount then Reject
    else
      match BulkWithdrawalModal.paymentModeOf
              (JS.at_ values paymentModeIndex) with
      | Throw => Throw
      | Reject => Reject
      | Accept paymentMode =>
          Accept (mkWithdrawal
                    (ClientContext.generateWithdrawalId env withdrawals)
                    shopId clientName agent (DateObject parsedDate)
                    amount paymentMode)
      end.

(** [allWithdrawals.slice(i, j)] *)
Definition slice {A} (l : list A) (i j : nat) : list A :=
  firstn (j - i) (skipn i l).

(** [for (let i = 0; i < allWithdrawals.length; i += BATCH_SIZE)]: the
    batches that the passes have written, and whether every pass went
    through.  [commit k] tells whether the pass number [k] goes through;
    a pass that does not, throws out of the loop and writes nothing:
    the writes of a batch reach the store together, with
    [batch.commit()], at the end of the pass.  [fuel] bounds the number
    of passes. *)
Fixpoint commitFrom {A} (fuel : nat) (commit : nat -> bool)
         (allWithdrawals : list A) (i : nat) : list (list A) * bool :=
  match fuel with
  | O => ([], true)
  | S fuel' =>
      if (i <? length allWithdrawals)%nat then
        let batchWithdrawals := slice allWithdrawals i (i + BATCH_SIZE) in
        if commit (i / BATCH_SIZE)%nat then
          let '(batches, ok) :=
            commitFrom fuel' commit allWithdrawals (i + BATCH_SIZE) in
          (batchWithdrawals :: batches, ok)
        else ([], false)
      else ([], true)
  end.

(** Every pass moves [i] forward, so [length allWithdrawals] passes end
    the loop. *)
Definition commitAll {A} (commit : nat -> bool) (allWithdrawals : list A)
  : list (list A) * bool :=
  commitFrom (length allWithdrawals) commit allWithdrawals 0.

(** [batch.set(withdrawalDoc, {shopId: withdrawal.shopId, ...})] throws
    on data with a field that is [undefined].  Of the fields of a
    collected withdrawal only the shop ID can be: the names are text,
    the amount is a number, the payment mode is one of the three. *)
Definition setAccepts (withdrawal : Withdrawal) : bool :=
  match withdrawal_shopId withdrawal with
  | Some _ => true
  | None => false
  end.

(** Whether the pass number [k] over [allWithdrawals] goes through:
    [batch.set] takes every withdrawal of its batch, and the library of
    the store, whose part is [commit k], lets the pass end:
    [Timestamp.fromDate] takes the dates of the batch and
    [batch.commit()] resolves. *)
Definition passes (commit : nat -> bool) (allWithdrawals : list Withdrawal)
           (k : nat) : bool :=
  forallb setAccepts
    (slice allWithdrawals (k * BATCH_SIZE) (k * BATCH_SIZE + BATCH_SIZE))
  && commit k.

(** [calls] are the batches written, each with the withdrawals set in
    it; [commit k] is what the library of the store decides in the pass
    number [k] (see [passes]). *)
Definition handleImport (env : Env) (commit : nat -> bool)
           (clients : list Client) (withdrawals : list Withdrawal)
           (csvData : string) : Outcome (list Withdrawal) :=
  match readCsv requiredFields csvData with
  | inl message => Aborted message
  | inr (header, lines) =>
      let shopIdIndex := JS.indexOf header "shop id" in
      let dateIndex := JS.indexOf header "date" in
      let amountIndex := JS.indexOf header "amount" in
      let paymentModeIndex := JS.indexOf header "payment mode" in
      match forRows (row env clients withdrawals shopIdIndex dateIndex
                       amountIndex paymentModeIndex)
              lines 1 start with
      | Thrown _ => Crashed TypeError []
      | Finished t =>
          let '(batches, ok) :=
            commitAll (passes commit (added t)) (added t) in
          if ok then Imported (successCount t) (errorCount t) batches
          else Crashed FirestoreError batches
      end
  end.

End BulkWithdrawalBatch.

(** ** Agents *)

Module AgentImportModal.

Definition requiredFields : list string :=
  ["agent name"; "added today"; "monthly added"; "total deposits"].

Definition row (nameIndex addedTodayIndex monthlyAddedIndex
                totalDepositsIndex : Z)
           (i : nat) (values : list string) : RowResult Agent :=
  match JS.at_ values nameIndex with
  | Some "" | None => Reject
  | Some name =>
      let addedToday := JS.parseInt (JS.at_ values addedTodayIndex) (Some 10%Z) in
      let monthlyAdded :=
        JS.parseInt (JS.at_ values monthlyAddedIndex) (Some 10%Z) in
      let totalDeposits := JS.parseFloat (JS.at_ values totalDepositsIndex) in
      if JS.isNaN addedToday || JS.ltZero addedToday
         || JS.isNaN monthlyAdded || JS.ltZero monthlyAdded
         || JS.isNaN totalDeposits || JS.ltZero totalDeposits
      then Reject
      else Accept (mkAgent name addedToday monthlyAdded (JS.Finite 0)
                     totalDeposits)
  end.

(** [calls] are the arguments of [addAgent]. *)
Definition handleImport (csvData : string) : Outcome Agent :=
  match readCsv requiredFields csvData with
  | inl message => Aborted message
  | inr (header, lines) =>
      let nameIndex := JS.indexOf header "agent name" in
      let addedTodayIndex := JS.indexOf header "added today" in
      let monthlyAddedIndex := JS.indexOf header "monthly added" in
      let totalDepositsIndex := JS.indexOf header "total deposits" in
      match forRows (row nameIndex addedTodayIndex monthlyAddedIndex
                       totalDepositsIndex)
              lines 1 start with
      | Thrown t => Crashed TypeError (added t)
      | Finished t => Imported (successCount t) (errorCount t) (added t)
      end
  end.

End AgentImportModal.

(** ** Vocabulary of the statements *)

(** The data lines that are not blank: the rows of the file. *)
Definition nonBlank (lines : list string) : list string :=
  filter (fun line => negb (isBlank line)) lines.

Definition tallyOf {R} (e : LoopEnd R) : Tally R :=
  match e with
  | Finished t => t
  | Thrown t => t
  end.

(** The lines of the trimmed input. *)
Definition linesOf (csvData : string) : list string :=
  JS.split newline (JS.trim csvData).

(** A structural error: fewer than two lines, or a required column that
    the header does not name. *)
Definition structuralError (requiredFields : list string) (csvData : string)
  : Prop :=
  (length (linesOf csvData) < 2)%nat \/
  exists field,
    In field requiredFields /\
    JS.includes (headerOf (hd "" (linesOf csvData))) (Some field) = false.

(** The text that names the structural error. *)
Definition structuralMessage (requiredFields : list string) (csvData : string)
  : string :=
  if JS.trim csvData =? "" then "Please enter or upload CSV data"
  else if (length (linesOf csvData) <? 2)%nat
  then "CSV must contain at least a header row and one data row"
  else "CSV is missing required fields: "
       ++ JS.join ", "
            (missingFields requiredFields (headerOf (hd "" (linesOf csvData)))).

(** A run that ends normally has counted every non-blank data line once,
    and has handed [size calls = successCount] records to the store. *)
Definition countsRows {C} (size : list C -> nat) (requiredFields : list string)
           (csvData : string) (o : Outcome C) : Prop :=
  forall s e calls,
    o = Imported s e calls ->
    exists header lines,
      readCsv requiredFields csvData = inr (header, lines) /\
      (s + e = length (nonBlank lines))%nat /\
      size calls = s.

(** A small world for the closed examples: a clock, and date parsers that
    know one day. *)
Definition sampleEnv : Env :=
  mkEnv (fun i => 1700000000000 + Z.of_nat i)%Z
        (fun text => if text =? "2023-01-01" then Some 1672531200000%Z else None)
        (fun text _ => if text =? "01/01/2023" then Some 1672531200000%Z else None)
        (fun time => if (time =? 1672531200000)%Z then "2023-01-01"
                     else "2023-11-14")
        (fun _ => "1e+21").

Definition lf : string := String newline "".

(** The sizes of the slices that the commit loop takes from a list of
    [n] records, starting at index [i]. *)
Fixpoint sliceSizes (fuel n i : nat) : list nat :=
  match fuel with
  | O => []
  | S fuel' =>
      if (i <? n)%nat
      then Nat.min BulkWithdrawalBatch.BATCH_SIZE (n - i)
           :: sliceSizes fuel' n (i + BulkWithdrawalBatch.BATCH_SIZE)
      else []
  end.

(** Inputs of the closed examples. *)
Definition sampleClients : list Client := [mkClient "S1" "Ann" "Bob"].

Definition noAmountCsv : string :=
  "shop id,date,payment mode" ++ lf ++ "S1,2023-01-01,Crypto".

Definition blankOrderCsv : string :=
  "shop id,date,location,price,status" ++ lf
  ++ "S1,2023-01-01,Paris,10,Pending" ++ lf
  ++ "   " ++ lf
  ++ "S9,2023-01-01,Rome,10,Pending".

Definition blankMoneyCsv : string :=
  "shop id,date,amount,payment mode" ++ lf
  ++ "S1,01/01/2023,100.00,Crypto" ++ lf
  ++ lf
  ++ "S1,01/01/2023,-5,Crypto".

Definition blankAgentCsv : string :=
  "agent name,added today,monthly added,total deposits" ++ lf
  ++ "Al,1,2,3.5" ++ lf
  ++ "  " ++ lf
  ++ "Bo,1,2,-3".

Fixpoint repeatLine (n : nat) (line : string) : string :=
  match n with
  | O => ""
  | S k => lf ++ line ++ repeatLine k line
  end.

(** A header and a thousand valid rows. *)
Definition thousandCsv : string :=
  "shop id,date,amount,payment mode"
  ++ repeatLine 1000 "S1,2023-01-01,5,Crypto".

(** An amount that is no number or is negative, and an amount that the
    money imports let through: a number above zero. *)
Definition badAmount (x : JS.number) : Prop :=
  JS.isNaN x = true \/ JS.ltZero x = true.

Definition aboveZero (x : JS.number) : Prop :=
  JS.isNaN x = false /\ JS.leZero x = false.

Definition notNegative (x : JS.number) : Prop :=
  JS.isNaN x = false /\ JS.ltZero x = false.

(** The shop ID of a row matches no client. *)
Definition unknownShop (clients : list Client) (shopId : JS.cell) : Prop :=
  forall c, In c clients -> Some (client_shopId c) <> shopId.

(** The example of the specification: two rows, no client. *)
Definition scenarioCsv : string :=
  "shop id,date,amount,payment mode" ++ lf
  ++ "S1,2023-01-01,100.00,Crypto" ++ lf
  ++ "S2,bad,-5,Unknown".

(** The declared synonyms of the payment modes, as a table. *)
Definition synonymTable : list (string * PaymentMode) :=
  [ ("crypto", Crypto); ("cryptocurrency", Crypto); ("bitcoin", Crypto);
    ("eth", Crypto); ("btc", Crypto);
    ("online", OnlineBanking); ("online banking", OnlineBanking);
    ("internet banking", OnlineBanking);
    ("ewallet", Ewallet); ("e-wallet", Ewallet); ("digital wallet", Ewallet);
    ("wallet", Ewallet) ].

Definition lookupSynonym (text : string) : option PaymentMode :=
  option_map snd (find (fun entry => fst entry =? text) synonymTable).

Definition cryptoDepositCsv : string :=
  "shop id,date,amount,payment mode" ++ lf ++ "S1,01/01/2023,100.00,Crypto".

Definition bitcoinDepositCsv : string :=
  "shop id,date,amount,payment mode" ++ lf ++ "S1,01/01/2023,100.00,bitcoin".

Definition badDateOrderCsv : string :=
  "shop id,date,location,price,status" ++ lf ++ "S1,bad,Paris,10,Pending".

(** The date that the order import stores: the cell, or [null]. *)
Definition rawDate (orderDate : JS.cell) : option DateField :=
  match orderDate with
  | Some "" | None => None
  | Some text => Some (DateText text)
  end.

(** A header with a column before the required ones, and a row of four
    cells; a withdrawal file whose second row has no payment mode. *)
Definition wideCsv : string :=
  "id,shop id,date,amount,payment mode" ++ lf ++ "1,S1,2023-01-01,100".

Definition raggedCsv : string :=
  "shop id,date,amount,payment mode" ++ lf
  ++ "S1,2023-01-01,100.00,Crypto" ++ lf
  ++ "S2,2023-01-01,50".

(** The decimal numeral of an integer, and the identifier with the
    sequence number [z]: the prefix and the numeral, zero-padded to five
    characters. *)
Definition decimal (z : Z) : string := NilZero.string_of_int (Z.to_int z).

Definition idOf (prefix : string) (z : Z) : string :=
  prefix ++ JS.padStart 5 "0" (decimal z).

Definition sampleOrder (id : string) : Order :=
  mkOrder id (Some "S1") "Ann" "Bob" None (Some "Paris") (JS.Finite 10) Pending.

(** The value of a numeral read digit by digit on top of [acc]. *)
Fixpoint uintValue (d : Decimal.uint) (acc : Z) : Z :=
  match d with
  | Decimal.Nil => acc
  | Decimal.D0 l => uintValue l (10 * acc + 0)
  | Decimal.D1 l => uintValue l (10 * acc + 1)
  | Decimal.D2 l => uintValue l (10 * acc + 2)
  | Decimal.D3 l => uintValue l (10 * acc + 3)
  | Decimal.D4 l => uintValue l (10 * acc + 4)
  | Decimal.D5 l => uintValue l (10 * acc + 5)
  | Decimal.D6 l => uintValue l (10 * acc + 6)
  | Decimal.D7 l => uintValue l (10 * acc + 7)
  | Decimal.D8 l => uintValue l (10 * acc + 8)
  | Decimal.D9 l => uintValue l (10 * acc + 9)
  end.

Definition isDigit (c : ascii) : bool :=
  match JS.digitOf 10 c with Some _ => true | None => false end.

Fixpoint onlyDigits (s : string) : bool :=
  match s with
  | EmptyString => true
  | String c rest => isDigit c && onlyDigits rest
  end.

(** ** Further built-ins *)

Module JSArray.

(** [Array.prototype.slice(start, end)] with integer arguments: a
    negative index counts from the end, and both are clamped. *)
Definition slice {A} (l : list A) (start end_ : Z) : list A :=
  let len := Z.of_nat (length l) in
  let k := if (start <? 0)%Z then Z.max (len + start) 0
           else Z.min start len in
  let final := if (end_ <? 0)%Z then Z.max (len + end_) 0
               else Z.min end_ len in
  firstn (Z.to_nat (final - k)) (skipn (Z.to_nat k) l).

(** [Math.ceil(a / b)] for an array length [a] and a whole [b] above
    zero; the quotient of such numbers is never rounded across a whole
    number, so this is the ceiling of the exact quotient. *)
Definition ceilDiv (a b : Z) : Z := (- ((- a) / b))%Z.

(** [Array.prototype.filter] with a test that may throw ([None]): the
    elements are tested in order and the first exception ends the call. *)
Fixpoint filterWith {A} (test : A -> option bool) (l : list A)
  : option (list A) :=
  match l with
  | [] => Some []
  | x :: rest =>
      match test x with
      | None => None
      | Some keep =>
          match filterWith test rest with
          | None => None
          | Some kept => Some (if keep then x :: kept else kept)
          end
      end
  end.

End JSArray.

Module JSString.

(** [String.prototype.includes]: [term] occurs in [s]. *)
Fixpoint includes (s term : string) : bool :=
  if String.prefix term s then true
  else match s with
       | String _ s' => includes s' term
       | EmptyString => false
       end.

End JSString.

Module JSNumber.

(** A numeral of digits of [radix] and nothing else. *)
Definition wholeLiteral (radix : Z) (s : string) : JS.number :=
  let '(v, n, rest) := JS.digits radix s 0 0 in
  if (n =? 0)%nat || negb (rest =? "") then JS.NaN
  else JS.roundToDouble (v # 1).

(** A signed decimal literal and nothing else: [Infinity], or digits
    with an optional point and an optional exponent. *)
Definition decimalLiteral (s : string) : JS.number :=
  let '(neg, s1) := JS.signOf s in
  if s1 =? "Infinity" then JS.Infinity neg
  else
    let '(ip, ni, s2) := JS.digits 10 s1 0 0 in
    let '(mant, nf, s3) :=
      match s2 with
      | String "." r => JS.digits 10 r ip 0
      | _ => (ip, O, s2)
      end in
    if (ni + nf =? 0)%nat then JS.NaN
    else
      let signed := (if neg then - mant else mant)%Z in
      match s3 with
      | EmptyString => JS.roundToDouble (JS.scale10 signed (- Z.of_nat nf))
      | String c r =>
          if Ascii.eqb c "e" || Ascii.eqb c "E" then
            let '(eneg, r1) := JS.signOf r in
            let '(ev, ne, r2) := JS.digits 10 r1 0 0 in
            if (ne =? 0)%nat || negb (r2 =? "") then JS.NaN
            else
              JS.roundToDouble
                (JS.scale10 signed
                   ((if eneg then - ev else ev) - Z.of_nat nf))
          else JS.NaN
      end.

(** [Number(s)] for a string: white space around the numeral is
    skipped, the empty numeral is zero, a prefix [0x], [0o] or [0b]
    selects the base of a whole numeral, and text that is not a numeral
    as a whole is [NaN]. *)
Definition ofString (s : string) : JS.number :=
  match JS.trim s with
  | EmptyString => JS.Finite 0
  | String "0" (String x rest) as t =>
      if Ascii.eqb x "x" || Ascii.eqb x "X" then wholeLiteral 16 rest
      else if Ascii.eqb x "o" || Ascii.eqb x "O" then wholeLiteral 8 rest
      else if Ascii.eqb x "b" || Ascii.eqb x "B" then wholeLiteral 2 rest
      else decimalLiteral t
  | t => decimalLiteral t
  end.

End JSNumber.

(** ** The tables of orders and of withdrawals: filters and pages *)

Module OrdersTable.

(** The test of the search filter on one order; [None] is the
    [TypeError] of [toLowerCase] on a field that is [undefined]. *)
Definition searchHit (term : string) (order : Order) : option bool :=
  match order_shopId order with
  | None => None
  | Some shopId =>
      if JSString.includes (JS.toLowerCase shopId) term then Some true
      else if JSString.includes (JS.toLowerCase (order_clientName order)) term
      then Some true
      else if JSString.includes (JS.toLowerCase (order_agent order)) term
      then Some true
      else
        match location order with
        | None => None
        | Some place => Some (JSString.includes (JS.toLowerCase place) term)
        end
  end.

(** The effect that filters: the list that is then sorted and given to
    [setFilteredOrders], or [None] when the search filter throws. *)
Definition filtered (orders : list Order)
           (searchTerm statusFilter agentFilter : string)
  : option (list Order) :=
  let searched :=
    if searchTerm =? "" then Some orders
    else JSArray.filterWith (searchHit (JS.toLowerCase searchTerm)) orders in
  match searched with
  | None => None
  | Some result =>
      let result :=
        if statusFilter =? "all" then result
        else filter (fun order =>
                       orderStatusLabel (status order) =? statusFilter)
               result in
      let result :=
        if agentFilter =? "all" then result
        else filter (fun order => order_agent order =? agentFilter) result in
      Some result
  end.

(** The page sizes of the select, ten at the start. *)
Inductive PageSize := Ten | TwentyFive | Fifty | Hundred.

Definition itemsPerPage (size : PageSize) : Z :=
  match size with
  | Ten => 10
  | TwentyFive => 25
  | Fifty => 50
  | Hundred => 100
  end.

Definition totalPages {A} (filteredOrders : list A) (size : PageSize) : Z :=
  JSArray.ceilDiv (Z.of_nat (length filteredOrders)) (itemsPerPage size).

Definition startIndex (currentPage : Z) (size : PageSize) : Z :=
  ((currentPage - 1) * itemsPerPage size)%Z.

Definition paginatedOrders {A} (filteredOrders : list A) (currentPage : Z)
           (size : PageSize) : list A :=
  JSArray.slice filteredOrders (startIndex currentPage size)
    (startIndex currentPage size + itemsPerPage size).

(** The handlers of "previous" and "next". *)
Definition previousPage (prev : Z) : Z := Z.max (prev - 1) 1.

Definition nextPage (totalPages prev : Z) : Z := Z.min (prev + 1) totalPages.

(** The page number on the link number [i] (from zero). *)
Definition pageNum (totalPages currentPage i : Z) : Z :=
  if (totalPages <=? 5)%Z then (i + 1)%Z
  else if (currentPage <=? 3)%Z then (i + 1)%Z
  else if (totalPages - 2 <=? currentPage)%Z then (totalPages - 4 + i)%Z
  else (currentPage - 2 + i)%Z.

(** [Array.from({ length: Math.min(5, totalPages) }, ...)] *)
Definition pageLinks (totalPages currentPage : Z) : list Z :=
  map (fun i => pageNum totalPages currentPage (Z.of_nat i))
      (seq 0 (Z.to_nat (Z.min 5 totalPages))).

(** The two numbers of "Showing a-b of n" in the table of orders. *)
Definition showing {A} (filteredOrders : list A) (currentPage : Z)
           (size : PageSize) : Z * Z :=
  let len := Z.of_nat (length filteredOrders) in
  ((if (0 <? len)%Z then startIndex currentPage size + 1 else 0)%Z,
   Z.min (startIndex currentPage size + itemsPerPage size) len).

End OrdersTable.

Module WithdrawalsTable.

Definition searchHit (term : string) (withdrawal : Withdrawal)
  : option bool :=
  match withdrawal_shopId withdrawal with
  | None => None
  | Some shopId =>
      Some (JSString.includes (JS.toLowerCase shopId) term
            || JSString.includes
                 (JS.toLowerCase (withdrawal_clientName withdrawal)) term
            || JSString.includes
                 (JS.toLowerCase (withdrawal_agent withdrawal)) term)
  end.

Definition filtered (withdrawals : list Withdrawal)
           (searchTerm paymentModeFilter agentFilter : string)
  : option (list Withdrawal) :=
  let searched :=
    if searchTerm =? "" then Some withdrawals
    else JSArray.filterWith (searchHit (JS.toLowerCase searchTerm))
           withdrawals in
  match searched with
  | None => None
  | Some result =>
      let result :=
        if paymentModeFilter =? "all" then result
        else filter (fun withdrawal =>
                       paymentModeLabel (withdrawal_paymentMode withdrawal)
                       =? paymentModeFilter)
               result in
      let result :=
        if agentFilter =? "all" then result
        else filter (fun withdrawal =>
                       withdrawal_agent withdrawal =? agentFilter)
               result in
      Some result
  end.

End WithdrawalsTable.

(** The pages one to [n]. *)
Definition pagesUpTo (n : Z) : list Z :=
  map (fun k => Z.of_nat (S k)) (seq 0 (Z.to_nat n)).

(** ** The format helpers *)

Module FormatHelpers.

Fixpoint takeStr (n : nat) (s : string) : string :=
  match n, s with
  | S k, String c rest => String c (takeStr k rest)
  | _, _ => ""
  end.

Fixpoint dropStr (n : nat) (s : string) : string :=
  match n, s with
  | S k, String _ rest => dropStr k rest
  | _, _ => s
  end.

(** The integer [n] for which [n / 10^f] is closest to [a], the larger
    one of two. *)
Definition nearest (a : Q) (f : nat) : Z :=
  ((2 * Qnum a * 10 ^ Z.of_nat f + Zpos (Qden a)) / (2 * Zpos (Qden a)))%Z.

(** [Number.prototype.toFixed(f)]; [None] is the range error for more
    than a hundred digits. *)
Definition toFixed (exotic : Q -> string) (x : JS.number) (f : nat)
  : option string :=
  if (100 <? f)%nat then None
  else
    Some
      match x with
      | JS.Finite q =>
          let s := if Qle_bool 0 q then "" else "-" in
          let a := if Qle_bool 0 q then q else Qopp q in
          if Qle_bool (inject_Z (10 ^ 21)) a
          then (s ++ JS.toString exotic (JS.Finite a))%string
          else
            let m := decimal (nearest a f) in
            if (f =? 0)%nat then (s ++ m)%string
            else
              let m' :=
                (JS.repeatChar "0" (f + 1 - String.length m) ++ m)%string in
              let k := String.length m' in
              (s ++ takeStr (k - f) m' ++ "." ++ dropStr (k - f) m')%string
      | _ => JS.toString exotic x
      end.

(** [formatCurrency(value, decimals)]; the callers pass no [decimals],
    which then is 2. *)
Definition formatCurrency (exotic : Q -> string) (value : option JS.number)
           (decimals : nat) : option string :=
  match value with
  | None => Some "$0.00"
  | Some x => option_map (String.append "$") (toFixed exotic x decimals)
  end.

(** [formatDate(dateValue, format)] with the three formats; the
    printers of the engine are [toLocaleDateString], [toLocaleString]
    and [toISOString]. *)
Inductive DateFormat := localeDate | localeDateTime | iso.

Definition formatDate (env : Env) (printers : DateFormat -> Z -> string)
           (dateValue : option DateField) (format : DateFormat) : string :=
  match dateValue with
  | None | Some (DateText "") => ""
  | Some (DateText text) =>
      match Date_parse env text with
      | None => text
      | Some time => printers format time
      end
  | Some (DateObject time) => printers format time
  end.

End FormatHelpers.

(** ** The provider: adding records *)

Module Timestamp.

(** [Timestamp.fromDate(date)], as far as the store can write the
    result: the time of the timestamp.  The constructor throws on a time
    before the year 1 or after the year 9999, and the timestamp made
    from an invalid date ([None]) is one that [setDoc] cannot encode. *)
Definition fromDate (date : option Z) : option Z :=
  match date with
  | Some time =>
      if (-62135596800000 <=? time)%Z && (time <? 253402300800000)%Z
      then Some time
      else None
  | None => None
  end.

End Timestamp.

Module ClientProvider.

(** What one call of [addOrder], [addDeposit] or [addWithdrawal] does.
    Without a signed-in user, [Local r saved]: [r] is appended to the
    list in the state of the provider
    ([setWithdrawals((prev) => [...prev, r])]) and [saved] is written to
    the local storage.  With one, [Remote id r]: [setDoc] is called on
    the document [id] with the fields of [r], the date as the timestamp
    of the time in it; or [Refused]: [Timestamp.fromDate] or [setDoc]
    throws on the data, the [catch] block logs the error, and nothing is
    written. *)
Inductive Effect (R : Type) :=
| Local (newRecord : R) (saved : list R)
| Remote (id : string) (record : R)
| Refused.

Arguments Local {R} newRecord saved.
Arguments Remote {R} id record.
Arguments Refused {R}.

(** "Ensure date is properly formatted": text that is no date becomes
    the present time [now]. *)
Definition dateObjectOf (env : Env) (now : Z) (date : DateField) : Z :=
  match date with
  | DateText text =>
      match Date_parse env text with
      | Some time => time
      | None => now
      end
  | DateObject time => time
  end.

(** [id || generate()] *)
Definition idOr (id generated : string) : string :=
  match id with
  | "" => generated
  | _ => id
  end.

(** [order.date ? new Date(order.date) : new Date()]: the date that
    [addOrder] makes the timestamp from; [None] is an invalid date. *)
Definition orderDate (env : Env) (now : Z) (order : Order) : option Z :=
  match order_date order with
  | None | Some (DateText "") => Some now
  | Some (DateText text) => Date_parse env text
  | Some (DateObject time) => Some time
  end.

(** [isAuthenticated] and [orders] are those of the rendering in which
    the caller obtained [addOrder].  Without a signed-in user the date of
    the order is kept as it is; with one, the date written is the
    timestamp made from it, or from the present time [now] when there
    is none; the shop ID and the location are the fields of the data
    that can be [undefined]. *)
Definition addOrder (env : Env) (now : Z) (isAuthenticated : bool)
           (orders : list Order) (order : Order) : Effect Order :=
  let orderId :=
    idOr (orderId order) (ClientContext.generateOrderId env orders) in
  if negb isAuthenticated
  then
    let newOrder :=
      mkOrder orderId (order_shopId order) (order_clientName order)
        (order_agent order) (order_date order) (location order)
        (price order) (status order) in
    Local newOrder (orders ++ [newOrder])
  else
    match Timestamp.fromDate (orderDate env now order),
          order_shopId order, location order with
    | Some time, Some _, Some _ =>
        Remote orderId
          (mkOrder orderId (order_shopId order) (order_clientName order)
             (order_agent order) (Some (DateObject time)) (location order)
             (price order) (status order))
    | _, _, _ => Refused
    end.

(** [isAuthenticated] and [withdrawals] are those of the rendering in
    which the caller obtained [addWithdrawal].  The shop ID is the field
    of the data that can be [undefined]. *)
Definition addWithdrawal (env : Env) (now : Z) (isAuthenticated : bool)
           (withdrawals : list Withdrawal) (withdrawal : Withdrawal)
  : Effect Withdrawal :=
  let withdrawalId :=
    idOr (withdrawalId withdrawal)
         (ClientContext.generateWithdrawalId env withdrawals) in
  let withdrawalDate := dateObjectOf env now (withdrawal_date withdrawal) in
  if negb isAuthenticated
  then
    let newWithdrawal :=
      mkWithdrawal withdrawalId (withdrawal_shopId withdrawal)
        (withdrawal_clientName withdrawal) (withdrawal_agent withdrawal)
        (DateObject withdrawalDate) (withdrawal_amount withdrawal)
        (withdrawal_paymentMode withdrawal) in
    Local newWithdrawal (withdrawals ++ [newWithdrawal])
  else
    match Timestamp.fromDate (Some withdrawalDate),
          withdrawal_shopId withdrawal with
    | Some time, Some _ =>
        Remote withdrawalId
          (mkWithdrawal withdrawalId (withdrawal_shopId withdrawal)
             (withdrawal_clientName withdrawal) (withdrawal_agent withdrawal)
             (DateObject time) (withdrawal_amount withdrawal)
             (withdrawal_paymentMode withdrawal))
    | _, _ => Refused
    end.

Definition addDeposit (env : Env) (now : Z) (isAuthenticated : bool)
           (deposits : list Deposit) (deposit : Deposit) : Effect Deposit :=
  let depositId :=
    idOr (depositId deposit)
         (ClientContext.generateDepositId env deposits) in
  let depositDate := dateObjectOf env now (deposit_date deposit) in
  if negb isAuthenticated
  then
    let newDeposit :=
      mkDeposit depositId (deposit_shopId deposit)
        (deposit_clientName deposit) (deposit_agent deposit)
        (DateObject depositDate) (deposit_amount deposit)
        (deposit_paymentMode deposit) in
    Local newDeposit (deposits ++ [newDeposit])
  else
    match Timestamp.fromDate (Some depositDate), deposit_shopId deposit with
    | Some time, Some _ =>
        Remote depositId
          (mkDeposit depositId (deposit_shopId deposit)
             (deposit_clientName deposit) (deposit_agent deposit)
             (DateObject time) (deposit_amount deposit)
             (deposit_paymentMode deposit))
    | _, _ => Refused
    end.

(** The state of the provider and the saved copy after the effects of a
    series of calls: every [Local] effect appends to the state as it then
    is, and overwrites the saved copy. *)
Fixpoint settle {R} (state : list R) (saved : option (list R))
         (effects : list (Effect R)) : list R * option (list R) :=
  match effects with
  | [] => (state, saved)
  | Local newRecord written :: rest =>
      settle (state ++ [newRecord]) (Some written) rest
  | Remote _ _ :: rest => settle state saved rest
  | Refused :: rest => settle state saved rest
  end.

(** [a === b] where [b] may be [undefined] *)
Definition sameAs (a : string) (b : option string) : bool :=
  match b with
  | Some text => a =? text
  | None => false
  end.

(** [isShopIdUnique(shopId, currentId)]; [lookup] is the answer of the
    store to the query for the document [shopId]: whether it is absent,
    or [None] when the query fails. *)
Definition isShopIdUnique (lookup : string -> option bool)
           (isAuthenticated : bool) (clients : list Client)
           (shopId : string) (currentId : option string) : bool :=
  if negb isAuthenticated
  then negb (existsb (fun client =>
                        (client_shopId client =? shopId)
                        && negb (sameAs (client_shopId client) currentId))
               clients)
  else if sameAs shopId currentId then true
  else match lookup shopId with
       | Some empty => empty
       | None => false
       end.

End ClientProvider.

(** ** The dialog of a single withdrawal *)

Module WithdrawalModal.

Inductive Mode := add | edit.

(** The form: the fields that [handleSubmit] reads. *)
Record Form := mkForm {
  form_withdrawalId : string;
  form_shopId : string;
  form_clientName : string;
  form_agent : string;
  form_date : string;
  form_amount : JS.number;
  form_paymentMode : PaymentMode
}.

(** The two validations: the error text, empty when there is none. *)
Definition validateShopId (clients : list Client) (shopId : string)
           (shopIdToValidate : option string) : string :=
  let shopIdValue := orElse shopIdToValidate shopId in
  if shopIdValue =? "" then "Shop ID is required"
  else if existsb (fun client => client_shopId client =? shopIdValue) clients
  then ""
  else "Client with this Shop ID does not exist".

Definition validateAmount (amount : JS.number) : string :=
  if JS.leZero amount then "Amount must be greater than 0" else "".

(** The end of [handleSubmit]: the two error texts, or the call made. *)
Inductive Submitted :=
| Invalid (shopIdError amountError : string)
| Added (withdrawalData : Withdrawal)
| Updated (withdrawalData : Withdrawal)
| Closed.

Definition handleSubmit (clients : list Client) (mode : Mode)
           (withdrawal : option Withdrawal) (form : Form) : Submitted :=
  let shopIdError := validateShopId clients (form_shopId form) None in
  let amountError := validateAmount (form_amount form) in
  if negb (shopIdError =? "") || negb (amountError =? "")
  then Invalid shopIdError amountError
  else
    let withdrawalData :=
      mkWithdrawal (form_withdrawalId form) (Some (form_shopId form))
        (form_clientName form) (form_agent form)
        (DateText (form_date form)) (form_amount form)
        (form_paymentMode form) in
    match mode, withdrawal with
    | add, _ => Added withdrawalData
    | edit, Some _ => Updated withdrawalData
    | edit, None => Closed
    end.

(** The form when the dialog opens: to edit, the fields of the
    withdrawal (a date object is printed; a shop ID that is [undefined]
    is as good as the empty text for all that follows); to add, the
    identifier generated from the list of the moment and empty fields. *)
Definition initializeForm (env : Env) (today : string) (mode : Mode)
           (withdrawal : option Withdrawal) (withdrawals : list Withdrawal)
  : Form :=
  match mode, withdrawal with
  | edit, Some w =>
      mkForm (withdrawalId w) (orElse (withdrawal_shopId w) "")
        (withdrawal_clientName w) (withdrawal_agent w)
        match withdrawal_date w with
        | DateText text => text
        | DateObject time => dateFns_format env time
        end
        (withdrawal_amount w) (withdrawal_paymentMode w)
  | _, _ =>
      mkForm (ClientContext.generateWithdrawalId env withdrawals)
        "" "" "" today (JS.Finite 0) Crypto
  end.

End WithdrawalModal.

(** What the user types into the dialog that adds a withdrawal. *)
Record Entry := mkEntry {
  entry_shopId : string;
  entry_clientName : string;
  entry_agent : string;
  entry_date : string;
  entry_amount : JS.number;
  entry_paymentMode : PaymentMode
}.

(** One use of the dialog without a signed-in user: the dialog opens on
    the list [state], the entry is typed, the form is submitted, and
    [addWithdrawal] of the same rendering acts.  The result is the list
    and the saved copy afterwards. *)
Definition addThroughDialog (env : Env) (today : string) (now : Z)
           (clients : list Client)
           (world : list Withdrawal * option (list Withdrawal))
           (entry : Entry) : list Withdrawal * option (list Withdrawal) :=
  let '(state, saved) := world in
  let opened :=
    WithdrawalModal.initializeForm env today WithdrawalModal.add None state in
  let form :=
    WithdrawalModal.mkForm (WithdrawalModal.form_withdrawalId opened)
      (entry_shopId entry) (entry_clientName entry) (entry_agent entry)
      (entry_date entry) (entry_amount entry) (entry_paymentMode entry) in
  match WithdrawalModal.handleSubmit clients WithdrawalModal.add None form with
  | WithdrawalModal.Added withdrawalData =>
      ClientProvider.settle state saved
        [ClientProvider.addWithdrawal env now false state withdrawalData]
  | _ => world
  end.

(** The effects of the calls [calls] of one of the three functions, as
    one rendering hands it out; the call number [k] is made at the time
    [nowAt k]. *)
Fixpoint effectsOf {R} (add : Z -> R -> ClientProvider.Effect R)
         (nowAt : nat -> Z) (k : nat) (calls : list R)
  : list (ClientProvider.Effect R) :=
  match calls with
  | [] => []
  | record :: rest => add (nowAt k) record :: effectsOf add nowAt (S k) rest
  end.

(** After [effects], made on the list [snapshot], the state holds a new
    record for every call, under the identifier of the call or, when it
    has none, [generated]; the saved copy holds the list as it was and
    the last of them. *)
Definition savesOnlyTheLast {R} (key : R -> string) (generated : string)
           (snapshot calls : list R)
           (effects : list (ClientProvider.Effect R)) : Prop :=
  forall saved,
  exists added,
    ClientProvider.settle snapshot saved effects
    = (snapshot ++ added,
       match ClientContext.lastOf added with
       | Some last => Some (snapshot ++ [last])
       | None => saved
       end) /\
    map key added = map (fun r => ClientProvider.idOr (key r) generated) calls.

(** Every one of [effects] that reaches the store writes to the
    document [id]. *)
Definition writesOneDocument {R} (id : string)
           (effects : list (ClientProvider.Effect R)) : Prop :=
  Forall (fun effect =>
            effect = ClientProvider.Refused \/
            exists record, effect = ClientProvider.Remote id record)
    effects.

(** [z] is the number in the last identifier, 0 when there is none. *)
Definition numbered (prefix : string) (lastId : option string) (z : Z)
  : Prop :=
  match lastId with
  | Some id => id = idOf prefix z
  | None => z = 0%Z
  end.

(** The entry passes the two validations of the dialog. *)
Definition validEntry (clients : list Client) (entry : Entry) : Prop :=
  entry_shopId entry <> "" /\
  findClient clients (Some (entry_shopId entry)) <> None /\
  JS.leZero (entry_amount entry) = false.

(** A series of uses of the dialog, each at its own time. *)
Definition addAllThroughDialog (env : Env) (today : string)
           (clients : list Client)
           (world : list Withdrawal * option (list Withdrawal))
           (uses : list (Z * Entry))
  : list Withdrawal * option (list Withdrawal) :=
  fold_left (fun world '(now, entry) =>
               addThroughDialog env today now clients world entry)
            uses world.

(** The form is one that [handleSubmit] turns down. *)
Definition form_shopId_is_unknown_or_amount_refused
           (clients : list Client) (form : WithdrawalModal.Form) : Prop :=
  WithdrawalModal.form_shopId form = "" \/
  findClient clients (Some (WithdrawalModal.form_shopId form)) = None \/
  JS.leZero (WithdrawalModal.form_amount form) = true.

(** ** The search box of the navigation bar *)

Module NavBar.

Definition matches (term : string) (client : Client) : bool :=
  JSString.includes (JS.toLowerCase (client_shopId client)) term
  || JSString.includes (JS.toLowerCase (client_clientName client)) term.

(** The effect on [searchTerm] and [clients]: the value given to
    [setSearchResults], pairs of a shop ID and a client name. *)
Definition search (clients : list Client) (searchTerm : string)
  : list (string * string) :=
  if JS.trim searchTerm =? "" then []
  else
    let term := JS.toLowerCase searchTerm in
    map (fun client => (client_shopId client, client_clientName client))
      (JSArray.slice (filter (matches term) clients) 0 5).

End NavBar.

(** ** The table of agents: export and editing *)

Module AgentTable.

(** An agent of the team context: the fields that the import fills, and
    the commission derived from them. *)
Record TeamAgent := mkTeamAgent {
  agent_id : string;
  agent_fields : Agent;
  commissionRate : JS.number;
  commission : JS.number
}.

Definition headers : list string :=
  ["Agent Name"; "Added Today"; "Monthly Added"; "Open Accounts";
   "Total Deposits"; "Commission Rate"; "Commission Amount"].

(** A cell of a row is text or a number. *)
Inductive Cell :=
| Text (text : string)
| Num (x : JS.number).

Definition rowOf (exotic : Q -> string) (agent : TeamAgent) : list Cell :=
  [Text (name (agent_fields agent));
   Num (addedToday (agent_fields agent));
   Num (monthlyAdded (agent_fields agent));
   Num (openAccounts (agent_fields agent));
   Num (totalDeposits (agent_fields agent));
   Text (JS.toString exotic (commissionRate agent) ++ "%")%string;
   Num (commission agent)].

Definition doubleQuote : string := String (ascii_of_nat 34) "".

(** Text with a comma is put in double quotes; [join] prints a number. *)
Definition printCell (exotic : Q -> string) (cell : Cell) : string :=
  match cell with
  | Text text =>
      if JSString.includes text ","
      then (doubleQuote ++ text ++ doubleQuote)%string
      else text
  | Num x => JS.toString exotic x
  end.

(** The line of one agent: [row.map(...).join(",")]. *)
Definition csvLine (exotic : Q -> string) (agent : TeamAgent) : string :=
  JS.join "," (map (printCell exotic) (rowOf exotic agent)).

(** [csvContent] of [handleExportCsv] *)
Definition handleExportCsv (exotic : Q -> string)
           (filteredAgents : list TeamAgent) : string :=
  JS.join lf (JS.join "," headers :: map (csvLine exotic) filteredAgents).

(** Editing a cell in place.  The cells of the name and of the three
    counts can be edited; the state holds the agent, the field, and the
    value of the input: the value of the cell at the double click, the
    text typed afterwards. *)
Inductive NumericField := AddedToday | MonthlyAdded | OpenAccounts.

Inductive Editing :=
| EditName (agentId : string) (editValue : string)
| EditNumber (agentId : string) (field : NumericField) (editValue : Cell).

Definition fieldOf (field : NumericField) (agent : TeamAgent) : JS.number :=
  match field with
  | AddedToday => addedToday (agent_fields agent)
  | MonthlyAdded => monthlyAdded (agent_fields agent)
  | OpenAccounts => openAccounts (agent_fields agent)
  end.

(** The [onDoubleClick] of the name cell and of a count cell, with
    [handleCellDoubleClick]. *)
Definition doubleClickName (agent : TeamAgent) : Editing :=
  EditName (agent_id agent) (name (agent_fields agent)).

Definition doubleClickNumber (agent : TeamAgent) (field : NumericField)
  : Editing :=
  EditNumber (agent_id agent) field (Num (fieldOf field agent)).

(** [onChange]: [setEditValue(e.target.value)] *)
Definition change (editingCell : Editing) (text : string) : Editing :=
  match editingCell with
  | EditName agentId _ => EditName agentId text
  | EditNumber agentId field _ => EditNumber agentId field (Text text)
  end.

(** [{ ...agent, [field]: value }] *)
Definition withName (value : string) (agent : TeamAgent) : TeamAgent :=
  let fields := agent_fields agent in
  mkTeamAgent (agent_id agent)
    (mkAgent value (addedToday fields) (monthlyAdded fields)
       (openAccounts fields) (totalDeposits fields))
    (commissionRate agent) (commission agent).

Definition withNumber (field : NumericField) (value : JS.number)
           (agent : TeamAgent) : TeamAgent :=
  let fields := agent_fields agent in
  mkTeamAgent (agent_id agent)
    match field with
    | AddedToday =>
        mkAgent (name fields) value (monthlyAdded fields)
          (openAccounts fields) (totalDeposits fields)
    | MonthlyAdded =>
        mkAgent (name fields) (addedToday fields) value
          (openAccounts fields) (totalDeposits fields)
    | OpenAccounts =>
        mkAgent (name fields) (addedToday fields) (monthlyAdded fields)
          value (totalDeposits fields)
    end
    (commissionRate agent) (commission agent).

(** [Number(editValue)] *)
Definition numberOf (editValue : Cell) : JS.number :=
  match editValue with
  | Text text => JSNumber.ofString text
  | Num x => x
  end.

(** The end of [handleCellEditSave]: nothing done, the toast "Invalid
    value" (the cell stays in editing), or the call of [updateAgent]. *)
Inductive Saved :=
| Ignored
| InvalidValue
| Updated (updatedAgent : TeamAgent).

Definition handleCellEditSave (agents : list TeamAgent)
           (editingCell : option Editing) : Saved :=
  match editingCell with
  | None => Ignored
  | Some (EditName agentId editValue) =>
      match find (fun a => agent_id a =? agentId) agents with
      | None => Ignored
      | Some agent => Updated (withName editValue agent)
      end
  | Some (EditNumber agentId field editValue) =>
      match find (fun a => agent_id a =? agentId) agents with
      | None => Ignored
      | Some agent =>
          let value := numberOf editValue in
          if JS.isNaN value || JS.ltZero value then InvalidValue
          else Updated (withNumber field value agent)
      end
  end.

End AgentTable.

(** The client as the search shows it. *)
Definition shown (client : Client) : string * string :=
  (client_shopId client, client_clientName client).

(** [s] has no code unit [c]. *)
Fixpoint lacks (c : ascii) (s : string) : bool :=
  match s with
  | String x s' => negb (Ascii.eqb x c) && lacks c s'
  | EmptyString => true
  end.

(** Text without white space and without a comma. *)
Fixpoint plainText (s : string) : bool :=
  match s with
  | String c s' =>
      negb (JS.isSpace c) && negb (Ascii.eqb c ",") && plainText s'
  | EmptyString => true
  end.

(** A whole number from zero up to the largest below which every whole
    number is a number of the language. *)
Definition smallCount (x : JS.number) : Prop :=
  exists z, (0 <= z < 2 ^ 53)%Z /\ x = JS.Finite (z # 1).

(** An agent that the import can read back from the export: the name is
    not empty, has no white space around it, no comma and no line break;
    the three numbers that the import reads are small counts. *)
Definition readsBack (agent : AgentTable.TeamAgent) : Prop :=
  let fields := AgentTable.agent_fields agent in
  name fields <> "" /\
  JS.trim (name fields) = name fields /\
  lacks "," (name fields) = true /\
  lacks newline (name fields) = true /\
  smallCount (addedToday fields) /\
  smallCount (monthlyAdded fields) /\
  smallCount (totalDeposits fields).

(** The agent as the import creates it. *)
Definition imported (agent : AgentTable.TeamAgent) : Agent :=
  let fields := AgentTable.agent_fields agent in
  mkAgent (name fields) (addedToday fields) (monthlyAdded fields)
    (JS.Finite 0) (totalDeposits fields).

(** Nothing but white space. *)
Fixpoint allSpaces (s : string) : bool :=
  match s with
  | String c s' => JS.isSpace c && allSpaces s'
  | EmptyString => true
  end.

(** None of [texts], in lower case, contains [term]. *)
Definition missesText (term : string) (texts : list string) : Prop :=
  Forall (fun text => JSString.includes (JS.toLowerCase text) term = false)
    texts.

(** Files whose rows end before the last columns of the header: an
    order without date and location, a withdrawal without date and
    shop ID. *)
Definition shortOrderCsv : string :=
  "Shop ID,Price,Status,Date,Location" ++ lf ++ "S1,10,Pending".

Definition shortWithdrawalCsv : string :=
  "Amount,Payment Mode,Date,Shop ID" ++ lf ++ "10,Crypto".

(** The list in the state after the calls [calls] of a run that started
    on the empty list, without a signed-in user. *)
Definition listedAfter {R} (add : Z -> R -> ClientProvider.Effect R)
           (calls : list R) : list R :=
  fst (ClientProvider.settle [] None (effectsOf add (fun _ => 0%Z) 0 calls)).

(** ** Vocabulary of the further properties *)

(** What the loop body returns on each non-blank line, [i] being the
    index of the first line; the loop itself stops at the first [Throw]. *)
Fixpoint verdicts {R} (row : nat -> list string -> RowResult R)
         (lines : list string) (i : nat) : list (RowResult R) :=
  match lines with
  | [] => []
  | line :: rest =>
      if isBlank line then verdicts row rest (S i)
      else row i (cellsOf line) :: verdicts row rest (S i)
  end.

(** The records of the rows that passed, in row order. *)
Definition acceptedOf {R} (vs : list (RowResult R)) : list R :=
  flat_map (fun v => match v with Accept r => [r] | _ => [] end) vs.

(** A number that is whole and not negative, or the positive infinity
    that [parseInt] gives for a numeral beyond the range of numbers. *)
Definition wholeCount (x : JS.number) : Prop :=
  match x with
  | JS.Finite q => Qden q = 1%positive /\ (0 <= Qnum q)%Z
  | JS.Infinity negative => negative = false
  | JS.NaN => False
  end.

(** The loop bodies with the column indices that [handleImport] takes
    from a header. *)
Definition orderRow (env : Env) (clients : list Client) (orders : list Order)
           (header : list string) : nat -> list string -> RowResult Order :=
  BulkOrderModal.row env clients orders
    (JS.indexOf header "shop id") (JS.indexOf header "date")
    (JS.indexOf header "location") (JS.indexOf header "price")
    (JS.indexOf header "status").

Definition depositRow (env : Env) (clients : list Client)
           (deposits : list Deposit) (header : list string)
  : nat -> list string -> RowResult Deposit :=
  BulkDepositModal.row env clients deposits
    (JS.indexOf header "shop id") (JS.indexOf header "date")
    (JS.indexOf header "amount") (JS.indexOf header "payment mode").

Definition withdrawalRow (env : Env) (clients : list Client)
           (withdrawals : list Withdrawal) (header : list string)
  : nat -> list string -> RowResult Withdrawal :=
  BulkWithdrawalModal.row env clients withdrawals
    (JS.indexOf header "shop id") (JS.indexOf header "date")
    (JS.indexOf header "amount") (JS.indexOf header "payment mode").

Definition batchRow (env : Env) (clients : list Client)
           (withdrawals : list Withdrawal) (header : list string)
  : nat -> list string -> RowResult Withdrawal :=
  BulkWithdrawalBatch.row env clients withdrawals
    (JS.indexOf header "shop id") (JS.indexOf header "date")
    (JS.indexOf header "amount") (JS.indexOf header "payment mode").

Definition agentRow (header : list string)
  : nat -> list string -> RowResult Agent :=
  AgentImportModal.row
    (JS.indexOf header "agent name") (JS.indexOf header "added today")
    (JS.indexOf header "monthly added") (JS.indexOf header "total deposits").

(** Every non-blank data line has a cell in the payment mode column. *)
Definition paymentModePresent (header lines : list string) : Prop :=
  forall line,
    In line lines -> isBlank line = false ->
    JS.at_ (cellsOf line) (JS.indexOf header "payment mode") <> None.

(** A header with the shop ID in the fifth column, 450 rows of five
    cells and one row of four. *)
Definition lateShopIdCsv : string :=
  "date,amount,payment mode,note,shop id"
  ++ repeatLine 450 "2023-01-01,5,Crypto,x,S1"
  ++ lf ++ "2023-01-01,5,Crypto,x".

(** Every non-blank data line has a cell in the shop ID column. *)
Definition shopIdPresent (header lines : list string) : Prop :=
  forall line,
    In line lines -> isBlank line = false ->
    JS.at_ (cellsOf line) (JS.indexOf header "shop id") <> None.

(** Text beyond ASCII for the closed examples: the no-break space, and
    a name that starts with an accented capital, with its lower-case
    form. *)
Definition noBreakSpace : string := String (ascii_of_nat 160) "".

Definition capitalEric : string := String (ascii_of_nat 201) "ric".

Definition smallEric : string := String (ascii_of_nat 233) "ric".

(** A file with no-break spaces after the name of a column and after a
    shop ID, and with a data line that holds a no-break space only. *)
Definition noBreakSpaceCsv : string :=
  "shop id" ++ noBreakSpace ++ ",date,amount,payment mode" ++ lf
  ++ noBreakSpace ++ lf
  ++ "S1" ++ noBreakSpace ++ ",01/01/2023,100.00,Crypto".

(** ** The row loop *)

(** The built-ins beyond ASCII: [trim] strips the no-break space,
    [toLowerCase] maps the accented capitals and leaves the
    multiplication sign. *)
Lemma trim_no_break_space :
  JS.trim (noBreakSpace ++ "S1" ++ noBreakSpace) = "S1" /\
  isBlank noBreakSpace = true.
Proof. split; reflexivity. Qed.

Lemma toLowerCase_accented :
  JS.toLowerCase capitalEric = smallEric /\
  JS.toLowerCase (String (ascii_of_nat 215) "")
  = String (ascii_of_nat 215) "".
Proof. split; reflexivity. Qed.

(** So a no-break space around a cell or on a line of its own is as good
    as a space. *)
Lemma no_break_space_is_trimmed :
  BulkDepositModal.handleImport sampleEnv sampleClients [] noBreakSpaceCsv
  = Imported 1 0
      [mkDeposit "DP00001" (Some "S1") "Ann" "Bob" (DateText "2023-01-01")
         (JS.Finite 100) Crypto] /\
  JS.indexOf (headerOf ("shop id" ++ noBreakSpace ++ ",shop id")) "shop id"
  = 0%Z.
Proof. split; reflexivity. Qed.

(** And the searches find a name whatever the case of its accented
    letters. *)
Lemma search_maps_accented_capitals :
  NavBar.search [mkClient "S1" capitalEric "Bob"] smallEric
  = [("S1", capitalEric)] /\
  OrdersTable.filtered
    [mkOrder "OR00001" (Some "S1") capitalEric "Bob" None None
       (JS.Finite 1) Pending]
    smallEric "all" "all"
  = Some [mkOrder "OR00001" (Some "S1") capitalEric "Bob" None None
            (JS.Finite 1) Pending].
Proof. split; reflexivity. Qed.

Section RowLoop.

Context {R : Type} (row : nat -> list string -> RowResult R).

Lemma forRows_blank line rest i t :
  isBlank line = true ->
  forRows row (line :: rest) i t = forRows row rest (S i) t.
Proof. intros H. simpl. now rewrite H. Qed.

Lemma forRows_reject line rest i t :
  isBlank line = false ->
  row i (cellsOf line) = Reject ->
  forRows row (line :: rest) i t =
  forRows row rest (S i)
    (mkTally (successCount t) (S (errorCount t)) (added t)).
Proof. intros Hb Hr. simpl. now rewrite Hb, Hr. Qed.

Lemma forRows_accept line rest i t r :
  isBlank line = false ->
  row i (cellsOf line) = Accept r ->
  forRows row (line :: rest) i t =
  forRows row rest (S i)
    (mkTally (S (successCount t)) (errorCount t) (added t ++ [r])).
Proof. intros Hb Hr. simpl. now rewrite Hb, Hr. Qed.

(** The counters of a loop that runs to its end. *)
Lemma forRows_counts lines : forall i t t',
  forRows row lines i t = Finished t' ->
  (successCount t' + errorCount t'
   = successCount t + errorCount t + length (nonBlank lines))%nat /\
  (length (added t') + successCount t
   = length (added t) + successCount t')%nat.
Proof.
  induction lines as [|line rest IH]; intros i t t' H; simpl in H.
  - injection H as <-. simpl. lia.
  - unfold nonBlank. simpl. fold (nonBlank rest).
    destruct (isBlank line); simpl.
    + apply IH in H. lia.
    + destruct (row i (cellsOf line)); try discriminate;
        apply IH in H; simpl in H; rewrite ?length_app in H; simpl in H; lia.
Qed.

(** Whatever holds of every record a row creates holds of every record
    added, however the loop ends. *)
Lemma forRows_added (P : R -> Prop) :
  (forall i values r, row i values = Accept r -> P r) ->
  forall lines i t,
    Forall P (added t) ->
    Forall P (added (tallyOf (forRows row lines i t))).
Proof.
  intros Hrow. induction lines as [|line rest IH]; intros i t Ht; simpl.
  - exact Ht.
  - destruct (isBlank line); [now apply IH|].
    destruct (row i (cellsOf line)) eqn:E; simpl.
    + apply IH. simpl. apply Forall_app. split; [exact Ht|].
      constructor; [|constructor]. eapply Hrow, E.
    + now apply IH.
    + exact Ht.
Qed.

(** A loop whose rows never throw runs to its end. *)
Lemma forRows_finishes :
  (forall i values, row i values <> Throw) ->
  forall lines i t, exists t', forRows row lines i t = Finished t'.
Proof.
  intros Hrow. induction lines as [|line rest IH]; intros i t; simpl.
  - now exists t.
  - destruct (isBlank line); [apply IH|].
    destruct (row i (cellsOf line)) eqn:E; try apply IH.
    now apply Hrow in E.
Qed.

End RowLoop.

(** ** The header check *)

Lemma missingFields_nil requiredFields header :
  missingFields requiredFields header = [] <->
  forall field, In field requiredFields ->
                JS.includes header (Some field) = true.
Proof.
  unfold missingFields. induction requiredFields as [|f rest IH]; simpl.
  - split; [intros _ ? []|reflexivity].
  - destruct (existsb (String.eqb f) header) eqn:E; simpl.
    + rewrite IH. split.
      * intros H field [<-|Hin]; [exact E|now apply H].
      * intros H field Hin. apply H. now right.
    + split; [discriminate|].
      intros H. specialize (H f (or_introl eq_refl)). congruence.
Qed.

Lemma readCsv_structuralError requiredFields csvData :
  structuralError requiredFields csvData ->
  readCsv requiredFields csvData
  = inl (structuralMessage requiredFields csvData).
Proof.
  unfold structuralError, readCsv, structuralMessage, linesOf.
  intros H. destruct (JS.trim csvData =? ""); [reflexivity|].
  destruct (Nat.ltb_spec (length (JS.split newline (JS.trim csvData))) 2)
    as [Hlt|Hge]; [reflexivity|].
  destruct H as [H|(field & Hin & Hmiss)]; [lia|].
  destruct (missingFields requiredFields _) eqn:E; [|reflexivity].
  rewrite missingFields_nil in E. specialize (E field Hin). congruence.
Qed.


(** ** The commit loop *)

Section CommitLoop.

Import BulkWithdrawalBatch.

Context {A : Type} (commit : nat -> bool) (allWithdrawals : list A).

Lemma BATCH_SIZE_pos : (0 < BATCH_SIZE)%nat.
Proof. unfold BATCH_SIZE. lia. Qed.

Lemma slice_length i :
  length (slice allWithdrawals i (i + BATCH_SIZE))
  = Nat.min BATCH_SIZE (length allWithdrawals - i).
Proof.
  unfold slice. rewrite length_firstn, length_skipn.
  replace (i + BATCH_SIZE - i)%nat with BATCH_SIZE by lia. reflexivity.
Qed.

(** No pass writes an empty batch or more than [BATCH_SIZE] records,
    whatever the store replies. *)
Lemma commitFrom_bounded fuel : forall i,
  Forall (fun batch => (1 <= length batch <= BATCH_SIZE)%nat)
         (fst (commitFrom fuel commit allWithdrawals i)).
Proof.
  induction fuel as [|fuel IH]; intros i; cbn [commitFrom]; [constructor|].
  destruct (Nat.ltb_spec i (length allWithdrawals)) as [Hi|Hi];
    [|constructor].
  assert (Hb : (1 <= length (slice allWithdrawals i (i + BATCH_SIZE))
                <= BATCH_SIZE)%nat).
  { rewrite slice_length. pose proof BATCH_SIZE_pos. lia. }
  destruct (commit (i / BATCH_SIZE)).
  - specialize (IH (i + BATCH_SIZE)%nat).
    destruct (commitFrom fuel commit allWithdrawals (i + BATCH_SIZE)).
    cbn [fst] in *. constructor; [exact Hb|exact IH].
  - constructor.
Qed.

(** When every commit resolves, the batches are the list cut into
    consecutive pieces. *)
Lemma commitFrom_concat fuel : forall i batches,
  (length allWithdrawals - i <= fuel)%nat ->
  commitFrom fuel commit allWithdrawals i = (batches, true) ->
  concat batches = skipn i allWithdrawals /\
  map (@length A) batches = sliceSizes fuel (length allWithdrawals) i.
Proof.
  induction fuel as [|fuel IH]; intros i batches Hfuel;
    cbn [commitFrom sliceSizes].
  - intros [= <-]. split; [|reflexivity].
    symmetry. apply skipn_all2. lia.
  - destruct (Nat.ltb_spec i (length allWithdrawals)) as [Hi|Hi].
    + destruct (commit (i / BATCH_SIZE)); [|discriminate].
      destruct (commitFrom fuel commit allWithdrawals (i + BATCH_SIZE))
        as [rest ok] eqn:E.
      intros [= <- ->].
      pose proof BATCH_SIZE_pos.
      destruct (IH (i + BATCH_SIZE)%nat rest) as [Hc Hs]; [lia|exact E|].
      split.
      * cbn [concat]. rewrite Hc. unfold slice.
        replace (i + BATCH_SIZE - i)%nat with BATCH_SIZE by lia.
        rewrite (Nat.add_comm i), <- skipn_skipn.
        apply firstn_skipn.
      * cbn [map]. now rewrite slice_length, Hs.
    + intros [= <-]. split; [|reflexivity].
      symmetry. apply skipn_all2. lia.
Qed.

(** When every pass goes through, the loop writes all the batches. *)
Lemma commitFrom_accepting fuel : forall i,
  (forall k, commit k = true) ->
  snd (commitFrom fuel commit allWithdrawals i) = true.
Proof.
  induction fuel as [|fuel IH]; intros i Hc; cbn [commitFrom]; [reflexivity|].
  destruct (i <? length allWithdrawals)%nat; [|reflexivity].
  rewrite Hc. specialize (IH (i + BATCH_SIZE)%nat Hc).
  now destruct (commitFrom fuel commit allWithdrawals (i + BATCH_SIZE)).
Qed.

Lemma commitAll_partition batches :
  commitAll commit allWithdrawals = (batches, true) ->
  concat batches = allWithdrawals /\
  map (@length A) batches
  = sliceSizes (length allWithdrawals) (length allWithdrawals) 0.
Proof.
  unfold commitAll. intros H.
  apply commitFrom_concat in H; [exact H|lia].
Qed.

End CommitLoop.

(** ** Structural errors *)

(** C2.  When the trimmed input has fewer than two lines, or the header
    lacks a required column, each of the five imports returns early with
    one message that names the problem; no row is looked at and nothing is
    handed to the store ([Aborted] carries no call).  When the cause is a
    missing column, the message lists the missing columns. *)
Theorem structural_error_aborts
        env commit clients orders deposits withdrawals csvData :
  (structuralError BulkOrderModal.requiredFields csvData ->
   BulkOrderModal.handleImport env clients orders csvData
   = Aborted (structuralMessage BulkOrderModal.requiredFields csvData)) /\
  (structuralError BulkDepositModal.requiredFields csvData ->
   BulkDepositModal.handleImport env clients deposits csvData
   = Aborted (structuralMessage BulkDepositModal.requiredFields csvData)) /\
  (structuralError BulkWithdrawalModal.requiredFields csvData ->
   BulkWithdrawalModal.handleImport env clients withdrawals csvData
   = Aborted (structuralMessage BulkWithdrawalModal.requiredFields csvData)) /\
  (structuralError BulkWithdrawalBatch.requiredFields csvData ->
   BulkWithdrawalBatch.handleImport env commit clients withdrawals csvData
   = Aborted (structuralMessage BulkWithdrawalBatch.requiredFields csvData)) /\
  (structuralError AgentImportModal.requiredFields csvData ->
   AgentImportModal.handleImport csvData
   = Aborted (structuralMessage AgentImportModal.requiredFields csvData)) /\
  (forall requiredFields field,
      (2 <= length (linesOf csvData))%nat ->
      In field requiredFields ->
      JS.includes (headerOf (hd "" (linesOf csvData))) (Some field) = false ->
      let missing :=
        missingFields requiredFields (headerOf (hd "" (linesOf csvData))) in
      In field missing /\
      structuralMessage requiredFields csvData
      = ("CSV is missing required fields: " ++ JS.join ", " missing)%string).
Proof.
  repeat match goal with |- _ /\ _ => split end.
  1-5: intros H;
    unfold BulkOrderModal.handleImport, BulkDepositModal.handleImport,
      BulkWithdrawalModal.handleImport, BulkWithdrawalBatch.handleImport,
      AgentImportModal.handleImport;
    now rewrite (readCsv_structuralError _ _ H).
  intros requiredFields field Hlen Hin Hmiss missing. split.
  - unfold missing, missingFields. apply filter_In. split; [assumption|].
    now rewrite Hmiss.
  - unfold structuralMessage. destruct (JS.trim csvData =? "") eqn:E.
    + apply String.eqb_eq in E. unfold linesOf in Hlen. rewrite E in Hlen.
      simpl in Hlen. lia.
    + destruct (Nat.ltb_spec (length (linesOf csvData)) 2); [lia|reflexivity].
Qed.

Lemma structural_error_aborts_witness :
  BulkDepositModal.handleImport sampleEnv [] [] noAmountCsv
  = Aborted "CSV is missing required fields: amount".
Proof.
  refine (eq_trans
            (proj1 (proj2 (structural_error_aborts
                             sampleEnv (fun _ => true) [] [] [] [] noAmountCsv))
                   _) _).
  - right. exists "amount". split; [simpl; auto|reflexivity].
  - reflexivity.
Defined.

(** ** The batches *)

Lemma sliceSizes_thousand : sliceSizes 1000 1000 0 = [450; 450; 100]%nat.
Proof. reflexivity. Qed.

Lemma handleImport_batches env commit clients withdrawals csvData :
  let outcome :=
    BulkWithdrawalBatch.handleImport env commit clients withdrawals csvData in
  Forall (fun batch =>
            (1 <= length batch <= BulkWithdrawalBatch.BATCH_SIZE)%nat)
         (callsOf outcome) /\
  forall s e batches,
    outcome = Imported s e batches ->
    length (concat batches) = s /\
    map (@length Withdrawal) batches = sliceSizes s s 0.
Proof.
  cbv zeta. unfold BulkWithdrawalBatch.handleImport.
  destruct (readCsv _ csvData) as [message|[header lines]];
    [split; [constructor|discriminate]|].
  destruct (forRows _ lines 1 start) as [t|t] eqn:E;
    [|split; [constructor|discriminate]].
  set (pass := BulkWithdrawalBatch.passes commit (added t)).
  pose proof (commitFrom_bounded pass (added t) (length (added t)) 0) as Hb.
  fold (BulkWithdrawalBatch.commitAll pass (added t)) in Hb.
  destruct (BulkWithdrawalBatch.commitAll pass (added t))
    as [batches ok] eqn:Ec.
  cbn [fst] in Hb.
  destruct ok;
    (split; [exact Hb|]); [|discriminate].
  intros s e batches' [= <- <- <-].
  apply commitAll_partition in Ec. destruct Ec as [Hc Hs].
  apply forRows_counts in E. cbn in E.
  assert (Hlen : length (added t) = successCount t) by lia.
  rewrite Hc, Hs, Hlen. auto.
Qed.

(** C3.  The commit loop never puts more than 450 records into one batch;
    when the store accepts them the batches are the list of valid records
    cut into consecutive pieces; and an import that counts 1000 valid
    records submits three batches of 450, 450 and 100 records. *)
Theorem batches_hold_at_most_450 :
  (forall A commit (allWithdrawals : list A),
      Forall (fun batch => (length batch <= 450)%nat)
             (fst (BulkWithdrawalBatch.commitAll commit allWithdrawals))) /\
  (forall A commit (allWithdrawals : list A),
      (forall k, commit k = true) ->
      exists batches,
        BulkWithdrawalBatch.commitAll commit allWithdrawals = (batches, true) /\
        concat batches = allWithdrawals /\
        (length allWithdrawals = 1000%nat ->
         map (@length A) batches = [450; 450; 100]%nat)) /\
  (forall env commit clients withdrawals csvData,
      let outcome :=
        BulkWithdrawalBatch.handleImport env commit clients withdrawals csvData
      in
      Forall (fun batch => (length batch <= 450)%nat) (callsOf outcome) /\
      forall e batches,
        outcome = Imported 1000 e batches ->
        length (concat batches) = 1000%nat /\
        map (@length Withdrawal) batches = [450; 450; 100]%nat).
Proof.
  split; [|split].
  - intros A commit allWithdrawals.
    eapply Forall_impl;
      [|apply (commitFrom_bounded commit allWithdrawals)].
    intros batch H. exact (proj2 H).
  - intros A commit allWithdrawals Hc.
    pose proof (commitFrom_accepting commit allWithdrawals
                  (length allWithdrawals) 0 Hc) as Hok.
    fold (BulkWithdrawalBatch.commitAll commit allWithdrawals) in Hok.
    destruct (BulkWithdrawalBatch.commitAll commit allWithdrawals)
      as [batches ok] eqn:E.
    cbn [snd] in Hok. subst ok. exists batches.
    apply commitAll_partition in E. destruct E as [Hcat Hs].
    repeat split; [exact Hcat|].
    intros H. rewrite Hs, H. apply sliceSizes_thousand.
  - intros env commit clients withdrawals csvData outcome.
    destruct (handleImport_batches env commit clients withdrawals csvData)
      as [Hb Hi].
    fold outcome in Hb, Hi. split.
    + eapply Forall_impl; [|exact Hb]. intros batch H. exact (proj2 H).
    + intros e batches H. apply Hi in H. destruct H as [Hl Hs].
      split; [exact Hl|]. rewrite Hs. apply sliceSizes_thousand.
Qed.

Lemma batches_hold_at_most_450_witness :
  map (@length Withdrawal)
      (callsOf (BulkWithdrawalBatch.handleImport
                  sampleEnv (fun _ => true) [] [] thousandCsv))
  = [450; 450; 100]%nat.
Proof.
  refine (proj2 (proj2 (proj2 (proj2 batches_hold_at_most_450)
                          sampleEnv (fun _ => true) [] [] thousandCsv)
                   0%nat _ _)).
  vm_compute. reflexivity.
Defined.

(** ** Blank lines *)

Ltac counts_rows :=
  intros ? ? ?;
  match goal with
  | |- context [readCsv ?req ?csv] =>
      destruct (readCsv req csv) as [?|[? ?]]; [discriminate|]
  end;
  match goal with
  | |- context [forRows ?row ?lines ?i ?t] =>
      let E := fresh "E" in
      destruct (forRows row lines i t) eqn:E; [|discriminate];
      intros [= <- <- <-]; do 2 eexists; (split; [reflexivity|]);
      apply forRows_counts in E; cbn in E; lia
  end.

Lemma order_counts_rows env clients orders csvData :
  countsRows (@length Order) BulkOrderModal.requiredFields csvData
             (BulkOrderModal.handleImport env clients orders csvData).
Proof. unfold countsRows, BulkOrderModal.handleImport. counts_rows. Qed.

Lemma deposit_counts_rows env clients deposits csvData :
  countsRows (@length Deposit) BulkDepositModal.requiredFields csvData
             (BulkDepositModal.handleImport env clients deposits csvData).
Proof. unfold countsRows, BulkDepositModal.handleImport. counts_rows. Qed.

Lemma withdrawal_counts_rows env clients withdrawals csvData :
  countsRows (@length Withdrawal) BulkWithdrawalModal.requiredFields csvData
             (BulkWithdrawalModal.handleImport env clients withdrawals csvData).
Proof. unfold countsRows, BulkWithdrawalModal.handleImport. counts_rows. Qed.

Lemma agent_counts_rows csvData :
  countsRows (@length Agent) AgentImportModal.requiredFields csvData
             (AgentImportModal.handleImport csvData).
Proof. unfold countsRows, AgentImportModal.handleImport. counts_rows. Qed.

Lemma batch_counts_rows env commit clients withdrawals csvData :
  countsRows (fun batches => length (concat batches))
             BulkWithdrawalBatch.requiredFields csvData
             (BulkWithdrawalBatch.handleImport
                env commit clients withdrawals csvData).
Proof.
  unfold countsRows. intros s e calls H.
  pose proof (proj2 (handleImport_batches
                       env commit clients withdrawals csvData) s e calls H)
    as [Hlen _].
  revert H. unfold BulkWithdrawalBatch.handleImport.
  destruct (readCsv _ csvData) as [message|[header lines]]; [discriminate|].
  destruct (forRows _ lines 1 start) as [t|t] eqn:E; [|discriminate].
  destruct (BulkWithdrawalBatch.commitAll _ (added t)) as [batches ok].
  destruct ok; [|discriminate].
  intros [= <- <- <-]. exists header, lines.
  apply forRows_counts in E. cbn in E. repeat split; [lia|exact Hlen].
Qed.

(** C9.  A blank or white-space-only data line moves no counter and makes
    no record: the loop goes on with the tally it had, in every import a
    run that ends normally has counted exactly the non-blank data lines,
    and for each import there is an input whose counters sum to fewer than
    its data lines. *)
Theorem blank_lines_are_skipped :
  (forall R (row : nat -> list string -> RowResult R) line rest i t,
      JS.trim line = "" ->
      forRows row (line :: rest) i t = forRows row rest (S i) t) /\
  (forall env commit clients orders deposits withdrawals csvData,
      countsRows (@length Order) BulkOrderModal.requiredFields csvData
        (BulkOrderModal.handleImport env clients orders csvData) /\
      countsRows (@length Deposit) BulkDepositModal.requiredFields csvData
        (BulkDepositModal.handleImport env clients deposits csvData) /\
      countsRows (@length Withdrawal) BulkWithdrawalModal.requiredFields
        csvData
        (BulkWithdrawalModal.handleImport env clients withdrawals csvData) /\
      countsRows (fun batches => length (concat batches))
        BulkWithdrawalBatch.requiredFields csvData
        (BulkWithdrawalBatch.handleImport
           env commit clients withdrawals csvData) /\
      countsRows (@length Agent) AgentImportModal.requiredFields csvData
        (AgentImportModal.handleImport csvData)) /\
  (exists s e calls,
      BulkOrderModal.handleImport sampleEnv sampleClients [] blankOrderCsv
      = Imported s e calls /\
      (s + e < length (tl (linesOf blankOrderCsv)))%nat) /\
  (exists s e calls,
      BulkDepositModal.handleImport sampleEnv sampleClients [] blankMoneyCsv
      = Imported s e calls /\
      (s + e < length (tl (linesOf blankMoneyCsv)))%nat) /\
  (exists s e calls,
      BulkWithdrawalModal.handleImport sampleEnv sampleClients [] blankMoneyCsv
      = Imported s e calls /\
      (s + e < length (tl (linesOf blankMoneyCsv)))%nat) /\
  (exists s e calls,
      BulkWithdrawalBatch.handleImport
        sampleEnv (fun _ => true) sampleClients [] blankMoneyCsv
      = Imported s e calls /\
      (s + e < length (tl (linesOf blankMoneyCsv)))%nat) /\
  (exists s e calls,
      AgentImportModal.handleImport blankAgentCsv = Imported s e calls /\
      (s + e < length (tl (linesOf blankAgentCsv)))%nat).
Proof.
  split; [|split].
  - intros R row line rest i t H. apply forRows_blank.
    unfold isBlank. now rewrite H.
  - intros. repeat split.
    + apply order_counts_rows.
    + apply deposit_counts_rows.
    + apply withdrawal_counts_rows.
    + apply batch_counts_rows.
    + apply agent_counts_rows.
  - repeat split;
      (exists 1%nat, 1%nat; eexists; split;
       [vm_compute; reflexivity|vm_compute; lia]).
Qed.

Lemma blank_lines_are_skipped_witness :
  forRows (AgentImportModal.row 0 1 2 3) ["   "; "Al,1,2,3.5"] 1 start
  = forRows (AgentImportModal.row 0 1 2 3) ["Al,1,2,3.5"] 2 start.
Proof.
  apply (proj1 blank_lines_are_skipped). reflexivity.
Defined.

(** ** Amounts *)

Lemma ltZero_leZero x : JS.ltZero x = true -> JS.leZero x = true.
Proof.
  destruct x as [|neg|q]; simpl; auto.
  intros H. apply negb_true_iff in H. apply Qle_bool_iff.
  apply Qlt_le_weak, Qnot_le_lt. intros Hle.
  apply Qle_bool_iff in Hle. congruence.
Qed.

Lemma badAmount_refused x :
  badAmount x -> JS.isNaN x || JS.leZero x = true.
Proof.
  intros [H|H]; [now rewrite H|].
  apply ltZero_leZero in H. rewrite H. apply orb_true_r.
Qed.

Lemma aboveZero_notNegative x : aboveZero x -> notNegative x.
Proof.
  intros [Hn Hl]. split; [exact Hn|].
  destruct (JS.ltZero x) eqn:E; [|reflexivity].
  apply ltZero_leZero in E. congruence.
Qed.

Lemma refused_aboveZero x :
  JS.isNaN x || JS.leZero x = false -> aboveZero x.
Proof. intros H. apply orb_false_iff in H. exact H. Qed.

Section RowsCheckAmounts.

Variable env : Env.
Variable clients : list Client.

Lemma order_row_bad orders a b c d e i values :
  badAmount (JS.parseFloat (JS.at_ values d)) ->
  BulkOrderModal.row env clients orders a b c d e i values = Reject.
Proof.
  intros H. apply badAmount_refused in H. unfold BulkOrderModal.row.
  destruct (findClient clients _); [|reflexivity]. now rewrite H.
Qed.

Lemma deposit_row_bad deposits a b c d i values :
  badAmount (JS.parseFloat (JS.at_ values c)) ->
  BulkDepositModal.row env clients deposits a b c d i values = Reject.
Proof.
  intros H. apply badAmount_refused in H. unfold BulkDepositModal.row.
  destruct (findClient clients _); [|reflexivity]. now rewrite H.
Qed.

Lemma withdrawal_row_bad withdrawals a b c d i values :
  badAmount (JS.parseFloat (JS.at_ values c)) ->
  BulkWithdrawalModal.row env clients withdrawals a b c d i values = Reject.
Proof.
  intros H. apply badAmount_refused in H. unfold BulkWithdrawalModal.row.
  now rewrite H.
Qed.

Lemma batch_row_bad withdrawals a b c d i values :
  badAmount (JS.parseFloat (JS.at_ values c)) ->
  BulkWithdrawalBatch.row env clients withdrawals a b c d i values = Reject.
Proof.
  intros H. apply badAmount_refused in H. unfold BulkWithdrawalBatch.row.
  destruct (length values <? 4)%nat; [reflexivity|]. now rewrite H.
Qed.

Lemma agent_row_bad a b c d i values :
  badAmount (JS.parseFloat (JS.at_ values d)) ->
  AgentImportModal.row a b c d i values = Reject.
Proof.
  intros H. unfold AgentImportModal.row.
  destruct (JS.at_ values a) as [[|ch name]|]; try reflexivity.
  destruct H as [H|H]; rewrite H; now rewrite ?orb_true_r.
Qed.

Lemma order_row_accepts orders a b c d e i values r :
  BulkOrderModal.row env clients orders a b c d e i values = Accept r ->
  aboveZero (price r).
Proof.
  unfold BulkOrderModal.row.
  destruct (findClient clients _); [|discriminate].
  destruct (JS.isNaN _ || JS.leZero _) eqn:E; [discriminate|].
  destruct (BulkOrderModal.exactStatus _); [|discriminate].
  intros [= <-]. now apply refused_aboveZero.
Qed.

Lemma deposit_row_accepts deposits a b c d i values r :
  BulkDepositModal.row env clients deposits a b c d i values = Accept r ->
  aboveZero (deposit_amount r).
Proof.
  unfold BulkDepositModal.row.
  destruct (findClient clients _); [|discriminate].
  destruct (JS.isNaN _ || JS.leZero _) eqn:E; [discriminate|].
  destruct (exactPaymentMode _); [|discriminate].
  intros [= <-]. now apply refused_aboveZero.
Qed.

Lemma withdrawal_row_accepts withdrawals a b c d i values r :
  BulkWithdrawalModal.row env clients withdrawals a b c d i values
  = Accept r ->
  aboveZero (withdrawal_amount r).
Proof.
  unfold BulkWithdrawalModal.row.
  destruct (JS.isNaN _ || JS.leZero _) eqn:E; [discriminate|].
  destruct (BulkWithdrawalModal.paymentModeOf _); try discriminate.
  intros [= <-]. now apply refused_aboveZero.
Qed.

Lemma batch_row_accepts withdrawals a b c d i values r :
  BulkWithdrawalBatch.row env clients withdrawals a b c d i values
  = Accept r ->
  aboveZero (withdrawal_amount r).
Proof.
  unfold BulkWithdrawalBatch.row.
  destruct (length values <? 4)%nat; [discriminate|].
  destruct (JS.isNaN _ || JS.leZero _) eqn:E; [discriminate|].
  destruct (BulkWithdrawalModal.paymentModeOf _); try discriminate.
  intros [= <-]. now apply refused_aboveZero.
Qed.

Lemma agent_row_accepts a b c d i values r :
  AgentImportModal.row a b c d i values = Accept r ->
  notNegative (totalDeposits r).
Proof.
  unfold AgentImportModal.row.
  destruct (JS.at_ values a) as [[|ch name]|]; try discriminate.
  match goal with
  | |- context [if ?cond then _ else _] => destruct cond eqn:E
  end; [discriminate|].
  intros [= <-]. simpl.
  repeat (apply orb_false_iff in E; destruct E as [E ?]).
  now split.
Qed.

End RowsCheckAmounts.

Lemma In_slice {A} (l : list A) i j x :
  In x (BulkWithdrawalBatch.slice l i j) -> In x l.
Proof.
  unfold BulkWithdrawalBatch.slice. intros H.
  rewrite <- (firstn_skipn i l). apply in_or_app. right.
  rewrite <- (firstn_skipn (j - i) (skipn i l)). apply in_or_app. now left.
Qed.

Lemma commitFrom_within {A} commit (all : list A) (P : A -> Prop) fuel :
  Forall P all ->
  forall i,
    Forall (Forall P) (fst (BulkWithdrawalBatch.commitFrom fuel commit all i)).
Proof.
  intros Hall. induction fuel as [|fuel IH]; intros i;
    cbn [BulkWithdrawalBatch.commitFrom]; [constructor|].
  destruct (i <? length all)%nat; [|constructor].
  assert (Hs : Forall P (BulkWithdrawalBatch.slice all i
                           (i + BulkWithdrawalBatch.BATCH_SIZE))).
  { apply Forall_forall. intros x Hx. apply In_slice in Hx.
    revert x Hx. now apply Forall_forall. }
  destruct (commit _).
  - specialize (IH (i + BulkWithdrawalBatch.BATCH_SIZE)%nat).
    destruct (BulkWithdrawalBatch.commitFrom fuel commit all _).
    cbn [fst] in *. now constructor.
  - constructor.
Qed.

Ltac calls_checked accepts :=
  match goal with
  | |- context [readCsv ?req ?csv] =>
      destruct (readCsv req csv) as [?|[? ?]]; [constructor|]
  end;
  match goal with
  | |- Forall ?P (callsOf match forRows ?row ?lines ?i ?t with _ => _ end) =>
      let H := fresh "H" in
      assert (H : Forall P (added (tallyOf (forRows row lines i t))))
        by (apply forRows_added;
            [intros ? ? ? ?; eapply accepts; eassumption|constructor]);
      destruct (forRows row lines i t); exact H
  end.

(** C6.  In each of the five imports a row whose amount, price or total
    deposits cell parses to [NaN] or to a negative number ends in
    [errorCount++; continue]; the loop then goes on with the error counter
    one higher and the same records; and no record that any run hands to
    the store has an amount that is [NaN], negative or zero (for agents:
    [NaN] or negative). *)
Theorem bad_amounts_are_rejected :
  (forall env clients orders shopIdIndex dateIndex locationIndex priceIndex
          statusIndex i values,
      badAmount (JS.parseFloat (JS.at_ values priceIndex)) ->
      BulkOrderModal.row env clients orders shopIdIndex dateIndex
        locationIndex priceIndex statusIndex i values = Reject) /\
  (forall env clients deposits shopIdIndex dateIndex amountIndex
          paymentModeIndex i values,
      badAmount (JS.parseFloat (JS.at_ values amountIndex)) ->
      BulkDepositModal.row env clients deposits shopIdIndex dateIndex
        amountIndex paymentModeIndex i values = Reject) /\
  (forall env clients withdrawals shopIdIndex dateIndex amountIndex
          paymentModeIndex i values,
      badAmount (JS.parseFloat (JS.at_ values amountIndex)) ->
      BulkWithdrawalModal.row env clients withdrawals shopIdIndex dateIndex
        amountIndex paymentModeIndex i values = Reject /\
      BulkWithdrawalBatch.row env clients withdrawals shopIdIndex dateIndex
        amountIndex paymentModeIndex i values = Reject) /\
  (forall nameIndex addedTodayIndex monthlyAddedIndex totalDepositsIndex
          i values,
      badAmount (JS.parseFloat (JS.at_ values totalDepositsIndex)) ->
      AgentImportModal.row nameIndex addedTodayIndex monthlyAddedIndex
        totalDepositsIndex i values = Reject) /\
  (forall R (row : nat -> list string -> RowResult R) line rest i t,
      isBlank line = false ->
      row i (cellsOf line) = Reject ->
      forRows row (line :: rest) i t
      = forRows row rest (S i)
          (mkTally (successCount t) (S (errorCount t)) (added t))) /\
  (forall env commit clients orders deposits withdrawals csvData,
      Forall (fun r => aboveZero (price r))
        (callsOf (BulkOrderModal.handleImport env clients orders csvData)) /\
      Forall (fun r => aboveZero (deposit_amount r))
        (callsOf (BulkDepositModal.handleImport env clients deposits csvData)) /\
      Forall (fun r => aboveZero (withdrawal_amount r))
        (callsOf (BulkWithdrawalModal.handleImport
                    env clients withdrawals csvData)) /\
      Forall (Forall (fun r => aboveZero (withdrawal_amount r)))
        (callsOf (BulkWithdrawalBatch.handleImport
                    env commit clients withdrawals csvData)) /\
      Forall (fun r => notNegative (totalDeposits r))
        (callsOf (AgentImportModal.handleImport csvData))).
Proof.
  repeat match goal with |- _ /\ _ => split end.
  - intros. now apply order_row_bad.
  - intros. now apply deposit_row_bad.
  - intros. split; [now apply withdrawal_row_bad|now apply batch_row_bad].
  - intros. now apply agent_row_bad.
  - intros. now apply forRows_reject.
  - intros. repeat match goal with |- _ /\ _ => split end.
    + unfold BulkOrderModal.handleImport.
      calls_checked order_row_accepts.
    + unfold BulkDepositModal.handleImport.
      calls_checked deposit_row_accepts.
    + unfold BulkWithdrawalModal.handleImport.
      calls_checked withdrawal_row_accepts.
    + unfold BulkWithdrawalBatch.handleImport.
      destruct (readCsv _ csvData) as [message|[header lines]];
        [constructor|].
      match goal with
      | |- context [forRows ?row ?lines ?i ?t] =>
          pose proof (forRows_added row _
                        (batch_row_accepts env clients withdrawals
                           _ _ _ _)
                        lines i t (Forall_nil _)) as H;
          destruct (forRows row lines i t) as [t'|t']; [|constructor]
      end.
      cbn [tallyOf] in H.
      set (pass := BulkWithdrawalBatch.passes commit (added t')).
      pose proof (commitFrom_within pass (added t') _
                    (length (added t')) H 0) as Hb.
      fold (BulkWithdrawalBatch.commitAll pass (added t')) in Hb.
      destruct (BulkWithdrawalBatch.commitAll pass (added t'))
        as [batches ok].
      destruct ok; exact Hb.
    + unfold AgentImportModal.handleImport.
      calls_checked agent_row_accepts.
Qed.

Lemma bad_amounts_are_rejected_witness :
  BulkWithdrawalModal.row sampleEnv [] [] 0 1 2 3 2
    ["S2"; "bad"; "-5"; "Unknown"] = Reject.
Proof.
  refine (proj1 (proj1 (proj2 (proj2 bad_amounts_are_rejected))
                   sampleEnv [] [] 0%Z 1%Z 2%Z 3%Z 2%nat
                   ["S2"; "bad"; "-5"; "Unknown"] _)).
  right. reflexivity.
Defined.

(** ** Unknown shop IDs *)

Lemma findClient_unknown clients shopId :
  unknownShop clients shopId -> findClient clients shopId = None.
Proof.
  unfold unknownShop, findClient. intros H.
  destruct shopId as [s|]; [|reflexivity].
  destruct (find _ clients) as [c|] eqn:E; [|reflexivity].
  apply find_some in E. destruct E as [Hin Heq].
  apply String.eqb_eq in Heq. exfalso. apply (H c Hin). now rewrite Heq.
Qed.

(** C5.  Whether an unknown shop ID is tolerated depends on the import.
    A withdrawal row whose shop ID matches no client, and whose amount and
    payment mode pass, becomes a record with the client name "Unknown
    Client" and the agent "Unknown Agent"; a deposit row or an order row
    with such a shop ID is rejected.  For the two rows of the example and
    no client, the withdrawal import ends with one success and one error
    and hands over one record of amount 100 with the two placeholders. *)
Theorem unknown_shop_tolerance :
  (forall env clients withdrawals shopIdIndex dateIndex amountIndex
          paymentModeIndex i values paymentMode,
      unknownShop clients (JS.at_ values shopIdIndex) ->
      aboveZero (JS.parseFloat (JS.at_ values amountIndex)) ->
      BulkWithdrawalModal.paymentModeOf (JS.at_ values paymentModeIndex)
      = Accept paymentMode ->
      BulkWithdrawalModal.row env clients withdrawals shopIdIndex dateIndex
        amountIndex paymentModeIndex i values
      = Accept (mkWithdrawal
                  (ClientContext.generateWithdrawalId env withdrawals)
                  (JS.at_ values shopIdIndex)
                  "Unknown Client" "Unknown Agent"
                  (DateText
                     (dateFns_format env
                        (BulkWithdrawalModal.dateOf env i
                           (JS.at_ values dateIndex))))
                  (JS.parseFloat (JS.at_ values amountIndex))
                  paymentMode) /\
      ((4 <= length values)%nat ->
       BulkWithdrawalBatch.row env clients withdrawals shopIdIndex dateIndex
         amountIndex paymentModeIndex i values
       = Accept (mkWithdrawal
                   (ClientContext.generateWithdrawalId env withdrawals)
                   (JS.at_ values shopIdIndex)
                   "Unknown Client" "Unknown Agent"
                   (DateObject
                      (BulkWithdrawalModal.dateOf env i
                         (JS.at_ values dateIndex)))
                   (JS.parseFloat (JS.at_ values amountIndex))
                   paymentMode))) /\
  (forall env clients deposits shopIdIndex dateIndex amountIndex
          paymentModeIndex i values,
      unknownShop clients (JS.at_ values shopIdIndex) ->
      BulkDepositModal.row env clients deposits shopIdIndex dateIndex
        amountIndex paymentModeIndex i values = Reject) /\
  (forall env clients orders shopIdIndex dateIndex locationIndex priceIndex
          statusIndex i values,
      unknownShop clients (JS.at_ values shopIdIndex) ->
      BulkOrderModal.row env clients orders shopIdIndex dateIndex
        locationIndex priceIndex statusIndex i values = Reject) /\
  (forall env withdrawals,
      BulkWithdrawalModal.handleImport env [] withdrawals scenarioCsv
      = Imported 1 1
          [mkWithdrawal (ClientContext.generateWithdrawalId env withdrawals)
             (Some "S1") "Unknown Client" "Unknown Agent"
             (DateText
                (dateFns_format env
                   (BulkWithdrawalModal.dateOf env 1 (Some "2023-01-01"))))
             (JS.Finite 100) Crypto]) /\
  (forall env withdrawals,
      BulkWithdrawalBatch.handleImport
        env (fun _ => true) [] withdrawals scenarioCsv
      = Imported 1 1
          [[mkWithdrawal (ClientContext.generateWithdrawalId env withdrawals)
              (Some "S1") "Unknown Client" "Unknown Agent"
              (DateObject
                 (BulkWithdrawalModal.dateOf env 1 (Some "2023-01-01")))
              (JS.Finite 100) Crypto]]).
Proof.
  repeat match goal with |- _ /\ _ => split end.
  - intros * Hshop Hamount Hmode. destruct Hamount as [Hn Hl]. split.
    + unfold BulkWithdrawalModal.row. cbv zeta.
      rewrite (findClient_unknown _ _ Hshop), Hn, Hl, Hmode. reflexivity.
    + intros Hlen. unfold BulkWithdrawalBatch.row.
      destruct (Nat.ltb_spec (length values) 4); [lia|]. cbv zeta.
      rewrite (findClient_unknown _ _ Hshop), Hn, Hl, Hmode. reflexivity.
  - intros * Hshop. unfold BulkDepositModal.row.
    now rewrite (findClient_unknown _ _ Hshop).
  - intros * Hshop. unfold BulkOrderModal.row.
    now rewrite (findClient_unknown _ _ Hshop).
  - intros. reflexivity.
  - intros. reflexivity.
Qed.

Lemma unknown_shop_tolerance_witness :
  BulkDepositModal.row sampleEnv sampleClients [] 0 1 2 3 1
    ["S7"; "01/01/2023"; "100.00"; "Crypto"] = Reject /\
  BulkWithdrawalModal.row sampleEnv sampleClients [] 0 1 2 3 1
    ["S7"; "2023-01-01"; "100.00"; "Crypto"]
  = Accept (mkWithdrawal "WD00001" (Some "S7") "Unknown Client"
              "Unknown Agent" (DateText "2023-01-01") (JS.Finite 100) Crypto).
Proof.
  assert (Hshop : forall rest,
             unknownShop sampleClients (JS.at_ ("S7" :: rest) 0)).
  { intros rest c [<-|[]]. discriminate. }
  split.
  - exact (proj1 (proj2 unknown_shop_tolerance)
             sampleEnv sampleClients [] 0%Z 1%Z 2%Z 3%Z 1%nat
             ["S7"; "01/01/2023"; "100.00"; "Crypto"] (Hshop _)).
  - refine (proj1 (proj1 unknown_shop_tolerance
                     sampleEnv sampleClients [] 0%Z 1%Z 2%Z 3%Z 1%nat
                     ["S7"; "2023-01-01"; "100.00"; "Crypto"] Crypto
                     (Hshop _) _ _)).
    + split; reflexivity.
    + reflexivity.
Defined.

(** ** Payment modes *)

Lemma exactPaymentMode_label m :
  exactPaymentMode (Some (paymentModeLabel m)) = Some m.
Proof. now destruct m. Qed.

Lemma exactPaymentMode_inv x m :
  exactPaymentMode x = Some m -> x = Some (paymentModeLabel m).
Proof.
  destruct x as [text|]; [|discriminate]. unfold exactPaymentMode. simpl.
  destruct (String.eqb_spec text "Crypto") as [->|_];
    [now intros [= <-]|].
  destruct (String.eqb_spec text "Online Banking") as [->|_];
    [now intros [= <-]|].
  destruct (String.eqb_spec text "Ewallet") as [->|_];
    [now intros [= <-]|discriminate].
Qed.

Lemma paymentModeOf_table text :
  BulkWithdrawalModal.paymentModeOf (Some text)
  = match exactPaymentMode (Some text) with
    | Some paymentMode => Accept paymentMode
    | None =>
        match lookupSynonym (JS.toLowerCase (JS.trim text)) with
        | Some paymentMode => Accept paymentMode
        | None => Reject
        end
    end.
Proof.
  unfold BulkWithdrawalModal.paymentModeOf.
  destruct (exactPaymentMode (Some text)); [reflexivity|].
  generalize (JS.toLowerCase (JS.trim text)). intros key.
  unfold lookupSynonym, synonymTable, JS.includes. cbn [find existsb fst].
  repeat match goal with
    | |- context [?a =? key] => rewrite (String.eqb_sym a key)
    end.
  repeat match goal with
    | |- context [key =? ?a] => destruct (key =? a); try reflexivity
    end.
Qed.

(** C7, as the code has it for deposits: the deposit import knows no
    synonyms.  The same row is accepted with the label "Crypto" and
    rejected with its synonym "bitcoin". *)
Lemma deposit_refuses_synonym :
  BulkDepositModal.handleImport sampleEnv sampleClients [] cryptoDepositCsv
  = Imported 1 0
      [mkDeposit "DP00001" (Some "S1") "Ann" "Bob" (DateText "2023-01-01")
         (JS.Finite 100) Crypto] /\
  BulkDepositModal.handleImport sampleEnv sampleClients [] bitcoinDepositCsv
  = Imported 0 1 [].
Proof. split; reflexivity. Qed.

(** C7, amended.  In the two withdrawal imports the payment mode cell is
    first matched against the three labels as they are written; failing
    that, the trimmed, lower-cased cell is looked up among the synonyms;
    failing that, the row is rejected.  A label and each of its synonyms
    give the same payment mode, which is the one on the record.  The
    deposit import matches the three labels only: a record carries the
    label of its cell, and every other cell rejects the row. *)
Theorem payment_mode_normalization :
  (forall text,
      BulkWithdrawalModal.paymentModeOf (Some text)
      = match exactPaymentMode (Some text) with
        | Some paymentMode => Accept paymentMode
        | None =>
            match lookupSynonym (JS.toLowerCase (JS.trim text)) with
            | Some paymentMode => Accept paymentMode
            | None => Reject
            end
        end) /\
  (forall x paymentMode,
      exactPaymentMode x = Some paymentMode <->
      x = Some (paymentModeLabel paymentMode)) /\
  (forall paymentMode,
      BulkWithdrawalModal.paymentModeOf (Some (paymentModeLabel paymentMode))
      = Accept paymentMode) /\
  (forall synonym paymentMode,
      In (synonym, paymentMode) synonymTable ->
      BulkWithdrawalModal.paymentModeOf (Some synonym)
      = BulkWithdrawalModal.paymentModeOf
          (Some (paymentModeLabel paymentMode))) /\
  (forall env clients withdrawals shopIdIndex dateIndex amountIndex
          paymentModeIndex i values r,
      BulkWithdrawalModal.row env clients withdrawals shopIdIndex dateIndex
        amountIndex paymentModeIndex i values = Accept r \/
      BulkWithdrawalBatch.row env clients withdrawals shopIdIndex dateIndex
        amountIndex paymentModeIndex i values = Accept r ->
      BulkWithdrawalModal.paymentModeOf (JS.at_ values paymentModeIndex)
      = Accept (withdrawal_paymentMode r)) /\
  (forall env clients deposits shopIdIndex dateIndex amountIndex
          paymentModeIndex i values,
      (forall r,
          BulkDepositModal.row env clients deposits shopIdIndex dateIndex
            amountIndex paymentModeIndex i values = Accept r ->
          JS.at_ values paymentModeIndex
          = Some (paymentModeLabel (deposit_paymentMode r))) /\
      (exactPaymentMode (JS.at_ values paymentModeIndex) = None ->
       BulkDepositModal.row env clients deposits shopIdIndex dateIndex
         amountIndex paymentModeIndex i values = Reject)).
Proof.
  repeat match goal with |- _ /\ _ => split end.
  - apply paymentModeOf_table.
  - intros x paymentMode. split;
      [apply exactPaymentMode_inv|intros ->; apply exactPaymentMode_label].
  - now intros [].
  - intros synonym paymentMode H. simpl in H.
    repeat (destruct H as [[= <- <-]|H]; [reflexivity|]). destruct H.
  - intros * [H|H]; revert H.
    + unfold BulkWithdrawalModal.row.
      destruct (JS.isNaN _ || JS.leZero _); [discriminate|].
      destruct (BulkWithdrawalModal.paymentModeOf _); try discriminate.
      now intros [= <-].
    + unfold BulkWithdrawalBatch.row.
      destruct (length values <? 4)%nat; [discriminate|].
      destruct (JS.isNaN _ || JS.leZero _); [discriminate|].
      destruct (BulkWithdrawalModal.paymentModeOf _); try discriminate.
      now intros [= <-].
  - intros env clients deposits shopIdIndex dateIndex amountIndex
           paymentModeIndex i values.
    split.
    + intros r. unfold BulkDepositModal.row.
      destruct (findClient clients _); [|discriminate].
      destruct (JS.isNaN _ || JS.leZero _); [discriminate|].
      destruct (exactPaymentMode _) eqn:E; [|discriminate].
      intros [= <-]. now apply exactPaymentMode_inv.
    + intros H. unfold BulkDepositModal.row.
      destruct (findClient clients _); [|reflexivity].
      destruct (JS.isNaN _ || JS.leZero _); [reflexivity|].
      now rewrite H.
Qed.

Lemma payment_mode_normalization_witness :
  BulkWithdrawalModal.paymentModeOf (Some "btc")
  = BulkWithdrawalModal.paymentModeOf (Some "Crypto") /\
  BulkDepositModal.row sampleEnv sampleClients [] 0 1 2 3 1
    ["S1"; "01/01/2023"; "100.00"; "btc"] = Reject.
Proof.
  split.
  - refine (proj1 (proj2 (proj2 (proj2 payment_mode_normalization)))
              "btc" Crypto _).
    simpl. auto 10.
  - refine (proj2 (proj2 (proj2 (proj2 (proj2 (proj2
              payment_mode_normalization))))
              sampleEnv sampleClients [] 0%Z 1%Z 2%Z 3%Z 1%nat
              ["S1"; "01/01/2023"; "100.00"; "btc"]) _).
    reflexivity.
Defined.

(** ** Dates *)

(** C8, as the code has it for orders: the order import neither parses
    the date nor replaces it; the text "bad", which is no date, is what
    the record carries. *)
Lemma order_keeps_unparseable_date :
  Date_parse sampleEnv "bad" = None /\
  BulkOrderModal.handleImport sampleEnv sampleClients [] badDateOrderCsv
  = Imported 1 0
      [mkOrder "OR00001" (Some "S1") "Ann" "Bob" (Some (DateText "bad"))
         (Some "Paris") (JS.Finite 10) Pending].
Proof. split; reflexivity. Qed.

(** C8, amended.  No import rejects a row for its date cell: a row whose
    other cells pass is accepted whatever the date cell holds.  In the
    deposit import and in the two withdrawal imports a date cell that does
    not parse (or is missing) is replaced by the current date.  The order
    import stores the date cell as it stands, [null] when it is empty or
    missing. *)
Theorem dates_never_reject :
  (forall env clients deposits shopIdIndex dateIndex amountIndex
          paymentModeIndex i values client paymentMode,
      findClient clients (JS.at_ values shopIdIndex) = Some client ->
      aboveZero (JS.parseFloat (JS.at_ values amountIndex)) ->
      exactPaymentMode (JS.at_ values paymentModeIndex) = Some paymentMode ->
      BulkDepositModal.row env clients deposits shopIdIndex dateIndex
        amountIndex paymentModeIndex i values
      = Accept (mkDeposit (ClientContext.generateDepositId env deposits)
                  (JS.at_ values shopIdIndex)
                  (client_clientName client) (client_agent client)
                  (DateText
                     (BulkDepositModal.depositDateOf env i
                        (JS.at_ values dateIndex)))
                  (JS.parseFloat (JS.at_ values amountIndex))
                  paymentMode)) /\
  (forall env i dateValue,
      match dateValue with
      | Some text => dateFns_parse env text (clock env i) = None
      | None => True
      end ->
      BulkDepositModal.depositDateOf env i dateValue
      = dateFns_format env (clock env i)) /\
  (forall env clients withdrawals shopIdIndex dateIndex amountIndex
          paymentModeIndex i values paymentMode,
      aboveZero (JS.parseFloat (JS.at_ values amountIndex)) ->
      BulkWithdrawalModal.paymentModeOf (JS.at_ values paymentModeIndex)
      = Accept paymentMode ->
      (exists r,
          BulkWithdrawalModal.row env clients withdrawals shopIdIndex
            dateIndex amountIndex paymentModeIndex i values = Accept r /\
          withdrawal_date r
          = DateText (dateFns_format env
                        (BulkWithdrawalModal.dateOf env i
                           (JS.at_ values dateIndex)))) /\
      ((4 <= length values)%nat ->
       exists r,
         BulkWithdrawalBatch.row env clients withdrawals shopIdIndex
           dateIndex amountIndex paymentModeIndex i values = Accept r /\
         withdrawal_date r
         = DateObject (BulkWithdrawalModal.dateOf env i
                         (JS.at_ values dateIndex)))) /\
  (forall env i withdrawalDate,
      match withdrawalDate with
      | Some text => Date_parse env text = None
      | None => True
      end ->
      BulkWithdrawalModal.dateOf env i withdrawalDate = clock env i) /\
  (forall env clients orders shopIdIndex dateIndex locationIndex priceIndex
          statusIndex i values client status,
      findClient clients (JS.at_ values shopIdIndex) = Some client ->
      aboveZero (JS.parseFloat (JS.at_ values priceIndex)) ->
      BulkOrderModal.exactStatus (JS.at_ values statusIndex) = Some status ->
      BulkOrderModal.row env clients orders shopIdIndex dateIndex
        locationIndex priceIndex statusIndex i values
      = Accept (mkOrder (ClientContext.generateOrderId env orders)
                  (JS.at_ values shopIdIndex)
                  (client_clientName client) (client_agent client)
                  (rawDate (JS.at_ values dateIndex))
                  (JS.at_ values locationIndex)
                  (JS.parseFloat (JS.at_ values priceIndex))
                  status)).
Proof.
  repeat match goal with |- _ /\ _ => split end.
  - intros * Hc [Hn Hl] Hm. unfold BulkDepositModal.row. cbv zeta.
    now rewrite Hc, Hn, Hl, Hm.
  - intros env i [text|] H; unfold BulkDepositModal.depositDateOf;
      [now rewrite H|reflexivity].
  - intros * [Hn Hl] Hm. split.
    + unfold BulkWithdrawalModal.row. cbv zeta. rewrite Hn, Hl, Hm.
      eexists. split; reflexivity.
    + intros Hlen. unfold BulkWithdrawalBatch.row.
      destruct (Nat.ltb_spec (length values) 4); [lia|]. cbv zeta.
      rewrite Hn, Hl, Hm. eexists. split; reflexivity.
  - intros env i [text|] H; unfold BulkWithdrawalModal.dateOf;
      [now rewrite H|reflexivity].
  - intros * Hc [Hn Hl] Hs. unfold BulkOrderModal.row. cbv zeta.
    now rewrite Hc, Hn, Hl, Hs.
Qed.

Lemma dates_never_reject_witness :
  BulkDepositModal.depositDateOf sampleEnv 1 (Some "bad") = "2023-11-14" /\
  BulkOrderModal.row sampleEnv sampleClients [] 0 1 2 3 4 1
    ["S1"; "bad"; "Paris"; "10"; "Pending"]
  = Accept (mkOrder "OR00001" (Some "S1") "Ann" "Bob" (Some (DateText "bad"))
              (Some "Paris") (JS.Finite 10) Pending).
Proof.
  split.
  - refine (proj1 (proj2 dates_never_reject) sampleEnv 1%nat (Some "bad") _).
    reflexivity.
  - refine (proj2 (proj2 (proj2 (proj2 dates_never_reject)))
              sampleEnv sampleClients [] 0%Z 1%Z 2%Z 3%Z 4%Z 1%nat
              ["S1"; "bad"; "Paris"; "10"; "Pending"]
              (mkClient "S1" "Ann" "Bob") Pending _ _ _).
    + reflexivity.
    + split; reflexivity.
    + reflexivity.
Defined.

(** ** Short rows *)

(** The order, deposit and agent rows never throw, so these imports
    always end by publishing their counters. *)
Lemma order_row_total env clients orders a b c d e i values :
  BulkOrderModal.row env clients orders a b c d e i values <> Throw.
Proof.
  unfold BulkOrderModal.row.
  destruct (findClient clients _); [|discriminate].
  destruct (JS.isNaN _ || JS.leZero _); [discriminate|].
  destruct (BulkOrderModal.exactStatus _); discriminate.
Qed.

Lemma deposit_row_total env clients deposits a b c d i values :
  BulkDepositModal.row env clients deposits a b c d i values <> Throw.
Proof.
  unfold BulkDepositModal.row.
  destruct (findClient clients _); [|discriminate].
  destruct (JS.isNaN _ || JS.leZero _); [discriminate|].
  destruct (exactPaymentMode _); discriminate.
Qed.

Lemma agent_row_total a b c d i values :
  AgentImportModal.row a b c d i values <> Throw.
Proof.
  unfold AgentImportModal.row.
  destruct (JS.at_ values a) as [[|ch name]|]; try discriminate.
  match goal with
  | |- context [if ?cond then _ else _] => destruct cond
  end; discriminate.
Qed.

Lemma imports_without_exception env clients orders deposits csvData e calls :
  BulkOrderModal.handleImport env clients orders csvData <> Crashed e calls /\
  (forall calls',
      BulkDepositModal.handleImport env clients deposits csvData
      <> Crashed e calls') /\
  (forall calls', AgentImportModal.handleImport csvData <> Crashed e calls').
Proof.
  split; [|split]; [|intros calls'|intros calls'];
    unfold BulkOrderModal.handleImport, BulkDepositModal.handleImport,
      AgentImportModal.handleImport;
    (destruct (readCsv _ csvData) as [message|[header lines]];
     [discriminate|]);
    match goal with
    | |- context [forRows ?row ?lines ?i ?t] =>
        let H := fresh "H" in
        assert (H : exists t', forRows row lines i t = Finished t')
          by (apply forRows_finishes; intros;
              first [apply order_row_total | apply deposit_row_total
                    | apply agent_row_total]);
        destruct H as [t' ->]; discriminate
    end.
Qed.

(** C1 at a failing input.  The second row of [raggedCsv] has an amount
    and no payment mode: reading the cell gives [undefined], [trim] on it
    throws, and the run ends in the [catch] block after the first row was
    handed to [addWithdrawal]; no counter is published. *)
Theorem short_withdrawal_row_crashes :
  readCsv BulkWithdrawalModal.requiredFields raggedCsv
  = inr (["shop id"; "date"; "amount"; "payment mode"],
         ["S1,2023-01-01,100.00,Crypto"; "S2,2023-01-01,50"]) /\
  BulkWithdrawalModal.row sampleEnv [] [] 0 1 2 3 2 (cellsOf "S2,2023-01-01,50")
  = Throw /\
  BulkWithdrawalModal.handleImport sampleEnv [] [] raggedCsv
  = Crashed TypeError
      [mkWithdrawal "WD00001" (Some "S1") "Unknown Client" "Unknown Agent"
         (DateText "2023-01-01") (JS.Finite 100) Crypto].
Proof. repeat split. Qed.

(** C10 at a failing input.  With a column in front of the required
    ones, "payment mode" is the fifth column; a row of four cells passes
    the guard, its amount is valid, and the payment mode is read at index
    4, beyond the row: the cell is [undefined], [trim] on it throws, and
    the run ends in the [catch] block. *)
Theorem batch_guard_misses_wide_header :
  let header := headerOf "id,shop id,date,amount,payment mode" in
  let values := cellsOf "1,S1,2023-01-01,100" in
  (length values <? 4)%nat = false /\
  JS.indexOf header "payment mode" = 4%Z /\
  JS.at_ values 4 = None /\
  BulkWithdrawalBatch.row sampleEnv [] [] 1 2 3 4 1 values = Throw /\
  BulkWithdrawalBatch.handleImport sampleEnv (fun _ => true) [] [] wideCsv
  = Crashed TypeError [].
Proof. repeat split. Qed.

(** The guard does protect a file whose header is the four required
    columns and nothing else: every cell read is inside the row. *)
Lemma batch_guard_protects_four_columns header values k field :
  length header = 4%nat ->
  In field BulkWithdrawalBatch.requiredFields ->
  JS.includes header (Some field) = true ->
  (length values <? 4)%nat = false ->
  k = JS.indexOf header field ->
  exists text, JS.at_ values k = Some text.
Proof.
  intros Hh _ Hin Hv ->.
  destruct header as [|h0 [|h1 [|h2 [|h3 [|]]]]]; try discriminate.
  destruct values as [|v0 [|v1 [|v2 [|v3 rest]]]]; try discriminate.
  simpl in Hin. unfold JS.indexOf.
  rewrite (String.eqb_sym h0), (String.eqb_sym h1), (String.eqb_sym h2),
    (String.eqb_sym h3).
  destruct (field =? h0); [now eexists|].
  destruct (field =? h1); [now eexists|].
  destruct (field =? h2); [now eexists|].
  destruct (field =? h3); [now eexists|discriminate].
Qed.

(** ** Identifiers *)

Section Numbers.

Local Open Scope Z_scope.

Lemma Qred_int z : Qred (z # 1) = z # 1.
Proof.
  unfold Qred. cbn [Qnum Qden].
  pose proof (Z.ggcd_gcd z 1) as Hg.
  pose proof (Z.ggcd_correct_divisors z 1) as Hd.
  destruct (Z.ggcd z 1) as [g [aa bb]]. cbn [fst snd] in *.
  rewrite Z.gcd_1_r in Hg. subst g. destruct Hd as [Ha Hb].
  replace aa with z by lia. replace bb with 1 by lia. reflexivity.
Qed.

Lemma Qred_scaled z k : 0 < k -> Qred (z * k # Z.to_pos k) = z # 1.
Proof.
  intros Hk. rewrite <- Qred_int. apply Qred_complete.
  unfold Qeq. cbn [Qnum Qden]. rewrite Z2Pos.id by lia. lia.
Qed.

Lemma roundPos_int z :
  0 < z < 2 ^ 53 ->
  JS.roundPos z 1 = Some (z * 2 ^ (52 - Z.log2 z), Z.log2 z - 52).
Proof.
  intros Hz. unfold JS.roundPos.
  change (Z.log2 1) with 0. rewrite Z.sub_0_r.
  pose proof (Z.log2_spec z (proj1 Hz)) as [Hlo Hhi].
  pose proof (Z.log2_nonneg z) as Hnn.
  assert (Hlt : Z.log2 z < 53).
  { apply Z.log2_lt_pow2; lia. }
  unfold JS.geTwoPow.
  destruct (Z.leb_spec 0 (Z.log2 z)); [|lia].
  destruct (Z.leb_spec (1 * 2 ^ Z.log2 z) z); [|lia].
  rewrite Z.max_l by lia.
  destruct (Z.leb_spec 0 (Z.log2 z - 52)) as [Hp|Hp].
  - assert (He : Z.log2 z = 52) by lia. rewrite He.
    change (52 - 52) with 0. change (2 ^ 0) with 1.
    rewrite !Z.mul_1_r, Z.div_1_r, Z.mod_1_r.
    change (2 * 0 <? 1) with true. cbv iota.
    change (971 <? 0) with false. change (0 =? 971) with false.
    reflexivity.
  - replace (- (Z.log2 z - 52)) with (52 - Z.log2 z) by lia.
    rewrite Z.div_1_r, Z.mod_1_r.
    change (2 * 0 <? 1) with true. cbv iota.
    destruct (Z.ltb_spec 971 (Z.log2 z - 52)); [lia|].
    destruct (Z.eqb_spec (Z.log2 z - 52) 971); [lia|].
    reflexivity.
Qed.

Lemma roundToDouble_int z :
  0 <= z < 2 ^ 53 -> JS.roundToDouble (z # 1) = JS.Finite (z # 1).
Proof.
  intros Hz. unfold JS.roundToDouble. cbn [Qnum Qden].
  destruct (Z.eqb_spec z 0) as [->|Hnz]; [reflexivity|].
  rewrite Z.abs_eq by lia. rewrite roundPos_int by lia.
  destruct (Z.ltb_spec z 0); [lia|].
  pose proof (Z.log2_nonneg z).
  assert (Hlt : Z.log2 z < 53) by (apply Z.log2_lt_pow2; lia).
  destruct (Z.leb_spec 0 (Z.log2 z - 52)) as [Hp|Hp].
  - assert (He : Z.log2 z = 52) by lia. rewrite He.
    change (52 - 52) with 0. change (2 ^ 0) with 1.
    now rewrite !Z.mul_1_r.
  - replace (- (Z.log2 z - 52)) with (52 - Z.log2 z) by lia.
    rewrite Qred_scaled; [reflexivity|]. apply Z.pow_pos_nonneg; lia.
Qed.

Lemma succ_int z :
  0 <= z < 2 ^ 53 - 1 ->
  JS.succ (JS.Finite (z # 1)) = JS.Finite (z + 1 # 1).
Proof.
  intros Hz. unfold JS.succ.
  replace (Qred ((z # 1) + 1)) with (z + 1 # 1).
  - apply roundToDouble_int. lia.
  - rewrite <- Qred_int. apply Qred_complete.
    unfold Qeq, Qplus. cbn [Qnum Qden]. lia.
Qed.

Lemma toString_int exotic z :
  0 <= z < 2 ^ 53 ->
  JS.toString exotic (JS.Finite (z # 1)) = NilZero.string_of_int (Z.to_int z).
Proof.
  intros Hz. unfold JS.toString. rewrite Qred_int. cbn [Qnum Qden].
  change (1 =? 1) with true. cbn [andb].
  destruct (Z.leb_spec (Z.abs z) (2 ^ 53)) as [_|H]; [reflexivity|].
  exfalso. revert H. rewrite Z.abs_eq by lia. lia.
Qed.

Lemma digits_uint d : forall acc count,
  JS.digits 10 (NilEmpty.string_of_uint d) acc count
  = (uintValue d acc, (count + Decimal.nb_digits d)%nat, "").
Proof.
  induction d; intros acc count;
    cbn [NilEmpty.string_of_uint uintValue Decimal.nb_digits];
    [now rewrite Nat.add_0_r|..];
    (etransitivity; [|rewrite <- Nat.add_succ_comm; apply IHd]); reflexivity.
Qed.

Lemma uintValue_pos d : forall p,
  uintValue d (Zpos p) = Zpos (Pos.of_uint_acc d p).
Proof.
  induction d; intros p; cbn [uintValue Pos.of_uint_acc];
    [reflexivity|..];
    (etransitivity; [|apply IHd]); f_equal; lia.
Qed.

Lemma uintValue_zero d : uintValue d 0 = Z.of_uint d.
Proof.
  unfold Z.of_uint.
  induction d; cbn [uintValue Pos.of_uint]; [reflexivity|exact IHd|..];
    apply (uintValue_pos d).
Qed.

Lemma onlyDigits_uint d : onlyDigits (NilEmpty.string_of_uint d) = true.
Proof. induction d; cbn [NilEmpty.string_of_uint onlyDigits]; auto. Qed.

Lemma decimal_nonneg z :
  0 <= z ->
  exists d, d <> Decimal.Nil /\
            NilZero.string_of_int (Z.to_int z) = NilEmpty.string_of_uint d /\
            Z.of_uint d = z.
Proof.
  intros Hz. destruct z as [|p|p]; [| |lia].
  - exists (Decimal.D0 Decimal.Nil). repeat split. discriminate.
  - exists (Pos.to_uint p).
    pose proof (Unsigned.to_uint_nonnil p) as Hn.
    split; [exact Hn|]. split.
    + cbn [Z.to_int NilZero.string_of_int]. unfold NilZero.string_of_uint.
      destruct (Pos.to_uint p); [contradiction|reflexivity..].
    + unfold Z.of_uint. now rewrite Unsigned.of_to.
Qed.

Lemma digits_zeros k s : forall count,
  JS.digits 10 (JS.repeatChar "0" k ++ s) 0 count
  = JS.digits 10 s 0 (count + k)%nat.
Proof.
  induction k as [|k IH]; intros count; cbn [JS.repeatChar String.append].
  - now rewrite Nat.add_0_r.
  - etransitivity; [|rewrite <- Nat.add_succ_comm; apply IH]. reflexivity.
Qed.

Lemma onlyDigits_zeros k s :
  onlyDigits (JS.repeatChar "0" k ++ s) = onlyDigits s.
Proof. induction k; cbn [JS.repeatChar String.append onlyDigits]; auto. Qed.

Lemma isDigit_cases c :
  isDigit c = true ->
  JS.isSpace c = false /\
  (forall r, JS.signOf (String c r) = (false, String c r)) /\
  (Ascii.eqb c "x" || Ascii.eqb c "X" = false).
Proof.
  destruct c as [[] [] [] [] [] [] [] []]; try discriminate;
    intros _; repeat split.
Qed.

Lemma parseIntString_digits s :
  onlyDigits s = true ->
  JS.parseIntString s None
  = let '(v, n, _) := JS.digits 10 s 0 0 in
    if (n =? 0)%nat then JS.NaN else JS.roundToDouble (v # 1).
Proof.
  intros H. unfold JS.parseIntString.
  destruct s as [|c r]; [reflexivity|].
  cbn [onlyDigits] in H. apply andb_true_iff in H. destruct H as [Hc Hr].
  destruct (isDigit_cases c Hc) as (Hs & Hsign & _).
  cbn [JS.trimStart]. rewrite Hs, Hsign.
  assert (Hradix :
            match String c r with
            | String "0" (String x rest) =>
                if Ascii.eqb x "x" || Ascii.eqb x "X" then (16, rest)
                else (10, String c r)
            | _ => (10, String c r)
            end = (10, String c r)).
  { destruct r as [|x rest].
    - destruct c as [[] [] [] [] [] [] [] []]; reflexivity.
    - cbn [onlyDigits] in Hr. apply andb_true_iff in Hr.
      destruct Hr as [Hx _]. destruct (isDigit_cases x Hx) as (_ & _ & Hxx).
      destruct c as [[] [] [] [] [] [] [] []]; try reflexivity.
      now rewrite Hxx. }
  rewrite Hradix. reflexivity.
Qed.

End Numbers.

Lemma dropPrefix_app p s : JS.dropPrefix p (p ++ s) = Some s.
Proof.
  induction p as [|a p IH]; cbn [JS.dropPrefix String.append].
  - now destruct s.
  - now rewrite Ascii.eqb_refl.
Qed.

Lemma replace_prefix p s : JS.replace p "" (p ++ s) = s.
Proof.
  pose proof (dropPrefix_app p s) as H.
  destruct (p ++ s)%string; cbn [JS.replace]; now rewrite H.
Qed.

Lemma nb_digits_nonnil d : d <> Decimal.Nil -> (0 < Decimal.nb_digits d)%nat.
Proof. destruct d; cbn [Decimal.nb_digits]; [contradiction|lia..]. Qed.

(** Reading back a padded numeral gives the number it was printed from. *)
Lemma parseInt_padded k z :
  (0 <= z < 2 ^ 53)%Z ->
  JS.parseIntString (JS.repeatChar "0" k ++ decimal z) None
  = JS.Finite (z # 1).
Proof.
  intros Hz. destruct (decimal_nonneg z (proj1 Hz)) as (d & Hnil & Hs & Hv).
  unfold decimal. rewrite Hs.
  rewrite parseIntString_digits
    by (rewrite onlyDigits_zeros; apply onlyDigits_uint).
  rewrite digits_zeros, digits_uint, uintValue_zero, Hv.
  pose proof (nb_digits_nonnil d Hnil).
  destruct (Nat.eqb_spec (0 + k + Decimal.nb_digits d) 0); [lia|].
  now apply roundToDouble_int.
Qed.

(** After the identifier number [z] comes the identifier number [z + 1]. *)
Lemma nextId_sequence env prefix z :
  (0 <= z < 2 ^ 53 - 1)%Z ->
  ClientContext.nextId env prefix (Some (idOf prefix z))
  = idOf prefix (z + 1).
Proof.
  intros Hz. unfold ClientContext.nextId, idOf, JS.parseInt.
  cbn [JS.toStringCell]. rewrite replace_prefix.
  change (JS.padStart 5 "0" (decimal z))
    with (JS.repeatChar "0" (5 - String.length (decimal z)) ++ decimal z)%string.
  rewrite parseInt_padded by lia. rewrite succ_int by lia.
  rewrite toString_int by lia. reflexivity.
Qed.

Lemma lastOf_snoc {A} (l : list A) x :
  ClientContext.lastOf (l ++ [x]) = Some x.
Proof.
  unfold ClientContext.lastOf. rewrite length_app. cbn [length].
  replace (length l + 1 - 1)%nat with (length l) by lia.
  rewrite nth_error_app2 by lia. now rewrite Nat.sub_diag.
Qed.

Lemma length_append s t :
  String.length (s ++ t) = (String.length s + String.length t)%nat.
Proof.
  induction s as [|c s IH]; cbn [String.append String.length];
    [reflexivity|now rewrite IH].
Qed.

Lemma length_repeatChar c n : String.length (JS.repeatChar c n) = n.
Proof. induction n; cbn [JS.repeatChar String.length]; auto. Qed.

(** C4, as the code has it: the generators look at the last record, not
    at the record with the highest number, and the number is not cut to
    five digits.  With the orders OR00005, OR00002 in this order the next
    identifier is OR00003, where the highest number plus one gives
    OR00006; after OR99999 comes OR100000. *)
Lemma last_identifier_not_highest :
  ClientContext.generateOrderId sampleEnv
    [sampleOrder "OR00005"; sampleOrder "OR00002"] = "OR00003" /\
  idOf "OR" (Z.max 5 2 + 1) = "OR00006" /\
  ClientContext.generateOrderId sampleEnv [sampleOrder "OR99999"]
  = "OR100000".
Proof. repeat split. Qed.

(** C4, amended.  Each generator returns its prefix followed by a
    numeral padded with zeros to at least five characters.  With no
    record the numeral is 00001.  Otherwise only the last record of the
    list counts: when its identifier is the prefix and the padded numeral
    of [z], the result is the prefix and the padded numeral of [z + 1]. *)
Theorem identifiers_follow_last_record :
  (forall env,
      ClientContext.generateOrderId env [] = "OR00001" /\
      ClientContext.generateDepositId env [] = "DP00001" /\
      ClientContext.generateWithdrawalId env [] = "WD00001") /\
  (forall env orders last,
      ClientContext.generateOrderId env (orders ++ [last])
      = ClientContext.generateOrderId env [last]) /\
  (forall env deposits last,
      ClientContext.generateDepositId env (deposits ++ [last])
      = ClientContext.generateDepositId env [last]) /\
  (forall env withdrawals last,
      ClientContext.generateWithdrawalId env (withdrawals ++ [last])
      = ClientContext.generateWithdrawalId env [last]) /\
  (forall env orders last z,
      (0 <= z < 2 ^ 53 - 1)%Z ->
      orderId last = idOf "OR" z ->
      ClientContext.generateOrderId env (orders ++ [last])
      = idOf "OR" (z + 1)) /\
  (forall env deposits last z,
      (0 <= z < 2 ^ 53 - 1)%Z ->
      depositId last = idOf "DP" z ->
      ClientContext.generateDepositId env (deposits ++ [last])
      = idOf "DP" (z + 1)) /\
  (forall env withdrawals last z,
      (0 <= z < 2 ^ 53 - 1)%Z ->
      withdrawalId last = idOf "WD" z ->
      ClientContext.generateWithdrawalId env (withdrawals ++ [last])
      = idOf "WD" (z + 1)) /\
  (forall prefix z,
      String.length (idOf prefix z)
      = (String.length prefix + Nat.max 5 (String.length (decimal z)))%nat).
Proof.
  repeat match goal with |- _ /\ _ => split end.
  - intros env. repeat split.
  - intros. unfold ClientContext.generateOrderId.
    now rewrite lastOf_snoc.
  - intros. unfold ClientContext.generateDepositId.
    now rewrite lastOf_snoc.
  - intros. unfold ClientContext.generateWithdrawalId.
    now rewrite lastOf_snoc.
  - intros env orders last z Hz Hid. unfold ClientContext.generateOrderId.
    rewrite lastOf_snoc. cbn [option_map]. rewrite Hid.
    now apply nextId_sequence.
  - intros env deposits last z Hz Hid.
    unfold ClientContext.generateDepositId.
    rewrite lastOf_snoc. cbn [option_map]. rewrite Hid.
    now apply nextId_sequence.
  - intros env withdrawals last z Hz Hid.
    unfold ClientContext.generateWithdrawalId.
    rewrite lastOf_snoc. cbn [option_map]. rewrite Hid.
    now apply nextId_sequence.
  - intros prefix z. unfold idOf, JS.padStart.
    rewrite !length_append, length_repeatChar. lia.
Qed.

Lemma identifiers_follow_last_record_witness :
  ClientContext.generateOrderId sampleEnv
    [sampleOrder "OR00005"; sampleOrder "OR00002"] = idOf "OR" (2 + 1).
Proof.
  refine (proj1 (proj2 (proj2 (proj2 (proj2 identifiers_follow_last_record))))
            sampleEnv [sampleOrder "OR00005"] (sampleOrder "OR00002") 2%Z
            _ _).
  - split; [lia|reflexivity].
  - reflexivity.
Defined.

(** ** Further properties: counting, identifiers, columns *)

Section Verdicts.

Context {R : Type} (row : nat -> list string -> RowResult R).

Lemma verdicts_length lines : forall i,
  length (verdicts row lines i) = length (nonBlank lines).
Proof.
  induction lines as [|line rest IH]; intros i; [reflexivity|].
  unfold nonBlank. cbn [verdicts filter]. fold (nonBlank rest).
  destruct (isBlank line); cbn [negb length]; now rewrite IH.
Qed.

Lemma acceptedOf_length (vs : list (RowResult R)) :
  (length (acceptedOf vs) <= length vs)%nat.
Proof.
  induction vs as [|v vs IH]; [apply Nat.le_refl|].
  unfold acceptedOf in *. cbn [flat_map]. rewrite length_app.
  destruct v; cbn [length]; lia.
Qed.

(** A loop none of whose rows throws ends with one success per accepted
    row, one error per other row, and the accepted records in row
    order. *)
Lemma forRows_verdicts lines : forall i t,
  Forall (fun v => v <> Throw) (verdicts row lines i) ->
  forRows row lines i t
  = Finished
      (mkTally
         (successCount t + length (acceptedOf (verdicts row lines i)))
         (errorCount t + (length (verdicts row lines i)
                          - length (acceptedOf (verdicts row lines i))))
         (added t ++ acceptedOf (verdicts row lines i))).
Proof.
  induction lines as [|line rest IH]; intros i t H; cbn [verdicts forRows].
  - cbn [acceptedOf flat_map length]. rewrite !Nat.add_0_r, app_nil_r.
    now destruct t.
  - cbn [verdicts] in H. destruct (isBlank line); [now apply IH|].
    inversion H as [|v vs Hv Hvs]; subst.
    pose proof (acceptedOf_length (verdicts row rest (S i))) as Hle.
    destruct (row i (cellsOf line)) as [r| |]; [| |contradiction].
    + rewrite IH by assumption. cbn [successCount errorCount added].
      unfold acceptedOf. cbn [flat_map length app].
      rewrite <- app_assoc. cbn [app]. f_equal. f_equal; lia.
    + rewrite IH by assumption. cbn [successCount errorCount added].
      unfold acceptedOf in *. cbn [flat_map length app]. f_equal.
      f_equal; lia.
Qed.

Lemma verdicts_total lines :
  (forall i values, row i values <> Throw) ->
  forall i, Forall (fun v => v <> Throw) (verdicts row lines i).
Proof.
  intros Hrow. induction lines as [|line rest IH]; intros i;
    cbn [verdicts]; [constructor|].
  destruct (isBlank line); [apply IH|]. constructor; [apply Hrow|apply IH].
Qed.

Lemma verdicts_where (P : list string -> Prop) lines :
  (forall i values, P values -> row i values <> Throw) ->
  (forall line, In line lines -> isBlank line = false -> P (cellsOf line)) ->
  forall i, Forall (fun v => v <> Throw) (verdicts row lines i).
Proof.
  intros Hrow. induction lines as [|line rest IH]; intros HP i;
    cbn [verdicts]; [constructor|].
  assert (Hrest : forall i, Forall (fun v => v <> Throw)
                              (verdicts row rest i)).
  { apply IH. intros l Hl. apply HP. now right. }
  destruct (isBlank line) eqn:E; [apply Hrest|].
  constructor; [|apply Hrest]. apply Hrow, HP; [now left|exact E].
Qed.

End Verdicts.

(** X1.  The order, deposit and agent imports never end in the [catch]
    block: once the header check has passed, a run publishes one success
    per row that passes, one error per other non-blank row, and hands the
    records of the passing rows to the store in row order. *)
Theorem imports_count_valid_rows env clients orders deposits csvData :
  (forall header lines,
      readCsv BulkOrderModal.requiredFields csvData = inr (header, lines) ->
      let records :=
        acceptedOf (verdicts (orderRow env clients orders header) lines 1) in
      BulkOrderModal.handleImport env clients orders csvData
      = Imported (length records)
          (length (nonBlank lines) - length records) records) /\
  (forall header lines,
      readCsv BulkDepositModal.requiredFields csvData = inr (header, lines) ->
      let records :=
        acceptedOf (verdicts (depositRow env clients deposits header)
                      lines 1) in
      BulkDepositModal.handleImport env clients deposits csvData
      = Imported (length records)
          (length (nonBlank lines) - length records) records) /\
  (forall header lines,
      readCsv AgentImportModal.requiredFields csvData = inr (header, lines) ->
      let records := acceptedOf (verdicts (agentRow header) lines 1) in
      AgentImportModal.handleImport csvData
      = Imported (length records)
          (length (nonBlank lines) - length records) records).
Proof.
  repeat match goal with |- _ /\ _ => split end;
    intros header lines H records;
    unfold BulkOrderModal.handleImport, BulkDepositModal.handleImport,
      AgentImportModal.handleImport;
    rewrite H;
    [fold (orderRow env clients orders header)
    |fold (depositRow env clients deposits header)
    |fold (agentRow header)];
    (rewrite forRows_verdicts;
     [cbn; now rewrite verdicts_length
     |apply verdicts_total; intros;
      first [apply order_row_total | apply deposit_row_total
            | apply agent_row_total]]).
Qed.

Lemma imports_count_valid_rows_witness :
  AgentImportModal.handleImport blankAgentCsv
  = Imported 1 1 [mkAgent "Al" (JS.Finite 1) (JS.Finite 2) (JS.Finite 0)
                    (JS.Finite (7 # 2))].
Proof.
  exact (proj2 (proj2 (imports_count_valid_rows sampleEnv [] [] []
                         blankAgentCsv))
           _ _ eq_refl).
Defined.

Lemma withdrawal_row_throws env clients withdrawals a b c d i values :
  JS.at_ values d <> None ->
  BulkWithdrawalModal.row env clients withdrawals a b c d i values <> Throw /\
  BulkWithdrawalBatch.row env clients withdrawals a b c d i values <> Throw.
Proof.
  intros H.
  assert (Hp : BulkWithdrawalModal.paymentModeOf (JS.at_ values d) <> Throw).
  { destruct (JS.at_ values d) as [text|]; [|contradiction].
    rewrite paymentModeOf_table.
    destruct (exactPaymentMode _); [discriminate|].
    destruct (lookupSynonym _); discriminate. }
  unfold BulkWithdrawalModal.row, BulkWithdrawalBatch.row. split.
  - destruct (JS.isNaN _ || JS.leZero _); [discriminate|].
    destruct (BulkWithdrawalModal.paymentModeOf _);
      [discriminate..|contradiction].
  - destruct (length values <? 4)%nat; [discriminate|].
    destruct (JS.isNaN _ || JS.leZero _); [discriminate|].
    destruct (BulkWithdrawalModal.paymentModeOf _);
      [discriminate..|contradiction].
Qed.

Lemma verdicts_accepted {R} (row : nat -> list string -> RowResult R)
      (P : R -> Prop) lines :
  (forall i line r,
      In line lines -> isBlank line = false ->
      row i (cellsOf line) = Accept r -> P r) ->
  forall i, Forall P (acceptedOf (verdicts row lines i)).
Proof.
  induction lines as [|line rest IH]; intros Hrow i;
    cbn [verdicts]; [constructor|].
  assert (Hrest : forall i, Forall P (acceptedOf (verdicts row rest i))).
  { apply IH. intros j l r Hl. apply Hrow. now right. }
  destruct (isBlank line) eqn:E; [apply Hrest|].
  unfold acceptedOf. cbn [flat_map]. apply Forall_app. split; [|apply Hrest].
  destruct (row i (cellsOf line)) as [r| |] eqn:Er; constructor;
    [|constructor].
  apply (Hrow i line r); [now left|exact E|exact Er].
Qed.

Lemma batch_row_fields env clients withdrawals a b c d i values r :
  BulkWithdrawalBatch.row env clients withdrawals a b c d i values = Accept r ->
  withdrawal_shopId r = JS.at_ values a.
Proof.
  unfold BulkWithdrawalBatch.row.
  destruct (length values <? 4)%nat; [discriminate|].
  destruct (JS.isNaN _ || JS.leZero _); [discriminate|].
  destruct (BulkWithdrawalModal.paymentModeOf _); try discriminate.
  now intros [= <-].
Qed.

(** With a shop ID in every data line, [batch.set] takes every record
    that the rows hand over. *)
Lemma batch_records_set env clients withdrawals header lines :
  shopIdPresent header lines ->
  Forall (fun withdrawal => BulkWithdrawalBatch.setAccepts withdrawal = true)
    (acceptedOf (verdicts (batchRow env clients withdrawals header) lines 1)).
Proof.
  intros Hs. apply verdicts_accepted. intros i line r Hin Hb Hr.
  apply batch_row_fields in Hr. unfold BulkWithdrawalBatch.setAccepts.
  rewrite Hr. specialize (Hs line Hin Hb).
  now destruct (JS.at_ (cellsOf line) (JS.indexOf header "shop id")).
Qed.

Lemma passes_accepting commit allWithdrawals :
  Forall (fun withdrawal => BulkWithdrawalBatch.setAccepts withdrawal = true)
    allWithdrawals ->
  (forall k, commit k = true) ->
  forall k, BulkWithdrawalBatch.passes commit allWithdrawals k = true.
Proof.
  intros Hset Hc k. unfold BulkWithdrawalBatch.passes.
  rewrite Hc, andb_true_r. apply forallb_forall. intros x Hx.
  apply In_slice in Hx. revert x Hx. now apply Forall_forall.
Qed.

(** X2.  When every non-blank data line has a cell in the payment mode
    column, the withdrawal imports count in the same way: the import
    that calls [addWithdrawal] per row always; the batched import when,
    moreover, every such line has a cell in the shop ID column and the
    store lets every pass through, and then the batches written are the
    passing records in row order. *)
Theorem withdrawal_imports_count_valid_rows
        env clients withdrawals csvData header lines :
  readCsv BulkWithdrawalModal.requiredFields csvData = inr (header, lines) ->
  paymentModePresent header lines ->
  (let records :=
     acceptedOf (verdicts (withdrawalRow env clients withdrawals header)
                   lines 1) in
   BulkWithdrawalModal.handleImport env clients withdrawals csvData
   = Imported (length records)
       (length (nonBlank lines) - length records) records) /\
  (forall commit,
      shopIdPresent header lines ->
      (forall k, commit k = true) ->
      let records :=
        acceptedOf (verdicts (batchRow env clients withdrawals header)
                      lines 1) in
      exists batches,
        BulkWithdrawalBatch.handleImport
          env commit clients withdrawals csvData
        = Imported (length records)
            (length (nonBlank lines) - length records) batches /\
        concat batches = records).
Proof.
  intros H Hp. split.
  - intros records. unfold BulkWithdrawalModal.handleImport. rewrite H.
    fold (withdrawalRow env clients withdrawals header).
    rewrite forRows_verdicts; [cbn; now rewrite verdicts_length|].
    apply (verdicts_where _ (fun values =>
             JS.at_ values (JS.indexOf header "payment mode") <> None)).
    + intros i values Hv. now apply withdrawal_row_throws.
    + exact Hp.
  - intros commit Hs Hc records.
    unfold BulkWithdrawalBatch.handleImport.
    change BulkWithdrawalBatch.requiredFields
      with BulkWithdrawalModal.requiredFields.
    rewrite H. fold (batchRow env clients withdrawals header).
    rewrite forRows_verdicts.
    + cbn [start successCount errorCount added app Nat.add].
      fold records.
      set (pass := BulkWithdrawalBatch.passes commit records).
      assert (Hpass : forall k, pass k = true).
      { apply passes_accepting; [|exact Hc].
        now apply batch_records_set. }
      pose proof (commitFrom_accepting pass records (length records) 0 Hpass)
        as Hok.
      fold (BulkWithdrawalBatch.commitAll pass records) in Hok.
      destruct (BulkWithdrawalBatch.commitAll pass records)
        as [batches ok] eqn:E.
      cbn [snd] in Hok. subst ok. exists batches.
      apply commitAll_partition in E.
      rewrite verdicts_length. now split.
    + apply (verdicts_where _ (fun values =>
               JS.at_ values (JS.indexOf header "payment mode") <> None)).
      * intros i values Hv. now apply withdrawal_row_throws.
      * exact Hp.
Qed.

Lemma withdrawal_imports_count_valid_rows_witness :
  BulkWithdrawalModal.handleImport sampleEnv [] [] scenarioCsv
  = Imported 1 1
      [mkWithdrawal "WD00001" (Some "S1") "Unknown Client" "Unknown Agent"
         (DateText "2023-01-01") (JS.Finite 100) Crypto] /\
  exists batches,
    BulkWithdrawalBatch.handleImport sampleEnv (fun _ => true) [] []
      scenarioCsv
    = Imported 1 1 batches /\
    concat batches
    = [mkWithdrawal "WD00001" (Some "S1") "Unknown Client" "Unknown Agent"
         (DateObject 1672531200000) (JS.Finite 100) Crypto].
Proof.
  split.
  - refine (proj1 (withdrawal_imports_count_valid_rows
                     sampleEnv [] [] scenarioCsv _ _ eq_refl _)).
    intros line [<-|[<-|[]]] _; discriminate.
  - refine (proj2 (withdrawal_imports_count_valid_rows
                     sampleEnv [] [] scenarioCsv _ _ eq_refl _)
              (fun _ => true) _ (fun _ => eq_refl)).
    + intros line [<-|[<-|[]]] _; discriminate.
    + intros line [<-|[<-|[]]] _; discriminate.
Defined.

Ltac same_id accepts :=
  match goal with
  | |- context [readCsv ?req ?csv] =>
      destruct (readCsv req csv) as [?|[? ?]]; [constructor|]
  end;
  match goal with
  | |- Forall ?P (callsOf match forRows ?row ?lines ?i ?t with _ => _ end) =>
      let H := fresh "H" in
      assert (H : Forall P (added (tallyOf (forRows row lines i t))))
        by (apply forRows_added; [intros ? ? ? ?; accepts|constructor]);
      destruct (forRows row lines i t); exact H
  end.

Lemma order_row_id env clients orders a b c d e i values r :
  BulkOrderModal.row env clients orders a b c d e i values = Accept r ->
  orderId r = ClientContext.generateOrderId env orders.
Proof.
  unfold BulkOrderModal.row.
  destruct (findClient clients _); [|discriminate].
  destruct (JS.isNaN _ || JS.leZero _); [discriminate|].
  destruct (BulkOrderModal.exactStatus _); [|discriminate].
  now intros [= <-].
Qed.

Lemma deposit_row_id env clients deposits a b c d i values r :
  BulkDepositModal.row env clients deposits a b c d i values = Accept r ->
  depositId r = ClientContext.generateDepositId env deposits.
Proof.
  unfold BulkDepositModal.row.
  destruct (findClient clients _); [|discriminate].
  destruct (JS.isNaN _ || JS.leZero _); [discriminate|].
  destruct (exactPaymentMode _); [|discriminate].
  now intros [= <-].
Qed.

Lemma withdrawal_row_id env clients withdrawals a b c d i values r :
  BulkWithdrawalModal.row env clients withdrawals a b c d i values = Accept r
  \/ BulkWithdrawalBatch.row env clients withdrawals a b c d i values
     = Accept r ->
  withdrawalId r = ClientContext.generateWithdrawalId env withdrawals.
Proof.
  unfold BulkWithdrawalModal.row, BulkWithdrawalBatch.row. intros [H|H];
    revert H.
  - destruct (JS.isNaN _ || JS.leZero _); [discriminate|].
    destruct (BulkWithdrawalModal.paymentModeOf _); try discriminate.
    now intros [= <-].
  - destruct (length values <? 4)%nat; [discriminate|].
    destruct (JS.isNaN _ || JS.leZero _); [discriminate|].
    destruct (BulkWithdrawalModal.paymentModeOf _); try discriminate.
    now intros [= <-].
Qed.

Lemma order_calls_id env clients orders csvData :
  Forall (fun r => orderId r = ClientContext.generateOrderId env orders)
    (callsOf (BulkOrderModal.handleImport env clients orders csvData)).
Proof.
  unfold BulkOrderModal.handleImport.
  same_id ltac:(eapply order_row_id; eassumption).
Qed.

Lemma deposit_calls_id env clients deposits csvData :
  Forall (fun r => depositId r = ClientContext.generateDepositId env deposits)
    (callsOf (BulkDepositModal.handleImport env clients deposits csvData)).
Proof.
  unfold BulkDepositModal.handleImport.
  same_id ltac:(eapply deposit_row_id; eassumption).
Qed.

Lemma withdrawal_calls_id env clients withdrawals csvData :
  Forall (fun r =>
            withdrawalId r
            = ClientContext.generateWithdrawalId env withdrawals)
    (callsOf (BulkWithdrawalModal.handleImport
                env clients withdrawals csvData)).
Proof.
  unfold BulkWithdrawalModal.handleImport.
  same_id ltac:(eapply withdrawal_row_id; left; eassumption).
Qed.

(** X3.  All records that one run of a bulk import hands to the store
    carry one and the same identifier: the one generated from the list
    the dialog was rendered with.  The generators are not told about the
    records created earlier in the run. *)
Theorem one_identifier_per_run
        env commit clients orders deposits withdrawals csvData :
  Forall (fun r => orderId r = ClientContext.generateOrderId env orders)
    (callsOf (BulkOrderModal.handleImport env clients orders csvData)) /\
  Forall (fun r => depositId r = ClientContext.generateDepositId env deposits)
    (callsOf (BulkDepositModal.handleImport env clients deposits csvData)) /\
  Forall (fun r =>
            withdrawalId r
            = ClientContext.generateWithdrawalId env withdrawals)
    (callsOf (BulkWithdrawalModal.handleImport
                env clients withdrawals csvData)) /\
  Forall (Forall (fun r =>
                    withdrawalId r
                    = ClientContext.generateWithdrawalId env withdrawals))
    (callsOf (BulkWithdrawalBatch.handleImport
                env commit clients withdrawals csvData)).
Proof.
  repeat match goal with |- _ /\ _ => split end.
  - apply order_calls_id.
  - apply deposit_calls_id.
  - apply withdrawal_calls_id.
  - unfold BulkWithdrawalBatch.handleImport.
    destruct (readCsv _ csvData) as [message|[header lines]];
      [constructor|].
    match goal with
    | |- context [forRows ?row ?lines ?i ?t] =>
        assert (H : Forall (fun r =>
                              withdrawalId r
                              = ClientContext.generateWithdrawalId
                                  env withdrawals)
                      (added (tallyOf (forRows row lines i t))))
          by (apply forRows_added;
              [intros ? ? ? Hr; eapply withdrawal_row_id; right; exact Hr
              |constructor]);
        destruct (forRows row lines i t) as [t'|t']; [|constructor]
    end.
    cbn [tallyOf] in H.
    set (pass := BulkWithdrawalBatch.passes commit (added t')).
    pose proof (commitFrom_within pass (added t') _
                  (length (added t')) H 0) as Hb.
    fold (BulkWithdrawalBatch.commitAll pass (added t')) in Hb.
    destruct (BulkWithdrawalBatch.commitAll pass (added t'))
      as [batches ok].
    destruct ok; exact Hb.
Qed.

(** ** Further properties: columns and counts *)




Section WholeNumbers.

Local Open Scope Z_scope.

(** Rounding an integer to a number gives an integer or an infinity. *)
Lemma roundToDouble_whole z :
  (exists w, JS.roundToDouble (z # 1) = JS.Finite (w # 1)) \/
  (exists negative, JS.roundToDouble (z # 1) = JS.Infinity negative).
Proof.
  unfold JS.roundToDouble. cbn [Qnum Qden].
  destruct (z =? 0); [left; now exists 0|].
  unfold JS.roundPos.
  set (e := if JS.geTwoPow (Z.abs z) 1 (Z.log2 (Z.abs z) - Z.log2 1)
            then Z.log2 (Z.abs z) - Z.log2 1
            else Z.log2 (Z.abs z) - Z.log2 1 - 1).
  set (p := Z.max (e - 52) (-1074)).
  destruct (0 <=? p) eqn:Hp.
  - match goal with
    | |- context [if ?c then None else Some (?m, p)] =>
        destruct c; [right; now eexists|left]
    end.
    rewrite Hp. now eexists.
  - rewrite Z.div_1_r, Z.mod_1_r. change (2 * 0 <? 1) with true. cbv iota.
    match goal with
    | |- context [if ?c then None else Some (?m, p)] =>
        destruct c; [right; now eexists|left]
    end.
    rewrite Hp. exists z. f_equal.
    apply Z.leb_gt in Hp.
    assert (Hk : 0 < 2 ^ (- p)) by (apply Z.pow_pos_nonneg; lia).
    destruct (Z.ltb_spec z 0).
    + rewrite <- Z.mul_opp_l, Z.abs_neq, Z.opp_involutive by lia.
      now apply Qred_scaled.
    + rewrite Z.abs_eq by lia. now apply Qred_scaled.
Qed.

Lemma parseIntString_whole s radix :
  JS.parseIntString s radix = JS.NaN \/
  exists z, JS.parseIntString s radix = JS.roundToDouble (z # 1).
Proof.
  unfold JS.parseIntString.
  destruct (JS.signOf (JS.trimStart s)) as [negative s1].
  match goal with
  | |- context [let '(r, s2) := ?x in _] => destruct x as [r s2]
  end.
  destruct (JS.digits r s2 0 0) as [[v n] rest].
  destruct (n =? 0)%nat; [now left|right; now eexists].
Qed.

Lemma whole_when_accepted x :
  (x = JS.NaN \/ exists z, x = JS.roundToDouble (z # 1)) ->
  JS.isNaN x = false -> JS.ltZero x = false -> wholeCount x.
Proof.
  intros [->|[z ->]] Hn Hl; [discriminate|].
  destruct (roundToDouble_whole z) as [[w Hw]|[negative Hi]].
  - rewrite Hw in *. cbn in Hl. apply negb_false_iff, Qle_bool_iff in Hl.
    unfold Qle in Hl. cbn in Hl. split; [reflexivity|]. cbn. lia.
  - rewrite Hi in *. exact Hl.
Qed.

End WholeNumbers.

Lemma agent_row_whole a b c d i values r :
  AgentImportModal.row a b c d i values = Accept r ->
  name r <> "" /\ wholeCount (addedToday r) /\ wholeCount (monthlyAdded r) /\
  openAccounts r = JS.Finite 0 /\ notNegative (totalDeposits r).
Proof.
  unfold AgentImportModal.row.
  destruct (JS.at_ values a) as [[|ch rest]|]; try discriminate.
  match goal with
  | |- context [if ?cond then _ else _] => destruct cond eqn:E
  end; [discriminate|].
  intros [= <-]. cbn.
  repeat (apply orb_false_iff in E; destruct E as [E ?]).
  repeat split; try assumption; try discriminate;
    apply whole_when_accepted; try assumption; apply parseIntString_whole.
Qed.

(** X5.  Every agent that the agent import hands to [addAgent] has a
    name that is not empty, numbers of accounts added today and this
    month that are whole and not negative (a cell such as 2.7 is cut to
    2; a numeral beyond the range of numbers gives the positive
    infinity), no open account, and total deposits that are a number
    and not negative. *)
Theorem imported_agents_are_well_formed csvData :
  Forall (fun r =>
            name r <> "" /\ wholeCount (addedToday r) /\
            wholeCount (monthlyAdded r) /\ openAccounts r = JS.Finite 0 /\
            notNegative (totalDeposits r))
    (callsOf (AgentImportModal.handleImport csvData)).
Proof.
  unfold AgentImportModal.handleImport.
  same_id ltac:(eapply agent_row_whole; eassumption).
Qed.

(** ** Further properties: pages *)

Section Pages.

Import OrdersTable.
Local Open Scope Z_scope.

Context {A : Type} (filteredOrders : list A) (size : PageSize).

Lemma itemsPerPage_pos : 0 < itemsPerPage size.
Proof. destruct size; reflexivity. Qed.

Lemma totalPages_spec :
  (totalPages filteredOrders size - 1) * itemsPerPage size
  < Z.of_nat (length filteredOrders)
  <= totalPages filteredOrders size * itemsPerPage size.
Proof.
  unfold totalPages, JSArray.ceilDiv. pose proof itemsPerPage_pos as Hp.
  pose proof (Z.mul_div_le (- Z.of_nat (length filteredOrders))
                (itemsPerPage size) Hp).
  pose proof (Z.mul_succ_div_gt (- Z.of_nat (length filteredOrders))
                (itemsPerPage size) Hp).
  nia.
Qed.

Lemma totalPages_nonneg : 0 <= totalPages filteredOrders size.
Proof.
  pose proof totalPages_spec. pose proof itemsPerPage_pos. nia.
Qed.

(** A page from one on is the slice of [itemsPerPage] items after the
    items of the pages before it. *)
Lemma paginatedOrders_firstn currentPage :
  1 <= currentPage ->
  paginatedOrders filteredOrders currentPage size
  = firstn (Z.to_nat (itemsPerPage size))
      (skipn (Z.to_nat (startIndex currentPage size)) filteredOrders).
Proof.
  intros Hc. unfold paginatedOrders, JSArray.slice, startIndex.
  pose proof itemsPerPage_pos as Hp.
  set (n := itemsPerPage size) in *. set (s := (currentPage - 1) * n).
  set (len := Z.of_nat (length filteredOrders)).
  assert (Hs : 0 <= s) by (unfold s; nia).
  destruct (Z.ltb_spec s 0); [lia|].
  destruct (Z.ltb_spec (s + n) 0); [lia|].
  destruct (Z.le_gt_cases s len) as [Hle|Hgt].
  - rewrite (Z.min_l s len) by lia.
    destruct (Z.le_gt_cases (s + n) len).
    + rewrite Z.min_l by lia. f_equal. lia.
    + rewrite Z.min_r by lia.
      rewrite !firstn_all2; [reflexivity|rewrite length_skipn; lia..].
  - rewrite (Z.min_r s len), Z.min_r by lia.
    rewrite Z.sub_diag. cbn [Z.to_nat firstn].
    rewrite (skipn_all2 (n := Z.to_nat s)) by lia.
    now rewrite firstn_nil.
Qed.

Lemma pages_concat (n : nat) : forall m k,
  concat (map (fun j => firstn n (skipn ((k + j) * n) filteredOrders))
              (seq 0 m))
  = firstn (m * n) (skipn (k * n) filteredOrders).
Proof.
  induction m as [|m IH]; intros k; [reflexivity|].
  rewrite seq_S, map_app, concat_app, IH. cbn [map concat Nat.add].
  rewrite app_nil_r.
  replace ((k + m) * n)%nat with (m * n + k * n)%nat by lia.
  rewrite <- skipn_skipn.
  replace (S m * n)%nat with (m * n + n)%nat by lia.
  generalize (skipn (k * n) filteredOrders). intros l.
  rewrite <- (firstn_skipn (m * n) (firstn (m * n + n) l)).
  rewrite firstn_firstn, Nat.min_l by lia. f_equal.
  now rewrite skipn_firstn_comm, Nat.add_comm, Nat.add_sub.
Qed.

End Pages.

Section PageTheorems.

Import OrdersTable.
Local Open Scope Z_scope.

Lemma page_length {A} (l : list A) size p :
  1 <= p ->
  Z.of_nat (length (paginatedOrders l p size))
  = Z.max 0 (Z.min (itemsPerPage size)
               (Z.of_nat (length l) - startIndex p size)).
Proof.
  intros Hp. rewrite paginatedOrders_firstn by exact Hp.
  rewrite length_firstn, length_skipn. unfold startIndex.
  pose proof (itemsPerPage_pos size). nia.
Qed.

(** X6.  The pages one to [totalPages], one after the other, are the
    whole list; each of them holds at least one and at most
    [itemsPerPage] entries, and "Showing a-b" names the first and the
    last of them. *)
Theorem pages_partition_the_list {A} (filteredOrders : list A) size :
  concat (map (fun p => paginatedOrders filteredOrders p size)
              (pagesUpTo (totalPages filteredOrders size)))
  = filteredOrders /\
  (forall currentPage,
      1 <= currentPage <= totalPages filteredOrders size ->
      1 <= Z.of_nat (length (paginatedOrders filteredOrders currentPage size))
        <= itemsPerPage size /\
      let '(a, b) := showing filteredOrders currentPage size in
      a = startIndex currentPage size + 1 /\
      b - a + 1
      = Z.of_nat (length (paginatedOrders filteredOrders currentPage size))).
Proof.
  pose proof (totalPages_spec filteredOrders size) as Ht.
  pose proof (totalPages_nonneg filteredOrders size) as Hn.
  pose proof (itemsPerPage_pos size) as Hp.
  split.
  - unfold pagesUpTo. rewrite map_map.
    rewrite (map_ext _
               (fun j => firstn (Z.to_nat (itemsPerPage size))
                           (skipn ((0 + j) * Z.to_nat (itemsPerPage size))
                              filteredOrders))).
    + rewrite pages_concat. cbn [Nat.mul skipn].
      apply firstn_all2. nia.
    + intros j. rewrite paginatedOrders_firstn by lia.
      f_equal. f_equal. unfold startIndex. nia.
  - intros currentPage Hc.
    pose proof (page_length filteredOrders size currentPage (proj1 Hc))
      as Hlen.
    unfold showing. unfold startIndex in *.
    destruct (Z.ltb_spec 0 (Z.of_nat (length filteredOrders))); nia.
Qed.

Lemma pages_partition_the_list_witness :
  1 <= Z.of_nat (length (paginatedOrders [1%nat; 2%nat; 3%nat] 1 Ten)) <= 10.
Proof.
  refine (proj1 (proj2 (pages_partition_the_list [1%nat; 2%nat; 3%nat] Ten)
                   1 _)).
  split; [lia|reflexivity].
Defined.

(** X7.  A page from one on is empty exactly when it lies beyond the
    last page: this is what the table shows when a filter has shortened
    the list while a later page was selected, since the filters do not
    reset the page. *)
Theorem page_beyond_the_last_is_empty {A} (filteredOrders : list A) size
        currentPage :
  1 <= currentPage ->
  (paginatedOrders filteredOrders currentPage size = [] <->
   totalPages filteredOrders size < currentPage).
Proof.
  intros Hc.
  pose proof (totalPages_spec filteredOrders size) as Ht.
  pose proof (itemsPerPage_pos size) as Hp.
  pose proof (page_length filteredOrders size currentPage Hc) as Hlen.
  unfold startIndex in Hlen. split.
  - intros H. rewrite H in Hlen. cbn [length Z.of_nat] in Hlen. nia.
  - intros H. apply length_zero_iff_nil. nia.
Qed.

Lemma page_beyond_the_last_is_empty_witness :
  paginatedOrders [1%nat; 2%nat; 3%nat] 2 Ten = [].
Proof.
  refine (proj2 (page_beyond_the_last_is_empty
                   [1%nat; 2%nat; 3%nat] Ten 2 _) _); [lia|reflexivity].
Defined.

(** X8.  The page links are consecutive page numbers, as many as there
    are pages up to five, all of them existing pages whatever the
    current page is.  When the current page exists, it is among the
    links, and "previous" and "next" lead to existing pages. *)
Theorem page_links_are_valid totalPages currentPage :
  0 <= totalPages ->
  let first := pageNum totalPages currentPage 0 in
  pageLinks totalPages currentPage
  = map (fun i => first + Z.of_nat i) (seq 0 (Z.to_nat (Z.min 5 totalPages)))
  /\
  Forall (fun p => 1 <= p <= totalPages) (pageLinks totalPages currentPage) /\
  (1 <= currentPage <= totalPages ->
   In currentPage (pageLinks totalPages currentPage) /\
   1 <= previousPage currentPage <= totalPages /\
   1 <= nextPage totalPages currentPage <= totalPages).
Proof.
  intros Ht first.
  assert (Hshape : forall i,
             pageNum totalPages currentPage i = first + i).
  { intros i. unfold first, pageNum.
    destruct (totalPages <=? 5); [lia|].
    destruct (currentPage <=? 3); [lia|].
    destruct (totalPages - 2 <=? currentPage); lia. }
  assert (Heq : pageLinks totalPages currentPage
                = map (fun i => first + Z.of_nat i)
                    (seq 0 (Z.to_nat (Z.min 5 totalPages)))).
  { unfold pageLinks. apply map_ext. intros i. apply Hshape. }
  split; [exact Heq|]. rewrite Heq.
  assert (Hfirst : forall i,
             0 <= i < Z.min 5 totalPages ->
             1 <= first + i <= totalPages).
  { intros i Hi. unfold first, pageNum.
    destruct (Z.leb_spec totalPages 5); [lia|].
    destruct (Z.leb_spec currentPage 3); [lia|].
    destruct (Z.leb_spec (totalPages - 2) currentPage); lia. }
  split.
  - apply Forall_forall. intros p Hp. apply in_map_iff in Hp.
    destruct Hp as (i & <- & Hi). apply in_seq in Hi. apply Hfirst. lia.
  - intros Hc. split; [|unfold previousPage, nextPage; lia].
    apply in_map_iff. exists (Z.to_nat (currentPage - first)).
    assert (Hin : 0 <= currentPage - first < Z.min 5 totalPages).
    { unfold first, pageNum.
      destruct (Z.leb_spec totalPages 5); [lia|].
      destruct (Z.leb_spec currentPage 3); [lia|].
      destruct (Z.leb_spec (totalPages - 2) currentPage); lia. }
    split; [lia|]. apply in_seq. lia.
Qed.

Lemma page_links_are_valid_witness :
  pageLinks 9 5 = map (fun i => 3 + Z.of_nat i) (seq 0 5).
Proof.
  refine (proj1 (page_links_are_valid 9 5 _)). lia.
Defined.

End PageTheorems.

(** ** Further properties: amounts on the screen *)

Section Currency.

Import FormatHelpers.

Lemma takeStr_dropStr n : forall s, (takeStr n s ++ dropStr n s)%string = s.
Proof.
  induction n as [|n IH]; intros [|c s]; cbn [takeStr dropStr String.append];
    try reflexivity.
  now rewrite IH.
Qed.

Lemma length_dropStr n : forall s,
  String.length (dropStr n s) = (String.length s - n)%nat.
Proof.
  induction n as [|n IH]; intros [|c s]; cbn [dropStr String.length];
    try reflexivity.
  apply IH.
Qed.

Lemma onlyDigits_app s t :
  onlyDigits (s ++ t) = onlyDigits s && onlyDigits t.
Proof.
  induction s as [|c s IH]; cbn [String.append onlyDigits]; [reflexivity|].
  now rewrite IH, andb_assoc.
Qed.

Lemma nearest_bound a f :
  let n := nearest a f in
  (inject_Z n - (1 # 2) <= a * inject_Z (10 ^ Z.of_nat f))%Q /\
  (a * inject_Z (10 ^ Z.of_nat f) < inject_Z n + (1 # 2))%Q.
Proof.
  unfold nearest. destruct a as [num den]. cbn [Qnum Qden].
  set (t := (10 ^ Z.of_nat f)%Z).
  pose proof (Z.mul_div_le (2 * num * t + Z.pos den) (2 * Z.pos den)
                ltac:(lia)) as Hlo.
  pose proof (Z.mul_succ_div_gt (2 * num * t + Z.pos den) (2 * Z.pos den)
                ltac:(lia)) as Hhi.
  set (n := ((2 * num * t + Z.pos den) / (2 * Z.pos den))%Z) in *.
  unfold Qle, Qlt, Qminus, Qplus, Qmult, Qopp, inject_Z.
  cbn [Qnum Qden]. split; lia.
Qed.

Lemma nearest_nonneg a f : (0 <= a)%Q -> (0 <= nearest a f)%Z.
Proof.
  unfold Qle, nearest. destruct a as [num den]. cbn [Qnum Qden]. intros H.
  apply Z.div_pos; [|lia].
  assert (0 <= num)%Z by lia.
  assert (0 <= 10 ^ Z.of_nat f)%Z by (apply Z.pow_nonneg; lia). nia.
Qed.

Lemma decimal_digits n :
  (0 <= n)%Z ->
  onlyDigits (decimal n) = true /\
  forall k count,
    JS.digits 10 (JS.repeatChar "0" k ++ decimal n) 0 count
    = (n, (count + k + String.length (decimal n))%nat, "").
Proof.
  intros Hn. destruct (decimal_nonneg n Hn) as (d & Hnil & Hs & Hv).
  unfold decimal. rewrite Hs. split; [apply onlyDigits_uint|].
  intros k count. rewrite digits_zeros, digits_uint, uintValue_zero, Hv.
  f_equal. f_equal. f_equal.
  clear. induction d; cbn [NilEmpty.string_of_uint String.length
                            Decimal.nb_digits]; congruence.
Qed.

(** X9.  For an amount below [10^21] in size and one to a hundred
    decimals, [formatCurrency] prints the dollar sign, a minus sign for a
    negative amount, at least one digit, the point and exactly
    [decimals] digits; the digits are those of the whole number nearest
    to the amount times [10^decimals], so what is shown differs from the
    amount by at most half a unit of the last digit. *)
Theorem formatCurrency_rounds_to_nearest exotic q decimals :
  (0 < decimals <= 100)%nat ->
  let a := if Qle_bool 0 q then q else (- q)%Q in
  Qle_bool (inject_Z (10 ^ 21)) a = false ->
  exists whole fraction n,
    formatCurrency exotic (Some (JS.Finite q)) decimals
    = Some ("$" ++ (if Qle_bool 0 q then "" else "-")
            ++ whole ++ "." ++ fraction)%string /\
    whole <> "" /\
    onlyDigits whole = true /\ onlyDigits fraction = true /\
    String.length fraction = decimals /\
    JS.digits 10 (whole ++ fraction) 0 0
    = (n, String.length (whole ++ fraction)%string, "") /\
    (inject_Z n - (1 # 2) <= a * inject_Z (10 ^ Z.of_nat decimals))%Q /\
    (a * inject_Z (10 ^ Z.of_nat decimals) < inject_Z n + (1 # 2))%Q.
Proof.
  intros Hf a Hsmall.
  assert (Ha : (0 <= a)%Q).
  { unfold a. destruct (Qle_bool 0 q) eqn:E.
    - now apply Qle_bool_iff.
    - assert (~ (0 <= q)%Q) by (rewrite <- Qle_bool_iff; congruence).
      apply Qnot_le_lt in H. apply Qlt_le_weak.
      now apply (Qopp_lt_compat q 0). }
  pose proof (nearest_nonneg a decimals Ha) as Hn.
  destruct (decimal_digits _ Hn) as [Hd Hv].
  set (m := decimal (nearest a decimals)) in *.
  set (m' := (JS.repeatChar "0" (decimals + 1 - String.length m) ++ m)%string).
  assert (Hlen : (decimals + 1 <= String.length m')%nat).
  { unfold m'. rewrite length_append, length_repeatChar. lia. }
  exists (takeStr (String.length m' - decimals) m'),
    (dropStr (String.length m' - decimals) m'), (nearest a decimals).
  assert (Hm' : onlyDigits m' = true).
  { unfold m'. now rewrite onlyDigits_zeros. }
  pose proof (takeStr_dropStr (String.length m' - decimals) m') as Hsplit.
  rewrite <- Hsplit, onlyDigits_app in Hm'.
  apply andb_true_iff in Hm'. destruct Hm' as [Hw Hfr].
  repeat split.
  - unfold formatCurrency, toFixed.
    destruct (Nat.ltb_spec 100 decimals); [lia|].
    fold a. rewrite Hsmall.
    destruct (Nat.eqb_spec decimals 0); [lia|].
    cbn [option_map]. reflexivity.
  - intros H.
    assert (Hl : String.length m'
                 = String.length (dropStr (String.length m' - decimals) m')).
    { rewrite <- Hsplit at 1. rewrite H. reflexivity. }
    rewrite length_dropStr in Hl. lia.
  - exact Hw.
  - exact Hfr.
  - rewrite length_dropStr. lia.
  - rewrite Hsplit. unfold m'. rewrite Hv, length_append, length_repeatChar.
    reflexivity.
  - apply nearest_bound.
  - apply nearest_bound.
Qed.

Lemma formatCurrency_rounds_to_nearest_witness :
  exists whole fraction n,
    formatCurrency (exotic sampleEnv)
      (Some (JS.Finite (2469 # 2))) 2
    = Some ("$" ++ "" ++ whole ++ "." ++ fraction)%string /\
    whole <> "" /\
    onlyDigits whole = true /\ onlyDigits fraction = true /\
    String.length fraction = 2%nat /\
    JS.digits 10 (whole ++ fraction) 0 0
    = (n, String.length (whole ++ fraction)%string, "") /\
    (inject_Z n - (1 # 2) <= (2469 # 2) * inject_Z (10 ^ 2))%Q /\
    ((2469 # 2) * inject_Z (10 ^ 2) < inject_Z n + (1 # 2))%Q.
Proof.
  refine (formatCurrency_rounds_to_nearest (exotic sampleEnv)
            (2469 # 2) 2 _ _).
  - lia.
  - reflexivity.
Defined.

End Currency.

(** ** Further properties: the dialog and the provider *)

Lemma existsb_findClient clients shopId :
  existsb (fun client => client_shopId client =? shopId) clients = true <->
  findClient clients (Some shopId) <> None.
Proof.
  unfold findClient. induction clients as [|c rest IH]; cbn [existsb find].
  - split; [discriminate|congruence].
  - destruct (client_shopId c =? shopId); cbn [orb]; [|exact IH].
    split; [discriminate|reflexivity].
Qed.

Lemma validateAmount_ok amount :
  WithdrawalModal.validateAmount amount = "" <-> JS.leZero amount = false.
Proof.
  unfold WithdrawalModal.validateAmount.
  destruct (JS.leZero amount); split; congruence.
Qed.

Lemma validateShopId_ok clients shopId :
  WithdrawalModal.validateShopId clients shopId None = "" <->
  shopId <> "" /\ findClient clients (Some shopId) <> None.
Proof.
  unfold WithdrawalModal.validateShopId. cbn [orElse].
  rewrite <- existsb_findClient.
  destruct (String.eqb_spec shopId "") as [->|Hne].
  - split; [discriminate|intros [H _]; congruence].
  - destruct (existsb _ clients); split; try discriminate; auto.
    intros [_ H]. discriminate.
Qed.

(** X10.  The dialog submits a withdrawal exactly when its shop ID is
    not empty and is that of a client, and its amount is not at or below
    zero; what it submits are the fields of the form.  An amount that is
    no number passes: the dialog accepts the amounts that the bulk
    imports accept, and [NaN]. *)
Theorem dialog_submits_valid_forms clients mode withdrawal form :
  ((exists shopIdError amountError,
       WithdrawalModal.handleSubmit clients mode withdrawal form
       = WithdrawalModal.Invalid shopIdError amountError) <->
   form_shopId_is_unknown_or_amount_refused clients form) /\
  (forall withdrawalData,
      WithdrawalModal.handleSubmit clients mode withdrawal form
      = WithdrawalModal.Added withdrawalData \/
      WithdrawalModal.handleSubmit clients mode withdrawal form
      = WithdrawalModal.Updated withdrawalData ->
      withdrawalData
      = mkWithdrawal (WithdrawalModal.form_withdrawalId form)
          (Some (WithdrawalModal.form_shopId form))
          (WithdrawalModal.form_clientName form)
          (WithdrawalModal.form_agent form)
          (DateText (WithdrawalModal.form_date form))
          (WithdrawalModal.form_amount form)
          (WithdrawalModal.form_paymentMode form)) /\
  (forall amount,
      WithdrawalModal.validateAmount amount = "" <->
      aboveZero amount \/ amount = JS.NaN).
Proof.
  unfold form_shopId_is_unknown_or_amount_refused.
  pose proof (validateShopId_ok clients (WithdrawalModal.form_shopId form))
    as Hs.
  pose proof (validateAmount_ok (WithdrawalModal.form_amount form)) as Ha.
  unfold WithdrawalModal.handleSubmit.
  destruct (String.eqb_spec
              (WithdrawalModal.validateShopId clients
                 (WithdrawalModal.form_shopId form) None) "") as [Es|Es];
    destruct (String.eqb_spec
                (WithdrawalModal.validateAmount
                   (WithdrawalModal.form_amount form)) "") as [Ea|Ea];
    cbn [negb orb].
  - split; [|split].
    + split.
      * intros (e1 & e2 & H). destruct mode, withdrawal; discriminate.
      * intros [H|[H|H]].
        -- apply (proj1 Hs) in Es. tauto.
        -- apply (proj1 Hs) in Es. tauto.
        -- apply (proj1 Ha) in Ea. congruence.
    + intros w [H|H]; destruct mode, withdrawal;
        try discriminate; now injection H as <-.
    + intros amount. rewrite validateAmount_ok. unfold aboveZero.
      destruct amount; cbn; intuition congruence.
  - split; [|split].
    + split; [intros _|intros _; eauto].
      right. right. destruct (JS.leZero _); [reflexivity|].
      exfalso. apply Ea. now apply Ha.
    + intros w [H|H]; discriminate.
    + intros amount. rewrite validateAmount_ok. unfold aboveZero.
      destruct amount; cbn; intuition congruence.
  - split; [|split].
    + split; [intros _|intros _; eauto].
      destruct (String.eqb_spec (WithdrawalModal.form_shopId form) "");
        [now left|].
      right. left.
      destruct (findClient clients _) eqn:E; [|reflexivity].
      exfalso. apply Es, Hs. split; [assumption|congruence].
    + intros w [H|H]; discriminate.
    + intros amount. rewrite validateAmount_ok. unfold aboveZero.
      destruct amount; cbn; intuition congruence.
  - split; [|split].
    + split; [intros _|intros _; eauto].
      right. right. destruct (JS.leZero _); [reflexivity|].
      exfalso. apply Ea. now apply Ha.
    + intros w [H|H]; discriminate.
    + intros amount. rewrite validateAmount_ok. unfold aboveZero.
      destruct amount; cbn; intuition congruence.
Qed.

Lemma lastOf_cons {A} (x : A) l :
  ClientContext.lastOf (x :: l)
  = match ClientContext.lastOf l with
    | Some y => Some y
    | None => Some x
    end.
Proof.
  destruct l as [|y l'] using rev_ind.
  - reflexivity.
  - change (x :: l' ++ [y]) with ((x :: l') ++ [y]).
    now rewrite !lastOf_snoc.
Qed.

Lemma idOr_same id : ClientProvider.idOr id id = id.
Proof. now destruct id. Qed.

Section Settle.

Context {R : Type} (add : Z -> R -> ClientProvider.Effect R).
Context (key : R -> string) (generated : string) (snapshot : list R).

Lemma settle_local nowAt calls :
  (forall now r,
      exists r', add now r = ClientProvider.Local r' (snapshot ++ [r']) /\
                 key r' = ClientProvider.idOr (key r) generated) ->
  forall k state saved,
  exists added,
    ClientProvider.settle state saved (effectsOf add nowAt k calls)
    = (state ++ added,
       match ClientContext.lastOf added with
       | Some last => Some (snapshot ++ [last])
       | None => saved
       end) /\
    map key added = map (fun r => ClientProvider.idOr (key r) generated) calls.
Proof.
  intros Hadd. induction calls as [|r rest IH]; intros k state saved.
  - exists []. cbn. now rewrite app_nil_r.
  - destruct (Hadd (nowAt k) r) as (r' & Hr & Hkey).
    cbn [effectsOf ClientProvider.settle]. rewrite Hr.
    destruct (IH (S k) (state ++ [r']) (Some (snapshot ++ [r'])))
      as (added & Hs & Hk).
    exists (r' :: added). rewrite Hs, <- app_assoc. cbn [app map].
    rewrite lastOf_cons, Hkey, Hk.
    destruct (ClientContext.lastOf added); auto.
Qed.

Lemma effects_remote nowAt calls :
  (forall now r, In r calls ->
                 add now r = ClientProvider.Refused \/
                 exists r', add now r = ClientProvider.Remote generated r') ->
  forall k, writesOneDocument generated (effectsOf add nowAt k calls).
Proof.
  unfold writesOneDocument.
  induction calls as [|r rest IH]; intros Hadd k; cbn [effectsOf];
    constructor.
  - apply Hadd. now left.
  - apply IH. intros now r' Hin. apply Hadd. now right.
Qed.

End Settle.

(** X11.  Without a signed-in user, the calls that one rendering makes to
    [addOrder], [addDeposit] or [addWithdrawal] all reach the list in the
    state, but each overwrites the saved copy with the list of that
    rendering and its own record: after any number of calls the saved
    copy holds the old list and the record of the last call only. *)
Theorem saved_copy_keeps_only_the_last_record
        env nowAt orders deposits withdrawals
        orderCalls depositCalls withdrawalCalls :
  savesOnlyTheLast orderId (ClientContext.generateOrderId env orders)
    orders orderCalls
    (effectsOf (fun now => ClientProvider.addOrder env now false orders)
       nowAt 0 orderCalls) /\
  savesOnlyTheLast depositId (ClientContext.generateDepositId env deposits)
    deposits depositCalls
    (effectsOf (fun now => ClientProvider.addDeposit env now false deposits)
       nowAt 0 depositCalls) /\
  savesOnlyTheLast withdrawalId
    (ClientContext.generateWithdrawalId env withdrawals)
    withdrawals withdrawalCalls
    (effectsOf
       (fun now => ClientProvider.addWithdrawal env now false withdrawals)
       nowAt 0 withdrawalCalls).
Proof.
  repeat match goal with |- _ /\ _ => split end;
    intros saved; apply settle_local; intros now r; eexists;
    (split; [reflexivity|reflexivity]).
Qed.

(** X12.  With a signed-in user, every record that one run of a bulk
    import of orders, deposits or withdrawals hands to the provider is
    either refused by the library of the store, with nothing written, or
    written to one and the same document, the one named by the
    identifier generated from the list of the rendering.  A record is
    refused exactly when its shop ID (for an order also its location) is
    [undefined], or its date is invalid or outside the years 1 to 9999.
    So the withdrawal import counts a row that ends before the shop ID
    column as a success although nothing is written for it. *)
Theorem bulk_import_writes_one_document
        env nowAt clients orders deposits withdrawals csvData :
  writesOneDocument (ClientContext.generateOrderId env orders)
    (effectsOf (fun now => ClientProvider.addOrder env now true orders)
       nowAt 0
       (callsOf (BulkOrderModal.handleImport env clients orders csvData))) /\
  writesOneDocument (ClientContext.generateDepositId env deposits)
    (effectsOf (fun now => ClientProvider.addDeposit env now true deposits)
       nowAt 0
       (callsOf (BulkDepositModal.handleImport
                   env clients deposits csvData))) /\
  writesOneDocument (ClientContext.generateWithdrawalId env withdrawals)
    (effectsOf
       (fun now => ClientProvider.addWithdrawal env now true withdrawals)
       nowAt 0
       (callsOf (BulkWithdrawalModal.handleImport
                   env clients withdrawals csvData))) /\
  (forall now order,
      ClientProvider.addOrder env now true orders order
      = ClientProvider.Refused <->
      order_shopId order = None \/ location order = None \/
      Timestamp.fromDate (ClientProvider.orderDate env now order) = None) /\
  (forall now deposit,
      ClientProvider.addDeposit env now true deposits deposit
      = ClientProvider.Refused <->
      deposit_shopId deposit = None \/
      Timestamp.fromDate
        (Some (ClientProvider.dateObjectOf env now (deposit_date deposit)))
      = None) /\
  (forall now withdrawal,
      ClientProvider.addWithdrawal env now true withdrawals withdrawal
      = ClientProvider.Refused <->
      withdrawal_shopId withdrawal = None \/
      Timestamp.fromDate
        (Some (ClientProvider.dateObjectOf env now
                 (withdrawal_date withdrawal)))
      = None) /\
  (forall date,
      Timestamp.fromDate date = None <->
      forall time,
        date = Some time ->
        (time < -62135596800000 \/ 253402300800000 <= time)%Z) /\
  (exists withdrawal,
      BulkWithdrawalModal.handleImport
        sampleEnv sampleClients [] shortWithdrawalCsv
      = Imported 1 0 [withdrawal] /\
      effectsOf (fun now => ClientProvider.addWithdrawal sampleEnv now true [])
        nowAt 0 [withdrawal]
      = [ClientProvider.Refused]).
Proof.
  repeat match goal with |- _ /\ _ => split end.
  - apply effects_remote; intros now r Hin.
    pose proof (order_calls_id env clients orders csvData) as H.
    rewrite Forall_forall in H. specialize (H r Hin).
    unfold ClientProvider.addOrder. rewrite H, idOr_same.
    cbn [negb].
    destruct (Timestamp.fromDate _); [|now left].
    destruct (order_shopId r); [|now left].
    destruct (location r); [|now left].
    right. eauto.
  - apply effects_remote; intros now r Hin.
    pose proof (deposit_calls_id env clients deposits csvData) as H.
    rewrite Forall_forall in H. specialize (H r Hin).
    unfold ClientProvider.addDeposit. rewrite H, idOr_same.
    cbn [negb].
    destruct (Timestamp.fromDate _); [|now left].
    destruct (deposit_shopId r); [|now left].
    right. eauto.
  - apply effects_remote; intros now r Hin.
    pose proof (withdrawal_calls_id env clients withdrawals csvData) as H.
    rewrite Forall_forall in H. specialize (H r Hin).
    unfold ClientProvider.addWithdrawal. rewrite H, idOr_same.
    cbn [negb].
    destruct (Timestamp.fromDate _); [|now left].
    destruct (withdrawal_shopId r); [|now left].
    right. eauto.
  - intros now order. unfold ClientProvider.addOrder. cbn [negb].
    destruct (Timestamp.fromDate _) as [time|];
      [|split; [intros _; right; right; reflexivity|reflexivity]].
    destruct (order_shopId order) as [shopId|];
      [|split; [intros _; left; reflexivity|reflexivity]].
    destruct (location order) as [place|];
      [|split; [intros _; right; left; reflexivity|reflexivity]].
    split; [discriminate|]. intros [H|[H|H]]; discriminate.
  - intros now deposit. unfold ClientProvider.addDeposit. cbn [negb].
    destruct (Timestamp.fromDate _) as [time|];
      [|split; [intros _; right; reflexivity|
                now destruct (deposit_shopId deposit)]].
    destruct (deposit_shopId deposit) as [shopId|];
      [|split; [intros _; left; reflexivity|reflexivity]].
    split; [discriminate|]. intros [H|H]; discriminate.
  - intros now withdrawal. unfold ClientProvider.addWithdrawal. cbn [negb].
    destruct (Timestamp.fromDate _) as [time|];
      [|split; [intros _; right; reflexivity|
                now destruct (withdrawal_shopId withdrawal)]].
    destruct (withdrawal_shopId withdrawal) as [shopId|];
      [|split; [intros _; left; reflexivity|reflexivity]].
    split; [discriminate|]. intros [H|H]; discriminate.
  - intros [time|]; unfold Timestamp.fromDate;
      [|split; [intros _ time; discriminate|reflexivity]].
    destruct (Z.leb_spec (-62135596800000) time) as [Hl|Hl];
      destruct (Z.ltb_spec time 253402300800000) as [Hu|Hu]; cbn [andb];
      (split;
       [first [discriminate | intros _ t [= <-]; lia]
       |intros H; first [reflexivity | specialize (H time eq_refl); lia]]).
  - eexists. split; [reflexivity|]. cbn [effectsOf].
    unfold ClientProvider.addWithdrawal. cbn [negb].
    destruct (Timestamp.fromDate _); reflexivity.
Qed.

Lemma nextId_first env prefix :
  ClientContext.nextId env prefix None = idOf prefix 1.
Proof.
  unfold ClientContext.nextId, idOf.
  change (JS.Finite 0) with (JS.Finite (0 # 1)).
  rewrite succ_int by lia. now rewrite toString_int by lia.
Qed.

Lemma nextId_numbered env prefix lastId z :
  numbered prefix lastId z -> (0 <= z < 2 ^ 53 - 1)%Z ->
  ClientContext.nextId env prefix lastId = idOf prefix (z + 1).
Proof.
  destruct lastId as [id|]; cbn [numbered].
  - intros -> Hz. now apply nextId_sequence.
  - intros -> _. apply nextId_first.
Qed.

Lemma handleSubmit_valid clients id entry :
  validEntry clients entry ->
  WithdrawalModal.handleSubmit clients WithdrawalModal.add None
    (WithdrawalModal.mkForm id (entry_shopId entry) (entry_clientName entry)
       (entry_agent entry) (entry_date entry) (entry_amount entry)
       (entry_paymentMode entry))
  = WithdrawalModal.Added
      (mkWithdrawal id (Some (entry_shopId entry)) (entry_clientName entry)
         (entry_agent entry) (DateText (entry_date entry))
         (entry_amount entry) (entry_paymentMode entry)).
Proof.
  intros (Hs & Hc & Ha). unfold WithdrawalModal.handleSubmit.
  cbn [WithdrawalModal.form_shopId WithdrawalModal.form_amount].
  rewrite (proj2 (validateShopId_ok clients (entry_shopId entry)))
    by (split; assumption).
  now rewrite (proj2 (validateAmount_ok (entry_amount entry)) Ha).
Qed.

(** X13.  Withdrawals added one after the other through the dialog,
    without a signed-in user, are numbered in sequence after the last
    record of the list, and after each of them the saved copy is the
    list in the state. *)
Theorem dialog_numbers_withdrawals_in_sequence
        env today clients uses state saved z :
  numbered "WD" (option_map withdrawalId (ClientContext.lastOf state)) z ->
  (0 <= z)%Z ->
  (z + Z.of_nat (length uses) < 2 ^ 53)%Z ->
  Forall (fun use => validEntry clients (snd use)) uses ->
  exists added,
    addAllThroughDialog env today clients (state, saved) uses
    = (state ++ added,
       match uses with
       | [] => saved
       | _ :: _ => Some (state ++ added)
       end) /\
    map withdrawalId added
    = map (fun k => idOf "WD" (z + Z.of_nat k)) (seq 1 (length uses)).
Proof.
  unfold addAllThroughDialog.
  revert state saved z.
  induction uses as [|[now entry] rest IH]; intros state saved z Hn Hz Hlen Hv.
  - exists []. cbn. now rewrite app_nil_r.
  - inversion Hv as [|? ? Hentry Hrest]; subst. cbn [snd] in Hentry.
    cbn [length] in Hlen. cbn [fold_left].
    unfold addThroughDialog at 2.
    cbn [WithdrawalModal.initializeForm WithdrawalModal.form_withdrawalId].
    rewrite (handleSubmit_valid _ _ _ Hentry).
    unfold ClientProvider.addWithdrawal. cbn [withdrawalId negb].
    unfold ClientContext.generateWithdrawalId.
    rewrite (nextId_numbered env "WD" _ z Hn) by lia.
    change (ClientProvider.idOr (idOf "WD" (z + 1)) (idOf "WD" (z + 1)))
      with (idOf "WD" (z + 1)).
    cbn [ClientProvider.settle].
    match goal with
    | |- context [fold_left _ rest (state ++ [?r], _)] => set (record := r)
    end.
    destruct (IH (state ++ [record]) (Some (state ++ [record])) (z + 1)%Z)
      as (added & Hfold & Hids).
    + rewrite lastOf_snoc. reflexivity.
    + lia.
    + lia.
    + assumption.
    + exists (record :: added). rewrite Hfold, <- app_assoc. cbn [app].
      split.
      * destruct rest; [|reflexivity].
        apply map_eq_nil in Hids. subst added. reflexivity.
      * cbn [map length seq]. rewrite Hids. subst record.
        cbn [withdrawalId].
        rewrite <- (seq_shift (length rest) 1), map_map.
        replace (z + Z.of_nat 1)%Z with (z + 1)%Z by lia.
        apply (f_equal (cons (idOf "WD" (z + 1)))).
        apply map_ext. intros k. apply (f_equal (idOf "WD")). lia.
Qed.

Lemma dialog_numbers_withdrawals_in_sequence_witness :
  exists added,
    addAllThroughDialog sampleEnv "2023-11-14" sampleClients ([], None)
      [(1700000000000%Z,
        mkEntry "S1" "Ann" "Bob" "2023-01-01" (JS.Finite 10) Crypto);
       (1700000000001%Z,
        mkEntry "S1" "Ann" "Bob" "soon" JS.NaN Ewallet)]
    = ([] ++ added, Some ([] ++ added)) /\
    map withdrawalId added = [idOf "WD" 1; idOf "WD" 2].
Proof.
  apply (dialog_numbers_withdrawals_in_sequence
           sampleEnv "2023-11-14" sampleClients
           [(1700000000000%Z,
             mkEntry "S1" "Ann" "Bob" "2023-01-01" (JS.Finite 10) Crypto);
            (1700000000001%Z,
             mkEntry "S1" "Ann" "Bob" "soon" JS.NaN Ewallet)]
           [] None 0%Z).
  - reflexivity.
  - lia.
  - vm_compute. reflexivity.
  - repeat constructor; cbn; discriminate.
Defined.

(** X14.  Without a signed-in user a shop ID is unique exactly when no
    client of the list has it; the shop ID that a client already has
    always counts as unique for that client, in both modes, however many
    clients of the list carry it; and with a signed-in user a query that
    fails makes any other shop ID count as taken. *)
Theorem shop_id_uniqueness lookup clients shopId :
  (ClientProvider.isShopIdUnique lookup false clients shopId None = true <->
   findClient clients (Some shopId) = None) /\
  (forall isAuthenticated,
      ClientProvider.isShopIdUnique lookup isAuthenticated clients
        shopId (Some shopId) = true) /\
  (forall currentId,
      currentId <> Some shopId -> lookup shopId = None ->
      ClientProvider.isShopIdUnique lookup true clients shopId currentId
      = false).
Proof.
  unfold ClientProvider.isShopIdUnique. split; [|split].
  - cbn [negb ClientProvider.sameAs]. unfold findClient.
    induction clients as [|c rest IH]; cbn [existsb find]; [tauto|].
    destruct (client_shopId c =? shopId); cbn [andb orb negb];
      [split; discriminate|exact IH].
  - intros [|]; cbn [negb ClientProvider.sameAs].
    + now rewrite String.eqb_refl.
    + induction clients as [|c rest IH]; cbn [existsb]; [reflexivity|].
      destruct (client_shopId c =? shopId); cbn [andb negb orb]; exact IH.
  - intros currentId Hne Hlookup. cbn [negb]. rewrite Hlookup.
    destruct currentId as [id|]; cbn [ClientProvider.sameAs]; [|reflexivity].
    destruct (String.eqb_spec shopId id); [congruence|reflexivity].
Qed.

(** ** Further properties: the search box *)

Lemma prefix_app p : forall s,
  String.prefix p s = true <-> exists b, s = (p ++ b)%string.
Proof.
  induction p as [|c p IH]; intros s; cbn [String.append].
  - split; [intros _; now exists s|intros _; now destruct s].
  - destruct s as [|x s]; cbn [String.prefix];
      [split; [discriminate|intros [b H]; discriminate]|].
    destruct (Ascii.ascii_dec c x) as [->|Hne].
    + rewrite IH. split; intros [b H]; exists b; congruence.
    + split; [discriminate|intros [b H]; congruence].
Qed.

Lemma includes_occurs term : forall s,
  JSString.includes s term = true <->
  exists a b, s = (a ++ term ++ b)%string.
Proof.
  induction s as [|x s IH]; cbn [JSString.includes].
  - destruct (String.prefix term "") eqn:E.
    + apply prefix_app in E as [b ->]. split; [|reflexivity].
      intros _. now exists "", b.
    + split; [discriminate|]. intros (a & b & H).
      destruct a; [|discriminate]. cbn [String.append] in H.
      assert (String.prefix term "" = true) by (apply prefix_app; eauto).
      congruence.
  - destruct (String.prefix term (String x s)) eqn:E.
    + apply prefix_app in E as [b ->]. split; [|reflexivity].
      intros _. now exists "", b.
    + rewrite IH. split.
      * intros (a & b & ->). now exists (String x a), b.
      * intros (a & b & H). destruct a as [|y a].
        -- cbn [String.append] in H.
           assert (String.prefix term (String x s) = true)
             by (apply prefix_app; eauto).
           congruence.
        -- injection H as _ ->. eauto.
Qed.

Lemma slice_first {A} (l : list A) n :
  JSArray.slice l 0 (Z.of_nat n) = firstn n l.
Proof.
  unfold JSArray.slice. cbn [Z.ltb Z.compare].
  destruct (Z.ltb_spec (Z.of_nat n) 0); [lia|].
  rewrite (Z.min_l 0) by lia. rewrite Z.sub_0_r. cbn [Z.to_nat skipn].
  destruct (Z.min_spec (Z.of_nat n) (Z.of_nat (length l))) as [[H' ->]|[H' ->]].
  - now rewrite Nat2Z.id.
  - rewrite Nat2Z.id, !firstn_all2 by lia. reflexivity.
Qed.

Lemma lowerChar_cases c :
  JS.lowerChar (JS.lowerChar c) = JS.lowerChar c /\
  JS.isSpace (JS.lowerChar c) = JS.isSpace c.
Proof.
  destruct c as [[] [] [] [] [] [] [] []]; split; reflexivity.
Qed.

Lemma toLowerCase_twice s :
  JS.toLowerCase (JS.toLowerCase s) = JS.toLowerCase s.
Proof.
  induction s as [|c s IH]; cbn [JS.toLowerCase]; [reflexivity|].
  now rewrite IH, (proj1 (lowerChar_cases c)).
Qed.

Lemma trimEnd_blank s : JS.trimEnd s = "" <-> allSpaces s = true.
Proof.
  induction s as [|c s IH]; cbn [JS.trimEnd allSpaces]; [tauto|].
  destruct (JS.isSpace c); cbn [andb].
  - destruct (String.eqb_spec (JS.trimEnd s) "") as [E|E].
    + split; [intros _; now apply IH|reflexivity].
    + split; [discriminate|]. intros H. apply IH in H. contradiction.
  - split; discriminate.
Qed.

Lemma trim_blank s : JS.trim s = "" <-> allSpaces s = true.
Proof.
  unfold JS.trim. rewrite trimEnd_blank.
  induction s as [|c s IH]; cbn [JS.trimStart allSpaces]; [tauto|].
  destruct (JS.isSpace c) eqn:E; cbn [andb]; [exact IH|].
  cbn [allSpaces]. rewrite E. tauto.
Qed.

Lemma allSpaces_toLowerCase s :
  allSpaces (JS.toLowerCase s) = allSpaces s.
Proof.
  induction s as [|c s IH]; cbn [JS.toLowerCase allSpaces]; [reflexivity|].
  now rewrite IH, (proj2 (lowerChar_cases c)).
Qed.

Lemma isBlank_toLowerCase s :
  (JS.trim (JS.toLowerCase s) =? "") = (JS.trim s =? "").
Proof.
  destruct (String.eqb_spec (JS.trim s) "") as [E|E];
    destruct (String.eqb_spec (JS.trim (JS.toLowerCase s)) "") as [F|F];
    try reflexivity.
  - apply trim_blank in E. rewrite <- allSpaces_toLowerCase in E.
    apply trim_blank in E. contradiction.
  - apply trim_blank in F. rewrite allSpaces_toLowerCase in F.
    apply trim_blank in F. contradiction.
Qed.

(** X15.  The search box shows at most five clients: the first, in the
    order of the list, of those whose shop ID or name, in lower case,
    contains the term in lower case; with fewer than five shown, they
    are all there are.  The letter case of the term makes no
    difference; white space around it is kept when it is matched. *)
Theorem search_shows_the_first_five_matches clients searchTerm :
  let term := JS.toLowerCase searchTerm in
  let found := filter (NavBar.matches term) clients in
  (length (NavBar.search clients searchTerm) <= 5)%nat /\
  (exists rest,
      map shown found = NavBar.search clients searchTerm ++ rest) /\
  (JS.trim searchTerm <> "" ->
   (length (NavBar.search clients searchTerm) < 5)%nat ->
   NavBar.search clients searchTerm = map shown found) /\
  (forall client,
      NavBar.matches term client = true <->
      exists a b,
        JS.toLowerCase (client_shopId client) = (a ++ term ++ b)%string \/
        JS.toLowerCase (client_clientName client) = (a ++ term ++ b)%string) /\
  NavBar.search clients (JS.toLowerCase searchTerm)
  = NavBar.search clients searchTerm.
Proof.
  intros term found.
  assert (Hs : NavBar.search clients searchTerm
               = if JS.trim searchTerm =? "" then []
                 else map shown (firstn 5 found)).
  { unfold NavBar.search. destruct (JS.trim searchTerm =? ""); [reflexivity|].
    now rewrite (slice_first _ 5). }
  repeat match goal with |- _ /\ _ => split end.
  - rewrite Hs. destruct (JS.trim searchTerm =? ""); cbn [length]; [lia|].
    rewrite length_map. apply firstn_le_length.
  - rewrite Hs. destruct (JS.trim searchTerm =? "").
    + now exists (map shown found).
    + exists (map shown (skipn 5 found)).
      now rewrite <- map_app, firstn_skipn.
  - intros Hne. rewrite Hs.
    destruct (String.eqb_spec (JS.trim searchTerm) ""); [contradiction|].
    rewrite length_map, length_firstn. intros Hlt.
    rewrite firstn_all2 by lia. reflexivity.
  - intros client. unfold NavBar.matches. rewrite Bool.orb_true_iff.
    rewrite !includes_occurs. split.
    + intros [(a & b & H)|(a & b & H)]; exists a, b; auto.
    + intros (a & b & [H|H]); [left|right]; eauto.
  - unfold NavBar.search.
    now rewrite isBlank_toLowerCase, toLowerCase_twice.
Qed.

Lemma search_shows_the_first_five_matches_witness :
  NavBar.search [mkClient "S1" "Ann" "Bob"; mkClient "S2" "Joanna" "Bob"]
    " ANN"
  = [].
Proof.
  apply (proj1 (proj2 (proj2
           (search_shows_the_first_five_matches
              [mkClient "S1" "Ann" "Bob"; mkClient "S2" "Joanna" "Bob"]
              " ANN")))).
  - vm_compute. discriminate.
  - vm_compute. lia.
Defined.

(** ** Further properties: export and import of agents *)

Lemma split_app sep x t :
  lacks sep x = true ->
  JS.split sep (x ++ String sep t) = x :: JS.split sep t.
Proof.
  induction x as [|c x IH]; cbn [lacks String.append JS.split]; intros H.
  - now rewrite Ascii.eqb_refl.
  - apply andb_prop in H as [Hc Hx]. apply negb_true_iff in Hc.
    rewrite Hc, (IH Hx). reflexivity.
Qed.

Lemma split_lacks sep x : lacks sep x = true -> JS.split sep x = [x].
Proof.
  induction x as [|c x IH]; cbn [lacks JS.split]; intros H; [reflexivity|].
  apply andb_prop in H as [Hc Hx]. apply negb_true_iff in Hc.
  now rewrite Hc, (IH Hx).
Qed.

Lemma split_join sep l :
  l <> [] -> Forall (fun s => lacks sep s = true) l ->
  JS.split sep (JS.join (String sep "") l) = l.
Proof.
  induction l as [|x [|y rest] IH]; intros Hne H; [contradiction| |].
  - inversion H; subst. now apply split_lacks.
  - inversion H as [|? ? Hx Hrest]; subst.
    change (JS.join (String sep "") (x :: y :: rest))
      with (x ++ String sep (JS.join (String sep "") (y :: rest)))%string.
    rewrite split_app by assumption. f_equal. now apply IH.
Qed.

Lemma lacks_app c s t : lacks c (s ++ t) = lacks c s && lacks c t.
Proof.
  induction s as [|x s IH]; cbn [lacks String.append]; [reflexivity|].
  now rewrite IH, andb_assoc.
Qed.

Lemma lacks_join c sep l :
  lacks c sep = true -> Forall (fun s => lacks c s = true) l ->
  lacks c (JS.join sep l) = true.
Proof.
  intros Hsep. induction l as [|x [|y rest] IH]; intros H; [reflexivity| |].
  - now inversion H.
  - inversion H as [|? ? Hx Hrest]; subst.
    change (JS.join sep (x :: y :: rest))
      with (x ++ sep ++ JS.join sep (y :: rest))%string.
    rewrite !lacks_app, Hx, Hsep. now apply IH.
Qed.

Lemma plainText_lacks s :
  plainText s = true -> lacks "," s = true /\ lacks newline s = true.
Proof.
  induction s as [|c s IH]; cbn [plainText lacks]; [auto|]. intros H.
  apply andb_prop in H as [H Hs]. apply andb_prop in H as [Hc Hcomma].
  destruct (IH Hs) as [-> ->]. rewrite Hcomma. split; [reflexivity|].
  destruct c as [[] [] [] [] [] [] [] []]; try reflexivity; discriminate Hc.
Qed.

Lemma plainText_trim s : plainText s = true -> JS.trim s = s.
Proof.
  intros H. unfold JS.trim.
  assert (Hstart : JS.trimStart s = s).
  { destruct s as [|c s]; [reflexivity|]. cbn [plainText JS.trimStart] in *.
    destruct (JS.isSpace c); [discriminate|reflexivity]. }
  rewrite Hstart. clear Hstart.
  induction s as [|c s IH]; [reflexivity|]. cbn [plainText JS.trimEnd] in *.
  apply andb_prop in H as [H Hs]. apply andb_prop in H as [Hc _].
  apply negb_true_iff in Hc. now rewrite Hc, (IH Hs).
Qed.

Lemma plainText_app s t :
  plainText (s ++ t) = plainText s && plainText t.
Proof.
  induction s as [|c s IH]; cbn [plainText String.append]; [reflexivity|].
  now rewrite IH, andb_assoc.
Qed.

Lemma plainText_uint d : plainText (NilEmpty.string_of_uint d) = true.
Proof. induction d; cbn; auto. Qed.

Lemma plainText_int i : plainText (NilZero.string_of_int i) = true.
Proof.
  destruct i as [d|d]; cbn [NilZero.string_of_int NilZero.string_of_uint];
    destruct d; try reflexivity; cbn [plainText];
    try apply (plainText_uint (Decimal.D0 _));
    try apply (plainText_uint (Decimal.D1 _));
    try apply (plainText_uint (Decimal.D2 _));
    try apply (plainText_uint (Decimal.D3 _));
    try apply (plainText_uint (Decimal.D4 _));
    try apply (plainText_uint (Decimal.D5 _));
    try apply (plainText_uint (Decimal.D6 _));
    try apply (plainText_uint (Decimal.D7 _));
    try apply (plainText_uint (Decimal.D8 _));
    try apply (plainText_uint (Decimal.D9 _)).
Qed.

Lemma lacks_includes s : lacks "," s = true -> JSString.includes s "," = false.
Proof.
  induction s as [|c s IH]; cbn [lacks JSString.includes String.prefix];
    [reflexivity|]. intros H. apply andb_prop in H as [Hc Hs].
  destruct (Ascii.ascii_dec "," c) as [<-|Hne]; [discriminate|].
  destruct s; now apply IH.
Qed.

Section Printing.

Variable exotic : Q -> string.
Hypothesis exotic_plain : forall q, plainText (exotic q) = true.

Lemma toString_plain x : plainText (JS.toString exotic x) = true.
Proof.
  destruct x as [|[]|q]; cbn [JS.toString]; try reflexivity.
  destruct (_ && _); [apply plainText_int|apply exotic_plain].
Qed.

End Printing.

Lemma digit_not_I c : isDigit c = true -> Ascii.eqb "I" c = false.
Proof.
  destruct c as [[] [] [] [] [] [] [] []]; try discriminate; reflexivity.
Qed.

(** The numeral of a small count is read back by [parseInt] in base ten
    and by [parseFloat]. *)
Lemma parse_small z :
  (0 <= z < 2 ^ 53)%Z ->
  JS.parseInt (Some (decimal z)) (Some 10%Z) = JS.Finite (z # 1) /\
  JS.parseFloat (Some (decimal z)) = JS.Finite (z # 1).
Proof.
  intros Hz. destruct (decimal_nonneg z (proj1 Hz)) as (d & Hnil & Hs & Hv).
  unfold JS.parseInt, JS.parseFloat, decimal. cbn [JS.toStringCell].
  rewrite Hs.
  pose proof (digits_uint d 0 0) as Hd.
  pose proof (onlyDigits_uint d) as Hall.
  pose proof (nb_digits_nonnil d Hnil) as Hnb.
  rewrite uintValue_zero, Hv in Hd. cbn [Nat.add] in Hd.
  remember (NilEmpty.string_of_uint d) as s eqn:Es. clear Es Hs.
  destruct s as [|c r].
  { cbn [JS.digits] in Hd. injection Hd as _ Hd. lia. }
  cbn [onlyDigits] in Hall. apply andb_prop in Hall as [Hc _].
  destruct (isDigit_cases c Hc) as (Hspace & Hsign & _).
  destruct (Nat.eqb_spec (Decimal.nb_digits d) 0) as [E|E]; [lia|].
  split.
  - unfold JS.parseIntString. cbn [JS.trimStart]. rewrite Hspace, Hsign, Hd.
    apply Nat.eqb_neq in E. rewrite E. now apply roundToDouble_int.
  - unfold JS.parseFloatString. cbn [JS.trimStart]. rewrite Hspace, Hsign.
    cbn [JS.dropPrefix]. rewrite (digit_not_I c Hc), Hd.
    rewrite Nat.add_0_r. apply Nat.eqb_neq in E. rewrite E.
    unfold JS.scale10. cbn [Z.of_nat Z.sub Z.opp Z.add Z.leb Z.compare].
    rewrite Z.pow_0_r, Z.mul_1_r. now apply roundToDouble_int.
Qed.

Lemma trimEnd_app s t :
  JS.trimEnd t <> "" -> JS.trimEnd (s ++ t) = (s ++ JS.trimEnd t)%string.
Proof.
  intros Ht. induction s as [|c s IH]; cbn [String.append JS.trimEnd];
    [reflexivity|].
  rewrite IH. destruct (String.eqb_spec (s ++ JS.trimEnd t) "") as [E|E].
  - destruct s; [contradiction|discriminate].
  - now rewrite andb_false_r.
Qed.

Lemma trimEnd_comma s t :
  JS.trimEnd (s ++ String "," t) = (s ++ String "," (JS.trimEnd t))%string.
Proof. now rewrite trimEnd_app. Qed.

Lemma append_assoc (s t u : string) :
  ((s ++ t) ++ u = s ++ t ++ u)%string.
Proof.
  induction s as [|c s IH]; cbn [String.append]; [reflexivity|].
  now rewrite IH.
Qed.

Lemma join_snoc sep l x :
  l <> [] -> JS.join sep (l ++ [x]) = (JS.join sep l ++ sep ++ x)%string.
Proof.
  induction l as [|y [|z rest] IH]; intros Hne; [contradiction|reflexivity|].
  change (JS.join sep ((y :: z :: rest) ++ [x]))
    with (y ++ sep ++ JS.join sep ((z :: rest) ++ [x]))%string.
  rewrite IH by discriminate.
  change (JS.join sep (y :: z :: rest))
    with (y ++ sep ++ JS.join sep (z :: rest))%string.
  now rewrite !append_assoc.
Qed.

Lemma trim_first s :
  JS.trim s = s -> s <> "" ->
  exists c r, s = String c r /\ JS.isSpace c = false.
Proof.
  intros Ht Hne. destruct s as [|c r]; [contradiction|]. exists c, r.
  split; [reflexivity|]. destruct (JS.isSpace c) eqn:E; [|reflexivity].
  exfalso. unfold JS.trim in Ht. cbn [JS.trimStart] in Ht. rewrite E in Ht.
  assert (Hstart : forall u, (String.length (JS.trimStart u)
                              <= String.length u)%nat).
  { induction u as [|x u IH]; cbn [JS.trimStart String.length]; [lia|].
    destruct (JS.isSpace x); cbn [String.length]; lia. }
  assert (Hend : forall u, (String.length (JS.trimEnd u)
                            <= String.length u)%nat).
  { induction u as [|x u IH]; cbn [JS.trimEnd String.length]; [lia|].
    destruct (JS.isSpace x && (JS.trimEnd u =? "")); cbn [String.length]; lia. }
  pose proof (Hend (JS.trimStart r)) as H1. pose proof (Hstart r) as H2.
  rewrite Ht in H1. cbn [String.length] in H1. lia.
Qed.

Section ExportImport.

Variable exotic : Q -> string.
Hypothesis exotic_plain : forall q, plainText (exotic q) = true.

Lemma line_cells agent :
  readsBack agent ->
  exists za zb zd tc tr tm,
    AgentTable.csvLine exotic agent
    = (name (AgentTable.agent_fields agent) ++ "," ++ decimal za ++ ","
       ++ decimal zb ++ "," ++ tc ++ "," ++ decimal zd ++ ","
       ++ tr ++ "," ++ tm)%string /\
    (0 <= za < 2 ^ 53)%Z /\ (0 <= zb < 2 ^ 53)%Z /\ (0 <= zd < 2 ^ 53)%Z /\
    addedToday (AgentTable.agent_fields agent) = JS.Finite (za # 1) /\
    monthlyAdded (AgentTable.agent_fields agent) = JS.Finite (zb # 1) /\
    totalDeposits (AgentTable.agent_fields agent) = JS.Finite (zd # 1) /\
    plainText tc = true /\ plainText tr = true /\ plainText tm = true.
Proof.
  intros (Hne & Htrim & Hcomma & Hline & (za & Hza & Ea) & (zb & Hzb & Eb)
          & (zd & Hzd & Ed)).
  cbv zeta in *.
  exists za, zb, zd,
    (JS.toString exotic (openAccounts (AgentTable.agent_fields agent))),
    (JS.toString exotic (AgentTable.commissionRate agent) ++ "%")%string,
    (JS.toString exotic (AgentTable.commission agent)).
  repeat match goal with |- _ /\ _ => split end; try assumption; try lia.
  - unfold AgentTable.csvLine, AgentTable.rowOf.
    cbn [map AgentTable.printCell JS.join].
    rewrite (lacks_includes _ Hcomma).
    assert (Hr : JSString.includes
                   (JS.toString exotic (AgentTable.commissionRate agent)
                    ++ "%") "," = false).
    { apply lacks_includes, plainText_lacks.
      rewrite plainText_app, toString_plain by assumption. reflexivity. }
    rewrite Hr, Ea, Eb, Ed.
    rewrite !toString_int by assumption. reflexivity.
  - now apply toString_plain.
  - rewrite plainText_app, toString_plain by assumption. reflexivity.
  - now apply toString_plain.
Qed.

Lemma decimal_plain z : plainText (decimal z) = true.
Proof. apply plainText_int. Qed.

Lemma Forall_cells (P : string -> Prop) a b c d e f g :
  P a -> P b -> P c -> P d -> P e -> P f -> P g ->
  Forall P [a; b; c; d; e; f; g].
Proof. intros. repeat constructor; assumption. Qed.

Lemma row_accepts agent i :
  readsBack agent ->
  isBlank (AgentTable.csvLine exotic agent) = false /\
  JS.trimEnd (AgentTable.csvLine exotic agent)
  = AgentTable.csvLine exotic agent /\
  lacks newline (AgentTable.csvLine exotic agent) = true /\
  AgentImportModal.row 0 1 2 4 i (cellsOf (AgentTable.csvLine exotic agent))
  = Accept (imported agent).
Proof.
  intros Hagent.
  destruct (line_cells agent Hagent)
    as (za & zb & zd & tc & tr & tm & Hl & Hza & Hzb & Hzd & Ea & Eb & Ed
        & Hc & Hr & Hm).
  destruct Hagent as (Hne & Htrim & Hcomma & Hline & _). cbv zeta in *.
  destruct (trim_first _ Htrim Hne) as (c0 & r0 & Ename & Hspace).
  set (n := name (AgentTable.agent_fields agent)) in *.
  assert (Hjoin : AgentTable.csvLine exotic agent
                  = JS.join "," [n; decimal za; decimal zb; tc; decimal zd;
                                 tr; tm]) by exact Hl.
  repeat match goal with |- _ /\ _ => split end.
  - unfold isBlank, JS.trim. rewrite Hl, Ename.
    cbn [String.append JS.trimStart]. rewrite Hspace.
    cbn [JS.trimEnd]. rewrite Hspace. reflexivity.
  - rewrite Hl. cbn [String.append]. rewrite !trimEnd_comma.
    pose proof (plainText_trim tm Hm) as Ht. unfold JS.trim in Ht.
    assert (Hs : JS.trimStart tm = tm).
    { destruct tm as [|x tm]; [reflexivity|].
      cbn [plainText JS.trimStart] in *.
      destruct (JS.isSpace x); [discriminate|reflexivity]. }
    rewrite Hs in Ht. now rewrite Ht.
  - rewrite Hjoin. apply lacks_join; [reflexivity|].
    apply Forall_cells; try assumption;
      try (apply plainText_lacks; first [assumption|apply decimal_plain]).
  - unfold cellsOf. rewrite Hjoin.
    rewrite split_join;
      [|discriminate
       |apply Forall_cells; try assumption;
        apply plainText_lacks; first [assumption|apply decimal_plain]].
    cbn [map]. rewrite Htrim.
    rewrite !(plainText_trim _ (decimal_plain _)).
    unfold AgentImportModal.row.
    match goal with
    | |- context [JS.at_ ?values 0] =>
        change (JS.at_ values 0) with (Some n);
        change (JS.at_ values 1) with (Some (decimal za));
        change (JS.at_ values 2) with (Some (decimal zb));
        change (JS.at_ values 4) with (Some (decimal zd))
    end.
    rewrite (proj1 (parse_small za Hza)), (proj1 (parse_small zb Hzb)),
      (proj2 (parse_small zd Hzd)).
    unfold imported. cbv zeta. fold n. rewrite Ea, Eb, Ed.
    assert (Hpos : forall z, (0 <= z)%Z ->
                             JS.ltZero (JS.Finite (z # 1)) = false).
    { intros z Hz. cbn [JS.ltZero]. apply negb_false_iff.
      apply Qle_bool_iff. unfold Qle. cbn. lia. }
    cbn [JS.isNaN orb].
    rewrite !Hpos by lia. cbn [orb].
    rewrite Ename. reflexivity.
Qed.

Lemma rows_accepted agents :
  Forall readsBack agents ->
  forall i t,
    forRows (AgentImportModal.row 0 1 2 4)
      (map (AgentTable.csvLine exotic) agents) i t
    = Finished (mkTally (successCount t + length agents) (errorCount t)
                  (added t ++ map imported agents)).
Proof.
  induction 1 as [|agent rest Hagent Hrest IH]; intros i t.
  - cbn. rewrite Nat.add_0_r, app_nil_r. now destruct t.
  - destruct (row_accepts agent i Hagent) as (Hb & _ & _ & Hrow).
    cbn [map]. rewrite (forRows_accept _ _ _ _ _ _ Hb Hrow), IH.
    cbn [successCount errorCount added length map].
    rewrite <- app_assoc. cbn [app]. do 2 f_equal. lia.
Qed.

End ExportImport.

Lemma export_lines exotic agents :
  (forall q, plainText (exotic q) = true) ->
  agents <> [] ->
  Forall readsBack agents ->
  let csvContent := AgentTable.handleExportCsv exotic agents in
  JS.trim csvContent = csvContent /\
  csvContent <> "" /\
  JS.split newline csvContent
  = JS.join "," AgentTable.headers :: map (AgentTable.csvLine exotic) agents.
Proof.
  intros Hplain Hne Hagents csvContent. subst csvContent.
  unfold AgentTable.handleExportCsv.
  set (lineOf := AgentTable.csvLine exotic).
  assert (Hstart : exists rest,
             JS.join lf (JS.join "," AgentTable.headers :: map lineOf agents)
             = String "A" rest).
  { destruct agents as [|agent rest]; [contradiction|]. cbn [map].
    eexists. cbn [JS.join AgentTable.headers String.append]. reflexivity. }
  destruct Hstart as [rest Hstart].
  repeat match goal with |- _ /\ _ => split end.
  - unfold JS.trim.
    assert (Hs : forall s, s = String "A" rest -> JS.trimStart s = s)
      by (now intros s ->).
    rewrite (Hs _ Hstart). clear Hs Hstart rest.
    destruct (exists_last Hne) as (front & last & ->).
    rewrite map_app. cbn [map].
    change (JS.join "," AgentTable.headers :: map lineOf front ++ [lineOf last])
      with ((JS.join "," AgentTable.headers :: map lineOf front)
            ++ [lineOf last]).
    rewrite join_snoc by discriminate.
    assert (Hlast : readsBack last).
    { rewrite Forall_forall in Hagents. apply Hagents, in_or_app.
      right. now left. }
    destruct (row_accepts exotic Hplain last 0 Hlast) as (Hb & He & _ & _).
    fold (lineOf last) in Hb, He.
    assert (He' : JS.trimEnd (lf ++ lineOf last) = (lf ++ lineOf last)%string).
    { unfold lf. cbn [String.append JS.trimEnd]. rewrite He.
      destruct (String.eqb_spec (lineOf last) "") as [E|E];
        [|now rewrite andb_false_r].
      rewrite E in Hb. discriminate. }
    rewrite trimEnd_app; rewrite He'; [reflexivity|].
    unfold lf. discriminate.
  - rewrite Hstart. discriminate.
  - unfold lf. apply split_join; [discriminate|].
    constructor; [reflexivity|].
    rewrite Forall_forall in *. intros line Hin.
    apply in_map_iff in Hin as (agent & <- & Hin).
    now destruct (row_accepts exotic Hplain agent 0 (Hagents agent Hin))
      as (_ & _ & Hl & _).
Qed.

(** X16.  What the table of agents exports, the import of agents reads
    back: for agents whose names have no white space around them, no
    comma and no line break, and whose counts and total deposits are
    whole numbers below [2^53], importing the exported text creates one
    agent per exported agent, in order, with the same name, counts and
    total deposits, open accounts set to zero, and no row refused.
    (The engine is taken to print numbers without commas or white
    space.) *)
Theorem exported_agents_import_again exotic agents :
  (forall q, plainText (exotic q) = true) ->
  agents <> [] ->
  Forall readsBack agents ->
  AgentImportModal.handleImport (AgentTable.handleExportCsv exotic agents)
  = Imported (length agents) 0 (map imported agents).
Proof.
  intros Hplain Hne Hagents.
  destruct (export_lines exotic agents Hplain Hne Hagents)
    as (Htrim & Hcsv & Hsplit).
  unfold AgentImportModal.handleImport, readCsv.
  rewrite Htrim, Hsplit.
  destruct (String.eqb_spec (AgentTable.handleExportCsv exotic agents) "")
    as [E|_]; [contradiction|].
  destruct agents as [|agent rest]; [contradiction|].
  cbn [map length Nat.ltb Nat.leb hd tl].
  change (headerOf (JS.join "," AgentTable.headers))
    with ["agent name"; "added today"; "monthly added"; "open accounts";
          "total deposits"; "commission rate"; "commission amount"].
  cbn [missingFields AgentImportModal.requiredFields filter JS.includes
       existsb String.eqb Ascii.eqb Bool.eqb orb negb length Nat.ltb Nat.leb
       JS.indexOf Z.ltb Z.compare Z.add Pos.add Pos.succ].
  pose proof (rows_accepted exotic Hplain (agent :: rest) Hagents 1 start)
    as Hrows.
  cbn [map] in Hrows. rewrite Hrows. reflexivity.
Qed.

Lemma exported_agents_import_again_witness :
  AgentImportModal.handleImport
    (AgentTable.handleExportCsv (exotic sampleEnv)
       [AgentTable.mkTeamAgent "a1"
          (mkAgent "John Doe" (JS.Finite 5) (JS.Finite 20) (JS.Finite 3)
             (JS.Finite 5000))
          (JS.Finite 4) (JS.Finite 200);
        AgentTable.mkTeamAgent "a2"
          (mkAgent "Al" (JS.Finite 0) (JS.Finite 1) (JS.Finite 7)
             (JS.Finite 15))
          (JS.Finite 0) (JS.Finite (3 # 5))])
  = Imported 2 0
      [mkAgent "John Doe" (JS.Finite 5) (JS.Finite 20) (JS.Finite 0)
         (JS.Finite 5000);
       mkAgent "Al" (JS.Finite 0) (JS.Finite 1) (JS.Finite 0)
         (JS.Finite 15)].
Proof.
  apply (exported_agents_import_again (exotic sampleEnv)
           [AgentTable.mkTeamAgent "a1"
              (mkAgent "John Doe" (JS.Finite 5) (JS.Finite 20) (JS.Finite 3)
                 (JS.Finite 5000))
              (JS.Finite 4) (JS.Finite 200);
            AgentTable.mkTeamAgent "a2"
              (mkAgent "Al" (JS.Finite 0) (JS.Finite 1) (JS.Finite 7)
                 (JS.Finite 15))
              (JS.Finite 0) (JS.Finite (3 # 5))]).
  - intros q. reflexivity.
  - discriminate.
  - repeat constructor; try discriminate;
      first [now exists 5%Z|now exists 20%Z|now exists 5000%Z
            |now exists 0%Z|now exists 1%Z|now exists 15%Z].
Defined.

(** ** Further properties: the search of the tables *)

Lemma filterWith_throws {A} (test : A -> option bool) l :
  JSArray.filterWith test l = None <-> Exists (fun x => test x = None) l.
Proof.
  induction l as [|x rest IH]; cbn [JSArray.filterWith].
  - split; [discriminate|intros H; inversion H].
  - destruct (test x) as [keep|] eqn:E.
    + destruct (JSArray.filterWith test rest) as [kept|].
      * split; [discriminate|]. intros H. inversion H; subst; [congruence|].
        match goal with H' : Exists _ rest |- _ => apply IH in H' end.
        discriminate.
      * split; [intros _|reflexivity]. right. now apply IH.
    + split; [intros _; now left|reflexivity].
Qed.

Lemma order_row_fields env clients orders a b c d e i values r :
  BulkOrderModal.row env clients orders a b c d e i values = Accept r ->
  order_shopId r = JS.at_ values a /\
  order_shopId r <> None /\
  location r = JS.at_ values c /\
  order_date r = rawDate (JS.at_ values b).
Proof.
  unfold BulkOrderModal.row, findClient.
  destruct (JS.at_ values a) as [shopId|] eqn:Ea; [|discriminate].
  destruct (find _ clients); [|discriminate].
  destruct (JS.isNaN _ || JS.leZero _); [discriminate|].
  destruct (BulkOrderModal.exactStatus _); [|discriminate].
  intros [= <-]. cbn. repeat split. discriminate.
Qed.

Lemma addOrder_imported env clients orders a b c d e i values r now :
  BulkOrderModal.row env clients orders a b c d e i values = Accept r ->
  ClientProvider.addOrder env now false orders r
  = ClientProvider.Local r (orders ++ [r]).
Proof.
  intros H. pose proof (order_row_id _ _ _ _ _ _ _ _ _ _ _ H) as Hid.
  unfold ClientProvider.addOrder. rewrite Hid, idOr_same, <- Hid.
  cbn [negb]. now destruct r.
Qed.

(** X17.  The search of the table of orders throws exactly when the
    term is not empty and one of the orders has no shop ID, or has no
    location and does not have the term in its shop ID, client name or
    agent.  The import of orders creates such orders: a row that ends
    before the location column is accepted, and without a signed-in
    user the order is listed as it is, its location [undefined]. *)
Theorem order_search_throws_without_location
        orders searchTerm statusFilter agentFilter :
  (OrdersTable.filtered orders searchTerm statusFilter agentFilter = None <->
   searchTerm <> "" /\
   Exists (fun order =>
             OrdersTable.searchHit (JS.toLowerCase searchTerm) order = None)
     orders) /\
  (forall term order,
      OrdersTable.searchHit term order = None <->
      order_shopId order = None \/
      (location order = None /\
       exists shopId,
         order_shopId order = Some shopId /\
         missesText term
           [shopId; order_clientName order; order_agent order])) /\
  (forall env clients snapshot a b c d e i values r now,
      BulkOrderModal.row env clients snapshot a b c d e i values = Accept r ->
      JS.at_ values c = None ->
      ClientProvider.addOrder env now false snapshot r
      = ClientProvider.Local r (snapshot ++ [r]) /\
      order_shopId r <> None /\ location r = None).
Proof.
  split; [|split].
  - unfold OrdersTable.filtered.
    destruct (String.eqb_spec searchTerm "") as [->|Hne].
    + split; [discriminate|intros [H _]; contradiction].
    + rewrite <- filterWith_throws.
      destruct (JSArray.filterWith _ orders); split; try discriminate; auto.
      intros [_ H]. discriminate.
  - intros term order. unfold OrdersTable.searchHit, missesText.
    destruct (order_shopId order) as [shopId|]; [|tauto].
    destruct (JSString.includes (JS.toLowerCase shopId) term) eqn:E1.
    { split; [discriminate|]. intros [H|(_ & s & [= <-] & H)];
        [discriminate|]. inversion H; subst. congruence. }
    destruct (JSString.includes (JS.toLowerCase (order_clientName order)) term)
      eqn:E2.
    { split; [discriminate|]. intros [H|(_ & s & [= <-] & H)];
        [discriminate|]. inversion H as [|? ? _ H']; subst.
      inversion H'; subst. congruence. }
    destruct (JSString.includes (JS.toLowerCase (order_agent order)) term)
      eqn:E3.
    { split; [discriminate|]. intros [H|(_ & s & [= <-] & H)];
        [discriminate|]. inversion H as [|? ? _ H']; subst.
      inversion H' as [|? ? _ H'']; subst. inversion H''; subst.
      congruence. }
    destruct (location order).
    + split; [discriminate|intros [H|(H & _)]; discriminate].
    + split; [intros _|reflexivity]. right. split; [reflexivity|].
      exists shopId. split; [reflexivity|]. repeat constructor; assumption.
  - intros env clients snapshot a b c d e i values r now Hrow Hc.
    destruct (order_row_fields _ _ _ _ _ _ _ _ _ _ _ Hrow)
      as (_ & Hshop & Hloc & _).
    split; [eapply addOrder_imported; eassumption|].
    split; [assumption|congruence].
Qed.

Lemma order_search_throws_without_location_witness :
  OrdersTable.filtered
    (listedAfter (fun now => ClientProvider.addOrder sampleEnv now false [])
       (callsOf (BulkOrderModal.handleImport
                   sampleEnv sampleClients [] shortOrderCsv)))
    "Paris" "all" "all"
  = None.
Proof.
  apply (proj2 (proj1 (order_search_throws_without_location _ _ _ _))).
  split; [discriminate|]. left. reflexivity.
Defined.

Lemma withdrawal_row_fields env clients withdrawals a b c d i values r :
  BulkWithdrawalModal.row env clients withdrawals a b c d i values = Accept r ->
  withdrawal_shopId r = JS.at_ values a.
Proof.
  unfold BulkWithdrawalModal.row.
  destruct (JS.isNaN _ || JS.leZero _); [discriminate|].
  destruct (BulkWithdrawalModal.paymentModeOf _); try discriminate.
  now intros [= <-].
Qed.

(** X18.  The search of the table of withdrawals throws exactly when
    the term is not empty and one of the withdrawals has no shop ID.
    The import of withdrawals creates such withdrawals: a row that ends
    before the shop ID column is accepted, and without a signed-in user
    the withdrawal is listed with its shop ID [undefined]. *)
Theorem withdrawal_search_throws_without_shop_id
        withdrawals searchTerm paymentModeFilter agentFilter :
  (WithdrawalsTable.filtered withdrawals searchTerm paymentModeFilter
     agentFilter = None <->
   searchTerm <> "" /\
   Exists (fun withdrawal => withdrawal_shopId withdrawal = None)
     withdrawals) /\
  (forall env clients snapshot a b c d i values r now,
      BulkWithdrawalModal.row env clients snapshot a b c d i values
      = Accept r ->
      JS.at_ values a = None ->
      exists stored,
        ClientProvider.addWithdrawal env now false snapshot r
        = ClientProvider.Local stored (snapshot ++ [stored]) /\
        withdrawal_shopId stored = None).
Proof.
  split.
  - unfold WithdrawalsTable.filtered.
    destruct (String.eqb_spec searchTerm "") as [->|Hne].
    + split; [discriminate|intros [H _]; contradiction].
    + assert (Hhit : forall w,
                 WithdrawalsTable.searchHit (JS.toLowerCase searchTerm) w
                 = None <-> withdrawal_shopId w = None).
      { intros w. unfold WithdrawalsTable.searchHit.
        destruct (withdrawal_shopId w); split; try discriminate; auto. }
      assert (Hex : Exists (fun w => withdrawal_shopId w = None) withdrawals
                    <-> Exists (fun w =>
                                  WithdrawalsTable.searchHit
                                    (JS.toLowerCase searchTerm) w = None)
                          withdrawals).
      { rewrite !Exists_exists.
        split; intros (w & Hin & H); exists w;
          (split; [assumption|now apply Hhit]). }
      rewrite Hex.
      rewrite <- filterWith_throws.
      destruct (JSArray.filterWith _ withdrawals); split; try discriminate;
        auto.
      intros [_ H]. discriminate.
  - intros env clients snapshot a b c d i values r now Hrow Ha.
    eexists. split; [reflexivity|]. cbn [withdrawal_shopId].
    rewrite (withdrawal_row_fields _ _ _ _ _ _ _ _ _ _ Hrow). exact Ha.
Qed.

Lemma withdrawal_search_throws_without_shop_id_witness :
  WithdrawalsTable.filtered
    (listedAfter
       (fun now => ClientProvider.addWithdrawal sampleEnv now false [])
       (callsOf (BulkWithdrawalModal.handleImport
                   sampleEnv sampleClients [] shortWithdrawalCsv)))
    "Ann" "all" "all"
  = None.
Proof.
  apply (proj2 (proj1 (withdrawal_search_throws_without_shop_id _ _ _ _))).
  split; [discriminate|]. left. reflexivity.
Defined.

(** X19.  Without a signed-in user an imported order keeps the text of
    its date cell, and when that text is no date the table of orders
    shows the text itself in the date column.  A withdrawal whose date
    text is no date is stored with the time of the call instead, which
    is what its table shows. *)
Theorem order_date_text_is_shown
        env printers clients snapshot a b c d e i values r now text format :
  BulkOrderModal.row env clients snapshot a b c d e i values = Accept r ->
  JS.at_ values b = Some text ->
  Date_parse env text = None ->
  (ClientProvider.addOrder env now false snapshot r
   = ClientProvider.Local r (snapshot ++ [r]) /\
   FormatHelpers.formatDate env printers (order_date r) format = text) /\
  (forall withdrawals withdrawal,
      withdrawal_date withdrawal = DateText text ->
      exists stored,
        ClientProvider.addWithdrawal env now false withdrawals withdrawal
        = ClientProvider.Local stored (withdrawals ++ [stored]) /\
        FormatHelpers.formatDate env printers
          (Some (withdrawal_date stored)) format
        = printers format now).
Proof.
  intros Hrow Hb Hparse. split; [split|].
  - eapply addOrder_imported; eassumption.
  - destruct (order_row_fields _ _ _ _ _ _ _ _ _ _ _ Hrow)
      as (_ & _ & _ & Hdate).
    rewrite Hdate, Hb. unfold rawDate, FormatHelpers.formatDate.
    destruct text; [reflexivity|]. now rewrite Hparse.
  - intros withdrawals withdrawal Hdate. eexists. split; [reflexivity|].
    cbn [withdrawal_date]. unfold ClientProvider.dateObjectOf.
    rewrite Hdate, Hparse. reflexivity.
Qed.

Lemma order_date_text_is_shown_witness :
  FormatHelpers.formatDate sampleEnv (fun _ _ => "1/1/2023")
    (order_date
       (mkOrder "OR00001" (Some "S1") "Ann" "Bob" (Some (DateText "someday"))
          (Some "Paris") (JS.Finite 10) Pending))
    FormatHelpers.localeDate
  = "someday".
Proof.
  apply (order_date_text_is_shown sampleEnv (fun _ _ => "1/1/2023")
           sampleClients [] 0%Z 1%Z 2%Z 3%Z 4%Z 1%nat
           ["S1"; "someday"; "Paris"; "10"; "Pending"]
           (mkOrder "OR00001" (Some "S1") "Ann" "Bob"
              (Some (DateText "someday")) (Some "Paris") (JS.Finite 10)
              Pending)
           0%Z "someday" FormatHelpers.localeDate).
  - vm_compute. reflexivity.
  - reflexivity.
  - reflexivity.
Defined.

(** ** Further properties: editing an agent in place *)

Lemma digit_no_base c :
  isDigit c = true ->
  Ascii.eqb c "x" || Ascii.eqb c "X" = false /\
  Ascii.eqb c "o" || Ascii.eqb c "O" = false /\
  Ascii.eqb c "b" || Ascii.eqb c "B" = false /\
  Ascii.eqb c "I" = false.
Proof.
  destruct c as [[] [] [] [] [] [] [] []]; try discriminate;
    intros _; repeat split.
Qed.

Lemma ofString_blank text :
  allSpaces text = true -> JSNumber.ofString text = JS.Finite 0.
Proof.
  intros H. apply trim_blank in H. unfold JSNumber.ofString.
  now rewrite H.
Qed.

(** [Number] reads the numeral of a small count back. *)
Lemma ofString_small z :
  (0 <= z < 2 ^ 53)%Z -> JSNumber.ofString (decimal z) = JS.Finite (z # 1).
Proof.
  intros Hz. unfold JSNumber.ofString.
  rewrite (plainText_trim _ (decimal_plain z)).
  destruct (decimal_nonneg z (proj1 Hz)) as (d & Hnil & Hs & Hv).
  unfold decimal. rewrite Hs.
  pose proof (digits_uint d 0 0) as Hd.
  pose proof (onlyDigits_uint d) as Hall.
  pose proof (nb_digits_nonnil d Hnil) as Hnb.
  rewrite uintValue_zero, Hv in Hd. cbn [Nat.add] in Hd.
  remember (NilEmpty.string_of_uint d) as s eqn:Es. clear Es Hs.
  assert (Hdec : JSNumber.decimalLiteral s = JS.Finite (z # 1)).
  { destruct s as [|c r].
    { cbn [JS.digits] in Hd. injection Hd as _ Hd. lia. }
    cbn [onlyDigits] in Hall. apply andb_prop in Hall as [Hc _].
    destruct (isDigit_cases c Hc) as (_ & Hsign & _).
    destruct (digit_no_base c Hc) as (_ & _ & _ & HI).
    unfold JSNumber.decimalLiteral. rewrite Hsign.
    assert (Hinf : (String c r =? "Infinity") = false).
    { cbn [String.eqb]. now rewrite HI. }
    rewrite Hinf, Hd. rewrite Nat.add_0_r.
    destruct (Nat.eqb_spec (Decimal.nb_digits d) 0) as [E|E]; [lia|].
    unfold JS.scale10. cbn [Z.of_nat Z.opp Z.leb Z.compare].
    rewrite Z.pow_0_r, Z.mul_1_r. now apply roundToDouble_int. }
  destruct s as [|c [|x rest]].
  - cbn [JS.digits] in Hd. injection Hd as _ Hd. lia.
  - destruct c as [[] [] [] [] [] [] [] []]; exact Hdec.
  - cbn [onlyDigits] in Hall. apply andb_prop in Hall as [_ Hx].
    apply andb_prop in Hx as [Hx _].
    destruct (digit_no_base x Hx) as (Hx1 & Hx2 & Hx3 & _).
    destruct c as [[] [] [] [] [] [] [] []]; try exact Hdec.
    now rewrite Hx1, Hx2, Hx3.
Qed.

Lemma withNumber_same field agent :
  AgentTable.withNumber field (AgentTable.fieldOf field agent) agent = agent.
Proof. destruct agent as [id [] rate com], field; reflexivity. Qed.

(** X20.  Editing a cell of the table of agents in place, for the first
    agent of the list with its identifier: a name is saved as typed,
    the empty text too; a count cell that is left blank is saved as
    zero, and one that holds the numeral of a whole number from zero on
    as that number; only the edited field changes.  Saving without
    typing gives the agent back as it is, for a count that is a number
    and not negative. *)
Theorem cell_edit_saves_what_is_typed agents agent :
  find (fun a => AgentTable.agent_id a =? AgentTable.agent_id agent)
    agents = Some agent ->
  (forall text,
      AgentTable.handleCellEditSave agents
        (Some (AgentTable.change (AgentTable.doubleClickName agent) text))
      = AgentTable.Updated (AgentTable.withName text agent)) /\
  (forall field text,
      allSpaces text = true ->
      AgentTable.handleCellEditSave agents
        (Some (AgentTable.change
                 (AgentTable.doubleClickNumber agent field) text))
      = AgentTable.Updated
          (AgentTable.withNumber field (JS.Finite 0) agent)) /\
  (forall field z,
      (0 <= z < 2 ^ 53)%Z ->
      AgentTable.handleCellEditSave agents
        (Some (AgentTable.change
                 (AgentTable.doubleClickNumber agent field) (decimal z)))
      = AgentTable.Updated
          (AgentTable.withNumber field (JS.Finite (z # 1)) agent)) /\
  (forall field,
      notNegative (AgentTable.fieldOf field agent) ->
      AgentTable.handleCellEditSave agents
        (Some (AgentTable.doubleClickNumber agent field))
      = AgentTable.Updated agent) /\
  (forall field,
      AgentTable.handleCellEditSave agents
        (Some (AgentTable.doubleClickNumber agent field))
      = AgentTable.InvalidValue <->
      badAmount (AgentTable.fieldOf field agent)).
Proof.
  intros Hfind.
  unfold AgentTable.handleCellEditSave, AgentTable.doubleClickName,
    AgentTable.doubleClickNumber, AgentTable.change.
  rewrite Hfind. cbn [AgentTable.numberOf].
  repeat match goal with |- _ /\ _ => split end.
  - reflexivity.
  - intros field text Hblank. now rewrite (ofString_blank text Hblank).
  - intros field z Hz. rewrite (ofString_small z Hz).
    cbn [JS.isNaN orb JS.ltZero].
    assert (Hle : Qle_bool 0 (z # 1) = true).
    { apply Qle_bool_iff. unfold Qle. cbn. lia. }
    now rewrite Hle.
  - intros field [Hnan Hneg]. rewrite Hnan, Hneg. cbn [orb].
    now rewrite withNumber_same.
  - intros field. unfold badAmount.
    destruct (JS.isNaN _); cbn [orb].
    + split; [auto|reflexivity].
    + destruct (JS.ltZero _); split; try discriminate; auto.
      intros [H|H]; discriminate.
Qed.

Lemma cell_edit_saves_what_is_typed_witness :
  AgentTable.handleCellEditSave
    [AgentTable.mkTeamAgent "a1"
       (mkAgent "Al" (JS.Finite 2) (JS.Finite 3) (JS.Finite 1)
          (JS.Finite 10))
       (JS.Finite 4) (JS.Finite (2 # 5))]
    (Some (AgentTable.EditNumber "a1" AgentTable.MonthlyAdded
             (AgentTable.Text " ")))
  = AgentTable.Updated
      (AgentTable.mkTeamAgent "a1"
         (mkAgent "Al" (JS.Finite 2) (JS.Finite 0) (JS.Finite 1)
            (JS.Finite 10))
         (JS.Finite 4) (JS.Finite (2 # 5))).
Proof.
  refine (proj1 (proj2 (cell_edit_saves_what_is_typed
                          [AgentTable.mkTeamAgent "a1"
                             (mkAgent "Al" (JS.Finite 2) (JS.Finite 3)
                                (JS.Finite 1) (JS.Finite 10))
                             (JS.Finite 4) (JS.Finite (2 # 5))]
                          (AgentTable.mkTeamAgent "a1"
                             (mkAgent "Al" (JS.Finite 2) (JS.Finite 3)
                                (JS.Finite 1) (JS.Finite 10))
                             (JS.Finite 4) (JS.Finite (2 # 5)))
                          eq_refl))
            AgentTable.MonthlyAdded " " eq_refl).
Defined.

(** ** Further properties: a batch that the store rejects *)

Lemma firstn_add {A} (l : list A) a b :
  firstn (a + b) l = firstn a l ++ firstn b (skipn a l).
Proof.
  revert l. induction a as [|a IH]; intros l; [reflexivity|].
  destruct l as [|x l]; cbn [Nat.add firstn skipn app].
  - now rewrite firstn_nil.
  - now rewrite IH.
Qed.

Section RejectedCommit.

Import BulkWithdrawalBatch.

Context {A : Type} (commit : nat -> bool) (allWithdrawals : list A).

Lemma commitFrom_rejected k : forall d m fuel,
  k = (m + d)%nat ->
  (forall j, (m <= j < k)%nat -> commit j = true) ->
  commit k = false ->
  (k * BATCH_SIZE < length allWithdrawals)%nat ->
  (length allWithdrawals - m * BATCH_SIZE <= fuel)%nat ->
  exists written,
    commitFrom fuel commit allWithdrawals (m * BATCH_SIZE)
    = (written, false) /\
    length written = d /\
    concat written
    = firstn (d * BATCH_SIZE) (skipn (m * BATCH_SIZE) allWithdrawals).
Proof.
  pose proof BATCH_SIZE_pos as Hb.
  induction d as [|d IH]; intros m fuel Hk Hyes Hno Hlen Hfuel.
  - rewrite Nat.add_0_r in Hk. subst m.
    destruct fuel as [|fuel]; [lia|]. cbn [commitFrom].
    destruct (Nat.ltb_spec (k * BATCH_SIZE) (length allWithdrawals));
      [|lia].
    rewrite Nat.div_mul by lia. rewrite Hno.
    exists []. repeat split.
  - assert (Hm : (m * BATCH_SIZE + BATCH_SIZE = S m * BATCH_SIZE)%nat)
      by (cbn [Nat.mul]; lia).
    assert (Hmk : (S m * BATCH_SIZE <= k * BATCH_SIZE)%nat)
      by (apply Nat.mul_le_mono_r; lia).
    destruct fuel as [|fuel]; [lia|]. cbn [commitFrom].
    destruct (Nat.ltb_spec (m * BATCH_SIZE) (length allWithdrawals));
      [|lia].
    rewrite Nat.div_mul by lia. rewrite (Hyes m) by lia.
    rewrite Hm.
    destruct (IH (S m) fuel) as (written & Hrun & Hcount & Hcat);
      try assumption; try lia.
    + intros j Hj. apply Hyes. lia.
    + rewrite Hrun. rewrite <- Hm.
      exists (slice allWithdrawals (m * BATCH_SIZE)
                (m * BATCH_SIZE + BATCH_SIZE) :: written).
      split; [reflexivity|]. split; [cbn [length]; lia|].
      cbn [concat]. rewrite Hcat. unfold slice.
      replace (m * BATCH_SIZE + BATCH_SIZE - m * BATCH_SIZE)%nat
        with BATCH_SIZE by lia.
      rewrite <- Hm, (Nat.add_comm (m * BATCH_SIZE)), <- skipn_skipn.
      replace (S d * BATCH_SIZE)%nat with (BATCH_SIZE + d * BATCH_SIZE)%nat
        by (cbn [Nat.mul]; lia).
      now rewrite firstn_add.
Qed.

End RejectedCommit.

Lemma paymentModePresent_checked header lines :
  forallb (fun line =>
             isBlank line
             || match JS.at_ (cellsOf line)
                        (JS.indexOf header "payment mode") with
                | Some _ => true
                | None => false
                end) lines = true ->
  paymentModePresent header lines.
Proof.
  intros H line Hin Hb. rewrite forallb_forall in H.
  specialize (H line Hin). rewrite Hb in H. cbn [orb] in H.
  now destruct (JS.at_ (cellsOf line) (JS.indexOf header "payment mode")).
Qed.

(** X21.  A pass of the commit loop of the batched withdrawal import
    fails when a record of its batch has no shop ID, which [batch.set]
    refuses, or when the library of the store throws in it.  If the
    pass number [k] (from zero) is the first that fails, the run ends in
    the [catch] block and publishes no counters, although the [k]
    batches before it stay written; they hold the first [450 k] passing
    records in row order.  Nothing of the later records is written. *)
Theorem rejected_batch_ends_the_import
        env commit clients withdrawals csvData header lines k :
  readCsv BulkWithdrawalBatch.requiredFields csvData = inr (header, lines) ->
  paymentModePresent header lines ->
  let records :=
    acceptedOf (verdicts (batchRow env clients withdrawals header) lines 1) in
  (forall j, (j < k)%nat ->
             BulkWithdrawalBatch.passes commit records j = true) ->
  BulkWithdrawalBatch.passes commit records k = false ->
  (k * BulkWithdrawalBatch.BATCH_SIZE < length records)%nat ->
  exists written,
    BulkWithdrawalBatch.handleImport env commit clients withdrawals csvData
    = Crashed FirestoreError written /\
    length written = k /\
    concat written
    = firstn (k * BulkWithdrawalBatch.BATCH_SIZE) records.
Proof.
  intros H Hp records Hyes Hno Hlen.
  unfold BulkWithdrawalBatch.handleImport. rewrite H.
  fold (batchRow env clients withdrawals header).
  rewrite forRows_verdicts.
  - cbn [start successCount errorCount added app Nat.add]. fold records.
    set (pass := BulkWithdrawalBatch.passes commit records) in *.
    destruct (commitFrom_rejected pass records k k 0 (length records))
      as (written & Hrun & Hcount & Hcat); try assumption; try lia.
    + intros j Hj. apply Hyes. lia.
    + cbn [Nat.mul] in Hrun, Hcat. unfold BulkWithdrawalBatch.commitAll.
      rewrite Hrun. exists written. now repeat split.
  - apply (verdicts_where _ (fun values =>
             JS.at_ values (JS.indexOf header "payment mode") <> None)).
    + intros i values Hv. now apply withdrawal_row_throws.
    + exact Hp.
Qed.

Lemma rejected_batch_ends_the_import_witness :
  exists written,
    BulkWithdrawalBatch.handleImport sampleEnv (fun _ => true) [] []
      lateShopIdCsv
    = Crashed FirestoreError written /\
    length written = 1%nat /\
    concat written
    = firstn (1 * BulkWithdrawalBatch.BATCH_SIZE)
        (acceptedOf
           (verdicts
              (batchRow sampleEnv [] []
                 (headerOf "date,amount,payment mode,note,shop id"))
              (tl (linesOf lateShopIdCsv)) 1)).
Proof.
  apply (rejected_batch_ends_the_import sampleEnv (fun _ => true) [] []
           lateShopIdCsv (headerOf "date,amount,payment mode,note,shop id")
           (tl (linesOf lateShopIdCsv)) 1).
  - vm_compute. reflexivity.
  - apply paymentModePresent_checked. vm_compute. reflexivity.
  - intros j Hj. assert (j = 0)%nat as -> by lia. vm_compute. reflexivity.
  - vm_compute. reflexivity.
  - apply Nat.ltb_lt. vm_compute. reflexivity.
Defined.
